(** * smart-voca: spaced-repetition scheduling, exam recording and the wrong-note ledger

    A shallow embedding of the model and controller layer of the application
    (models/statistics_model.py, models/exam_model.py, models/learning_model.py,
    models/word_model.py, models/base_model.py, database/db_connection.py,
    controllers/exam_controller.py, controllers/learning_controller.py),
    followed by the properties of the specification stated over it.

    Python code that talks to SQLite is written in a state monad over a
    [World]: the database contents, the state of the shared connection, and
    the three sources of input the code reads from its environment (the
    clock, the random generator, and the storage layer's ability to reject a
    statement).  Opening the database file and committing are taken to
    succeed; log output is left out. *)

From Stdlib Require Import ZArith List Bool Lia String Ascii Sorted Permutation.
From Stdlib Require Import Floats Uint63.
Import ListNotations.
Open Scope string_scope.
Open Scope list_scope.
Open Scope Z_scope.

(* ================================================================== *)
(** * Python and SQLite values *)
(* ================================================================== *)

(** The storage classes of SQLite that the caller-supplied question
    dictionaries carry. *)
Inductive Value : Type :=
| VNull
| VInt (z : Z)
| VText (s : string).

(** A Python [dict] with string keys, in insertion order. *)
Definition dict := list (string * Value).

Fixpoint dict_get (k : string) (d : dict) : option Value :=
  match d with
  | [] => None
  | (k', v) :: d' => if String.eqb k k' then Some v else dict_get k d'
  end.

Definition keys (d : dict) : list string := map fst d.

Definition mem_string (s : string) (l : list string) : bool :=
  existsb (String.eqb s) l.

(** [dict.get(key, default)] on the integer-keyed interval table. *)
Fixpoint int_dict_get (k : Z) (d : list (Z * Z)) (default : Z) : Z :=
  match d with
  | [] => default
  | (k', v) :: d' => if k =? k' then v else int_dict_get k d' default
  end.

(** SQLite compares TEXT values with the BINARY collation: byte by byte,
    a proper prefix first.  This is [String.leb]. *)
Definition text_le (a b : string) : bool := String.leb a b.

(* ================================================================== *)
(** * ORDER BY and LIMIT *)
(* ================================================================== *)

Section OrderBy.
Context {A : Type} (le : A -> A -> bool).

Fixpoint insert_by (x : A) (l : list A) : list A :=
  match l with
  | [] => [x]
  | y :: l' => if le x y then x :: l else y :: insert_by x l'
  end.

(** ORDER BY: SQLite leaves the relative order of rows that compare equal
    unspecified; the embedding fixes it to the order of the scan. *)
Definition order_by (l : list A) : list A :=
  fold_right insert_by [] l.
End OrderBy.

(** LIMIT n: a negative bound means no bound at all. *)
Definition sql_limit {A : Type} (n : Z) (l : list A) : list A :=
  if n <? 0 then l else firstn (Z.to_nat n) l.

(** GROUP BY key with COUNT(...), ORDER BY key ASC: the distinct keys in
    ascending order, each with the number of rows that carry it. *)
Definition group_count (ks : list Z) : list (Z * Z) :=
  map (fun k => (k, Z.of_nat (count_occ Z.eq_dec ks k)))
      (order_by Z.leb (nodup Z.eq_dec ks)).

(** SELECT DISTINCT text ... ORDER BY text ASC *)
Definition distinct_sorted (l : list string) : list string :=
  order_by text_le (nodup string_dec l).

(** d[k] = v on an integer-keyed dict. *)
Fixpoint int_dict_set (k v : Z) (d : list (Z * Z)) : list (Z * Z) :=
  match d with
  | [] => [(k, v)]
  | (k', v') :: d' =>
      if k =? k' then (k, v) :: d' else (k', v') :: int_dict_set k v d'
  end.

(** {k: v for (k, v) in rows} *)
Definition int_dict_of (rows : list (Z * Z)) : list (Z * Z) :=
  fold_left (fun d '(k, v) => int_dict_set k v d) rows [].

(** range(n) *)
Definition range (n : Z) : list Z := map Z.of_nat (seq 0 (Z.to_nat n)).

(* ================================================================== *)
(** * datetime *)
(* ================================================================== *)

Module datetime.

Record t : Type := mk {
  year : Z; month : Z; day : Z;
  hour : Z; minute : Z; second : Z; microsecond : Z
}.

Definition MAXORDINAL : Z := 3652059.

Definition _is_leap (y : Z) : bool :=
  (y mod 4 =? 0) && (negb (y mod 100 =? 0) || (y mod 400 =? 0)).

Definition _days_before_year (yr : Z) : Z :=
  let y := yr - 1 in y * 365 + y / 4 - y / 100 + y / 400.

Definition _DAYS_IN_MONTH : list Z :=
  [-1; 31; 28; 31; 30; 31; 30; 31; 31; 30; 31; 30; 31].

Definition _DAYS_BEFORE_MONTH : list Z :=
  [-1; 0; 31; 59; 90; 120; 151; 181; 212; 243; 273; 304; 334].

Definition index (l : list Z) (i : Z) : Z := nth (Z.to_nat i) l 0.

Definition _days_before_month (y m : Z) : Z :=
  index _DAYS_BEFORE_MONTH m + (if (2 <? m) && _is_leap y then 1 else 0).

Definition _ymd2ord (y m d : Z) : Z :=
  _days_before_year y + _days_before_month y m + d.

Definition _DI400Y : Z := 146097.
Definition _DI100Y : Z := 36524.
Definition _DI4Y : Z := 1461.

Definition _ord2ymd (n0 : Z) : Z * Z * Z :=
  let n := n0 - 1 in
  let n400 := n / _DI400Y in
  let n := n mod _DI400Y in
  let yr := n400 * 400 + 1 in
  let n100 := n / _DI100Y in
  let n := n mod _DI100Y in
  let n4 := n / _DI4Y in
  let n := n mod _DI4Y in
  let n1 := n / 365 in
  let n := n mod 365 in
  let yr := yr + n100 * 100 + n4 * 4 + n1 in
  if (n1 =? 4) || (n100 =? 4) then (yr - 1, 12, 31)
  else
    let leapyear := (n1 =? 3) && (negb (n4 =? 24) || (n100 =? 3)) in
    let m := Z.shiftr (n + 50) 5 in
    let preceding :=
      index _DAYS_BEFORE_MONTH m + (if (2 <? m) && leapyear then 1 else 0) in
    if n <? preceding then
      let m := m - 1 in
      let preceding :=
        preceding
        - (index _DAYS_IN_MONTH m + (if (m =? 2) && leapyear then 1 else 0)) in
      (yr, m, n - preceding + 1)
    else (yr, m, n - preceding + 1).

Definition toordinal (d : t) : Z := _ymd2ord (year d) (month d) (day d).

(** [d + timedelta(days=n)]; [None] is the OverflowError raised when the
    date leaves the range of years 1..9999. *)
Definition add_days (d : t) (n : Z) : option t :=
  let o := toordinal d + n in
  if (0 <? o) && (o <=? MAXORDINAL) then
    let '(y, m, dd) := _ord2ymd o in
    Some (mk y m dd (hour d) (minute d) (second d) (microsecond d))
  else None.

Definition digit (n : Z) : string :=
  String (ascii_of_nat (48 + Z.to_nat (n mod 10))) EmptyString.

(** %m, %d, %H, %M, %S: two digits, zero padded. *)
Definition pad2 (n : Z) : string := (digit (n / 10) ++ digit n)%string.

(** %Y; every year a clock returns has four digits. *)
Definition pad4 (n : Z) : string :=
  (digit (n / 1000) ++ digit (n / 100) ++ digit (n / 10) ++ digit n)%string.

(** The format directive "%Y-%m-%d". *)
Definition strftime_Ymd (d : t) : string :=
  (pad4 (year d) ++ "-" ++ pad2 (month d) ++ "-" ++ pad2 (day d))%string.

(** The format directive "%H:%M:%S". *)
Definition strftime_HMS (d : t) : string :=
  (pad2 (hour d) ++ ":" ++ pad2 (minute d) ++ ":" ++ pad2 (second d))%string.

(** strftime('%Y-%m-%d %H:%M:%S') *)
Definition strftime_full (d : t) : string :=
  (strftime_Ymd d ++ " " ++ strftime_HMS d)%string.

(** strftime('%Y-%m-%d 00:00:00') *)
Definition strftime_midnight (d : t) : string :=
  (strftime_Ymd d ++ " 00:00:00")%string.

(** strftime('%Y-%m-%d 23:59:59') *)
Definition strftime_end_of_day (d : t) : string :=
  (strftime_Ymd d ++ " 23:59:59")%string.

Definition same_date (a b : t) : Prop :=
  year a = year b /\ month a = month b /\ day a = day b.

Definition start_of_day (d : t) : t :=
  mk (year d) (month d) (day d) 0 0 0 0.

End datetime.

(* ================================================================== *)
(** * float *)
(* ================================================================== *)

Module PyFloat.

(** [float(n)] for an integer below 2^53, where the conversion is exact. *)
Definition of_int (z : Z) : float := PrimFloat.of_uint63 (Uint63.of_Z z).

(** Integer nearest to n/d, ties to the even one (d > 0, n >= 0). *)
Definition round_half_even_div (n d : Z) : Z :=
  let q := n / d in
  let r := n mod d in
  match 2 * r ?= d with
  | Lt => q
  | Gt => q + 1
  | Eq => if Z.even q then q else q + 1
  end.

(** [round(x, 1)]: the exact binary value of [x] is rounded to one decimal
    (ties to even) and the decimal is read back as the nearest double.
    NaN, the infinities and zeros are returned as they are. *)
Definition round1 (x : float) : float :=
  match Prim2SF x with
  | S754_finite s m e =>
      if 0 <=? e then x
      else
        let r := round_half_even_div (10 * Zpos m) (2 ^ (- e)) in
        let y := PrimFloat.div (of_int r) (of_int 10) in
        if s then PrimFloat.opp y else y
  | _ => x
  end.

End PyFloat.

(* ================================================================== *)
(** * Tables *)
(* ================================================================== *)

(** database/schema.sql is not part of the sources at hand; the columns of
    each table are the FIELDS its model class declares. *)

Module WordRow.
Record t : Type := mk {
  word_id : Z; word_text : string; meaning_ko : string; category : string;
  memo : string; is_favorite : Z; created_date : string;
  modified_date : string; is_deleted : Z
}.
End WordRow.

Module StatsRow.
Record t : Type := mk {
  stats_id : Z; word_id : Z; total_attempts : Z; correct_count : Z;
  last_review : string; next_review : string; mastery_level : Z
}.
Definition set_stats_id (i : Z) (r : t) : t :=
  mk i (word_id r) (total_attempts r) (correct_count r)
     (last_review r) (next_review r) (mastery_level r).
End StatsRow.

Module HistoryRow.
Record t : Type := mk {
  history_id : Z; session_id : Z; word_id : Z; is_correct : Z;
  response_time : float; learning_date : string
}.
Definition set_history_id (i : Z) (r : t) : t :=
  mk i (session_id r) (word_id r) (is_correct r)
     (response_time r) (learning_date r).
End HistoryRow.

Module ExamHistoryRow.
Record t : Type := mk {
  exam_id : Z; exam_date : string; exam_type : string; total_questions : Z;
  score : float; duration_sec : Z; is_deleted : Z
}.
Definition set_exam_id (i : Z) (r : t) : t :=
  mk i (exam_date r) (exam_type r) (total_questions r)
     (score r) (duration_sec r) (is_deleted r).
End ExamHistoryRow.

Module ExamQuestionRow.
Record t : Type := mk {
  question_id : Z; exam_id : Z; word_id : Z; question_text : Value;
  correct_answer : Value; user_answer : Value; is_correct : Z
}.
End ExamQuestionRow.

Module WrongNoteRow.
Record t : Type := mk {
  note_id : Z; word_id : Z; latest_exam_id : Z; wrong_count : Z;
  last_wrong_date : string
}.
Definition set_note_id (i : Z) (r : t) : t :=
  mk i (word_id r) (latest_exam_id r) (wrong_count r) (last_wrong_date r).
End WrongNoteRow.

Record Tables : Type := mkTables {
  words : list WordRow.t;
  word_statistics : list StatsRow.t;
  learning_history : list HistoryRow.t;
  exam_history : list ExamHistoryRow.t;
  exam_questions : list ExamQuestionRow.t;
  wrong_note : list WrongNoteRow.t
}.

Definition set_word_statistics (l : list StatsRow.t) (t : Tables) : Tables :=
  mkTables (words t) l (learning_history t) (exam_history t)
           (exam_questions t) (wrong_note t).

Definition set_learning_history (l : list HistoryRow.t) (t : Tables) : Tables :=
  mkTables (words t) (word_statistics t) l (exam_history t)
           (exam_questions t) (wrong_note t).

Definition set_exam_history (l : list ExamHistoryRow.t) (t : Tables) : Tables :=
  mkTables (words t) (word_statistics t) (learning_history t) l
           (exam_questions t) (wrong_note t).

Definition set_exam_questions (l : list ExamQuestionRow.t) (t : Tables) : Tables :=
  mkTables (words t) (word_statistics t) (learning_history t) (exam_history t)
           l (wrong_note t).

Definition set_wrong_note (l : list WrongNoteRow.t) (t : Tables) : Tables :=
  mkTables (words t) (word_statistics t) (learning_history t) (exam_history t)
           (exam_questions t) l.

(** The rowid SQLite gives a row inserted without one: one more than the
    largest in the table, 1 in an empty table. *)
Definition next_rowid (ids : list Z) : Z :=
  match ids with
  | [] => 1
  | i :: rest => fold_left Z.max rest i + 1
  end.

(* ================================================================== *)
(** * The world: database file, shared connection, environment *)
(* ================================================================== *)

(** sqlite3.Connection.  [snapshot] holds the contents to return to on
    ROLLBACK while a transaction is open; [legacy] is true for the default
    isolation_level, under which the driver opens a transaction before an
    INSERT or UPDATE, and false once isolation_level is None. *)
Record Connection : Type := mkConnection {
  snapshot : option Tables;
  legacy : bool
}.

Record World : Type := mkWorld {
  db : Tables;                 (* contents as the connection sees them *)
  _conn : option Connection;   (* DBConnection._conn of the singleton *)
  faults : list bool;          (* per statement: the storage layer raises sqlite3.Error *)
  clock : nat -> datetime.t;   (* successive readings of datetime.now() *)
  ticks : nat;
  rng : list nat               (* successive draws of the random generator *)
}.

Definition set_db (t : Tables) (w : World) : World :=
  mkWorld t (_conn w) (faults w) (clock w) (ticks w) (rng w).

Definition set_conn (c : option Connection) (w : World) : World :=
  mkWorld (db w) c (faults w) (clock w) (ticks w) (rng w).

Definition set_faults (f : list bool) (w : World) : World :=
  mkWorld (db w) (_conn w) f (clock w) (ticks w) (rng w).

Definition set_ticks (n : nat) (w : World) : World :=
  mkWorld (db w) (_conn w) (faults w) (clock w) n (rng w).

Definition set_rng (r : list nat) (w : World) : World :=
  mkWorld (db w) (_conn w) (faults w) (clock w) (ticks w) r.

(** What is in the database file once the connection is gone: changes of a
    transaction that was never committed are lost. *)
Definition persisted (w : World) : Tables :=
  match _conn w with
  | Some (mkConnection (Some t0) _) => t0
  | _ => db w
  end.

Definition M (A : Type) : Type := World -> A * World.

Definition ret {A : Type} (a : A) : M A := fun w => (a, w).

Definition bind {A B : Type} (m : M A) (k : A -> M B) : M B :=
  fun w => let (a, w') := m w in k a w'.

Declare Scope monad_scope.
Delimit Scope monad_scope with monad.
Notation "x <- m ;; k" := (bind m (fun x => k))
  (at level 61, m at next level, right associativity) : monad_scope.
Notation "m ;; k" := (bind m (fun _ => k))
  (at level 61, right associativity) : monad_scope.
Open Scope monad_scope.

(** datetime.now() *)
Definition now : M datetime.t :=
  fun w => (clock w (ticks w), set_ticks (S (ticks w)) w).

(** datetime.now().strftime('%Y-%m-%d %H:%M:%S') *)
Definition now_str : M string :=
  d <- now ;; ret (datetime.strftime_full d).

(** Fisher-Yates as random.shuffle runs it: for i from len-1 down to 1,
    swap x[i] with x[randbelow(i+1)]. *)
Definition randbelow (n : nat) : M nat :=
  fun w => match rng w with
           | [] => (0%nat, w)
           | r :: rest => (Nat.modulo r n, set_rng rest w)
           end.

Definition swap {A : Type} (l : list A) (i j : nat) : list A :=
  match nth_error l i, nth_error l j with
  | Some a, Some b =>
      let l1 := firstn i l ++ b :: skipn (S i) l in
      firstn j l1 ++ a :: skipn (S j) l1
  | _, _ => l
  end.

Fixpoint shuffle_from {A : Type} (i : nat) (l : list A) : M (list A) :=
  match i with
  | O => ret l
  | S i' => j <- randbelow (S i) ;; shuffle_from i' (swap l i j)
  end.

Definition shuffle {A : Type} (l : list A) : M (list A) :=
  shuffle_from (Nat.pred (List.length l)) l.

(* ================================================================== *)
(** * database/db_connection.py *)
(* ================================================================== *)

Module DBConnection.

(** A statement the code sends to [execute], by what it does to the
    tables.  [SELECT q] returns the rows [q] computes; [DML f] is an
    INSERT or UPDATE: [f] returns the new contents with lastrowid and
    rowcount, or [None] when the statement violates the schema. *)
Inductive Sql (R : Type) : Type :=
| BEGIN
| ROLLBACK
| SELECT (q : Tables -> list R)
| DML (f : Tables -> option (Tables * Z * Z)).
Arguments BEGIN {R}.
Arguments ROLLBACK {R}.
Arguments SELECT {R} q.
Arguments DML {R} f.

Record Cursor (R : Type) : Type := mkCursor {
  lastrowid : Z;
  rowcount : Z;
  rows : list R
}.
Arguments mkCursor {R}.
Arguments lastrowid {R}.
Arguments rowcount {R}.
Arguments rows {R}.

Definition connect : M unit := fun w =>
  match _conn w with
  | None => (tt, set_conn (Some (mkConnection None true)) w)
  | Some _ => (tt, w)
  end.

(** sqlite3.Connection.rollback: undoes the open transaction, if any. *)
Definition conn_rollback (w : World) : World :=
  match _conn w with
  | Some (mkConnection (Some t0) l) =>
      set_conn (Some (mkConnection None l)) (set_db t0 w)
  | _ => w
  end.

(** sqlite3.Connection.commit: ends the open transaction, if any. *)
Definition conn_commit (w : World) : World :=
  match _conn w with
  | Some (mkConnection (Some _) l) => set_conn (Some (mkConnection None l)) w
  | _ => w
  end.

Definition close : M unit := fun w =>
  match _conn w with
  | Some _ => (tt, set_conn None (conn_rollback w))
  | None => (tt, w)
  end.

Definition commit : M unit := fun w => (tt, conn_commit w).

(** self._conn.isolation_level = None: the driver commits what is open
    and stops opening transactions by itself. *)
Definition set_isolation_level_None : M unit := fun w =>
  match _conn (conn_commit w) with
  | Some c => (tt, set_conn (Some (mkConnection (snapshot c) false)) (conn_commit w))
  | None => (tt, w)
  end.

Definition next_fault (w : World) : bool * World :=
  match faults w with
  | [] => (false, w)
  | b :: rest => (b, set_faults rest w)
  end.

(** execute: no connection gives None; an sqlite3.Error is caught, the
    connection is rolled back and None is returned. *)
Definition execute {R : Type} (sql : Sql R) : M (option (Cursor R)) := fun w =>
  match _conn w with
  | None => (None, w)
  | Some c =>
      let (fault, w1) := next_fault w in
      if fault then (None, conn_rollback w1)
      else
        match sql with
        | BEGIN =>
            match snapshot c with
            | Some _ => (None, conn_rollback w1)
            | None =>
                (Some (mkCursor 0 0 []),
                 set_conn (Some (mkConnection (Some (db w1)) (legacy c))) w1)
            end
        | ROLLBACK =>
            match snapshot c with
            | Some _ => (Some (mkCursor 0 0 []), conn_rollback w1)
            | None => (None, w1)
            end
        | SELECT q => (Some (mkCursor 0 0 (q (db w1))), w1)
        | DML f =>
            match f (db w1) with
            | None => (None, conn_rollback w1)
            | Some (t', id, n) =>
                let c' :=
                  match snapshot c with
                  | None => if legacy c then mkConnection (Some (db w1)) true else c
                  | Some _ => c
                  end in
                (Some (mkCursor id n []), set_conn (Some c') (set_db t' w1))
            end
        end
  end.

Definition fetchall {R : Type} (sql : Sql R) : M (list R) :=
  cursor <- execute sql ;;
  match cursor with
  | Some cur => ret (rows cur)
  | None => ret []
  end.

Definition fetchone {R : Type} (sql : Sql R) : M (option R) :=
  cursor <- execute sql ;;
  match cursor with
  | Some cur => ret (hd_error (rows cur))
  | None => ret None
  end.

End DBConnection.

(* ================================================================== *)
(** * models/base_model.py *)
(* ================================================================== *)

Module BaseModel.
Import DBConnection.

(** What a model class fixes: its table, its primary key and the columns
    it declares.  [unique_ok] is the UNIQUE constraint an INSERT is
    checked against. *)
Class Model (Row : Type) : Type := {
  TABLE_NAME : string;
  PRIMARY_KEY : string;
  FIELDS : list string;
  table : Tables -> list Row;
  set_table : list Row -> Tables -> Tables;
  pk : Row -> Z;
  set_pk : Z -> Row -> Row;
  unique_ok : list Row -> Row -> bool
}.

Section CRUD.
Context {Row : Type} `{Model Row}.

(** INSERT INTO table (columns of data) VALUES (...) *)
Definition sql_insert (data : Row) : Sql Row :=
  DML (fun t =>
    if unique_ok (table t) data then
      let id := next_rowid (map pk (table t)) in
      Some (set_table (table t ++ [set_pk id data]) t, id, 1)
    else None).

(** UPDATE table SET (columns of data) WHERE primary key = pk_value *)
Definition sql_update (pk_value : Z) (data : Row -> Row) : Sql Row :=
  DML (fun t =>
    Some (set_table
            (map (fun r => if pk r =? pk_value then data r else r) (table t)) t,
          0,
          Z.of_nat (List.length (filter (fun r => pk r =? pk_value) (table t))))).

(** [data] is the row to insert; its primary key is assigned by the
    database. *)
Definition insert (data : Row) : M (option Z) :=
  _ <- now ;;
  connect ;;
  cursor <- execute (sql_insert data) ;;
  match cursor with
  | Some cur =>
      let last_id := lastrowid cur in
      commit ;; close ;; ret (Some last_id)
  | None => close ;; ret None
  end.

(** [where_clause] is the text spliced after WHERE, by what it selects
    (and in which order) from the rows of the table. *)
Definition select_all (where_clause : list Row -> list Row) : M (list Row) :=
  connect ;;
  rows <- fetchall (SELECT (fun t => where_clause (table t))) ;;
  close ;;
  ret rows.

(** [data] is the assignment of the columns being updated; every call
    in the code passes a non-empty one. *)
Definition update (pk_value : Z) (data : Row -> Row) : M bool :=
  _ <- now ;;
  connect ;;
  cursor <- execute (sql_update pk_value data) ;;
  match cursor with
  | Some cur =>
      if 0 <? rowcount cur then commit ;; close ;; ret true
      else close ;; ret false
  | None => close ;; ret false
  end.

(** SELECT * FROM table WHERE primary key = ?, first row. *)
Definition select_by_id (pk_value : Z) : M (option Row) :=
  connect ;;
  row <- fetchone (SELECT (fun t => filter (fun r => pk r =? pk_value) (table t))) ;;
  close ;;
  ret row.

(** DELETE FROM table WHERE primary key = ? *)
Definition sql_delete (pk_value : Z) : Sql Row :=
  DML (fun t =>
    Some (set_table (filter (fun r => negb (pk r =? pk_value)) (table t)) t,
          0,
          Z.of_nat (List.length (filter (fun r => pk r =? pk_value) (table t))))).

(** The tail both branches of delete share: run the statement, commit when
    it changed a row. *)
Definition run_delete (sql : Sql Row) : M bool :=
  cursor <- execute sql ;;
  match cursor with
  | Some cur =>
      if 0 <? rowcount cur then commit ;; close ;; ret true
      else close ;; ret false
  | None => close ;; ret false
  end.
End CRUD.

(** A model whose rows carry the columns is_deleted and modified_date. *)
Class Dated (Row : Type) : Type := {
  set_is_deleted : Z -> Row -> Row;
  set_modified_date : string -> Row -> Row
}.

Section Dated.
Context {Row : Type} `{Model Row} `{Dated Row}.

(** UPDATE table SET is_deleted = 1, modified_date = ? WHERE primary key = ?;
    it names both columns, so it fails on a table that lacks one. *)
Definition sql_logical_delete (now : string) (pk_value : Z) : Sql Row :=
  DML (fun t =>
    if mem_string "is_deleted" FIELDS && mem_string "modified_date" FIELDS then
      Some (set_table
              (map (fun r => if pk r =? pk_value
                             then set_modified_date now (set_is_deleted 1 r) else r)
                   (table t)) t,
            0,
            Z.of_nat (List.length (filter (fun r => pk r =? pk_value) (table t))))
    else None).

Definition delete (pk_value : Z) (logical_delete : bool) : M bool :=
  connect ;;
  if logical_delete && mem_string "is_deleted" FIELDS then
    now <- now_str ;;
    run_delete (sql_logical_delete now pk_value)
  else run_delete (sql_delete pk_value).

(** update, for a model that declares modified_date and a [data] that does
    not set it: the reading of the clock goes into modified_date. *)
Definition update_dated (pk_value : Z) (data : Row -> Row) : M bool :=
  now <- now_str ;;
  connect ;;
  cursor <- execute (sql_update pk_value (fun r => set_modified_date now (data r))) ;;
  match cursor with
  | Some cur =>
      if 0 <? rowcount cur then commit ;; close ;; ret true
      else close ;; ret false
  | None => close ;; ret false
  end.
End Dated.

End BaseModel.

(* ================================================================== *)
(** * models/word_model.py *)
(* ================================================================== *)

Module WordModel.
Import BaseModel.

#[global] Instance model : Model WordRow.t := {
  TABLE_NAME := "words";
  PRIMARY_KEY := "word_id";
  FIELDS := ["word_id"; "word_text"; "meaning_ko"; "category"; "memo";
             "is_favorite"; "created_date"; "modified_date"; "is_deleted"];
  table := words;
  set_table := fun l t =>
    mkTables l (word_statistics t) (learning_history t) (exam_history t)
             (exam_questions t) (wrong_note t);
  pk := WordRow.word_id;
  set_pk := fun i r =>
    WordRow.mk i (WordRow.word_text r) (WordRow.meaning_ko r)
               (WordRow.category r) (WordRow.memo r) (WordRow.is_favorite r)
               (WordRow.created_date r) (WordRow.modified_date r)
               (WordRow.is_deleted r);
  unique_ok := fun _ _ => true
}.

(** is_deleted = 0 ORDER BY created_date ASC *)
Definition select_active_words : M (list WordRow.t) :=
  select_all (fun l =>
    order_by (fun a b => text_le (WordRow.created_date a) (WordRow.created_date b))
             (filter (fun r => WordRow.is_deleted r =? 0) l)).

(** is_deleted = 0 AND category = ? *)
Definition select_by_category (category : string) : M (list WordRow.t) :=
  select_all (filter (fun r =>
    (WordRow.is_deleted r =? 0) && String.eqb (WordRow.category r) category)).

#[global] Instance dated : Dated WordRow.t := {
  set_is_deleted := fun v r =>
    WordRow.mk (WordRow.word_id r) (WordRow.word_text r) (WordRow.meaning_ko r)
               (WordRow.category r) (WordRow.memo r) (WordRow.is_favorite r)
               (WordRow.created_date r) (WordRow.modified_date r) v;
  set_modified_date := fun d r =>
    WordRow.mk (WordRow.word_id r) (WordRow.word_text r) (WordRow.meaning_ko r)
               (WordRow.category r) (WordRow.memo r) (WordRow.is_favorite r)
               (WordRow.created_date r) d (WordRow.is_deleted r)
}.

(** is_deleted = 0 AND is_favorite = 1 *)
Definition select_favorites : M (list WordRow.t) :=
  select_all (filter (fun r =>
    (WordRow.is_deleted r =? 0) && (WordRow.is_favorite r =? 1))).

Definition toggle_favorite (word_id : Z) (is_favorite : bool) : M bool :=
  update_dated word_id (fun r =>
    WordRow.mk (WordRow.word_id r) (WordRow.word_text r) (WordRow.meaning_ko r)
               (WordRow.category r) (WordRow.memo r) (if is_favorite then 1 else 0)
               (WordRow.created_date r) (WordRow.modified_date r)
               (WordRow.is_deleted r)).

Definition hard_delete (word_id : Z) : M bool := delete word_id false.

(** SELECT word_id FROM words WHERE word_text = ? AND is_deleted = 0
    [AND word_id != ?] *)
Definition sql_word_exist (word_text : string) (exclude_id : option Z)
  : DBConnection.Sql Z :=
  DBConnection.SELECT (fun t =>
    map WordRow.word_id
        (filter (fun r =>
                   String.eqb (WordRow.word_text r) word_text
                   && (WordRow.is_deleted r =? 0)
                   && match exclude_id with
                      | Some id => negb (WordRow.word_id r =? id)
                      | None => true
                      end)
                (words t))).

(** The answer is True only when a row came back: a lookup the storage layer
    rejects comes back from fetchone as None, like no row at all. *)
Definition is_word_exist (word_text : string) (exclude_id : option Z) : M bool :=
  DBConnection.connect ;;
  result <- DBConnection.fetchone (sql_word_exist word_text exclude_id) ;;
  DBConnection.close ;;
  ret (match result with Some _ => true | None => false end).

End WordModel.

(* ================================================================== *)
(** * models/statistics_model.py *)
(* ================================================================== *)

Module StatisticsModel.
Import DBConnection BaseModel.

Definition SRS_INTERVALS : list (Z * Z) :=
  [(0, 1); (1, 3); (2, 7); (3, 14); (4, 30); (5, 365)].

Definition MAX_MASTERY_LEVEL : Z := 5.

(** word_id is UNIQUE in word_statistics: update_statistics relies on it
    where it takes the first row of its lookup. *)
#[global] Instance model : Model StatsRow.t := {
  TABLE_NAME := "word_statistics";
  PRIMARY_KEY := "stats_id";
  FIELDS := ["stats_id"; "word_id"; "total_attempts"; "correct_count";
             "last_review"; "next_review"; "mastery_level"];
  table := word_statistics;
  set_table := set_word_statistics;
  pk := StatsRow.stats_id;
  set_pk := StatsRow.set_stats_id;
  unique_ok := fun l r =>
    negb (existsb (fun s => StatsRow.word_id s =? StatsRow.word_id r) l)
}.

(** The new level and the next review date; [None] is the OverflowError
    of the date arithmetic, which nothing here catches. *)
Definition _calculate_next_review (current_level : Z) (is_correct : bool)
  : M (option (Z * string)) :=
  let new_level :=
    if is_correct then Z.min (current_level + 1) MAX_MASTERY_LEVEL else 0 in
  let interval := int_dict_get new_level SRS_INTERVALS 1 in
  d <- now ;;
  match datetime.add_days d interval with
  | Some d' => ret (Some (new_level, datetime.strftime_midnight d'))
  | None => ret None
  end.

Definition update_statistics (word_id : Z) (is_correct : bool)
  : M (option bool) :=
  current_stats <- select_all (filter (fun s => StatsRow.word_id s =? word_id)) ;;
  now <- now_str ;;
  match current_stats with
  | [] =>
      let current_level := 0 in
      r <- _calculate_next_review current_level is_correct ;;
      match r with
      | None => ret None
      | Some (new_level, next_review_date) =>
          let insert_data :=
            StatsRow.mk 0 word_id 1 (if is_correct then 1 else 0)
                        now next_review_date new_level in
          id <- insert insert_data ;;
          ret (Some (match id with Some _ => true | None => false end))
      end
  | stats :: _ =>
      let stats_id := StatsRow.stats_id stats in
      let current_level := StatsRow.mastery_level stats in
      r <- _calculate_next_review current_level is_correct ;;
      match r with
      | None => ret None
      | Some (new_level, next_review_date) =>
          let update_data := fun s =>
            StatsRow.mk (StatsRow.stats_id s) (StatsRow.word_id s)
                        (StatsRow.total_attempts stats + 1)
                        (StatsRow.correct_count stats + (if is_correct then 1 else 0))
                        now next_review_date new_level in
          ok <- update stats_id update_data ;;
          ret (Some ok)
      end
  end.

(** A row of the review query: W.word_id, W.word_text, W.meaning_ko,
    S.mastery_level, S.next_review. *)
Record ReviewWord : Type := mkReviewWord {
  word_id : Z; word_text : string; meaning_ko : string;
  mastery_level : Z; next_review : string
}.

(** words W INNER JOIN word_statistics S ON W.word_id = S.word_id
    WHERE W.is_deleted = 0 AND S.next_review <= today *)
Definition due_rows (today : string) (t : Tables) : list ReviewWord :=
  flat_map (fun W =>
    map (fun S => mkReviewWord (WordRow.word_id W) (WordRow.word_text W)
                    (WordRow.meaning_ko W) (StatsRow.mastery_level S)
                    (StatsRow.next_review S))
        (filter (fun S => (WordRow.word_id W =? StatsRow.word_id S)
                          && (WordRow.is_deleted W =? 0)
                          && text_le (StatsRow.next_review S) today)
                (word_statistics t)))
    (words t).

Definition next_review_le (a b : ReviewWord) : bool :=
  text_le (next_review a) (next_review b).

(** ... ORDER BY S.next_review ASC LIMIT ? *)
Definition review_query (today : string) (limit : Z) : Sql ReviewWord :=
  SELECT (fun t => sql_limit limit (order_by next_review_le (due_rows today t))).

Definition select_review_words (limit : Z) : M (list ReviewWord) :=
  d <- now ;;
  let today := datetime.strftime_end_of_day d in
  connect ;;
  cursor <- execute (review_query today limit) ;;
  match cursor with
  | Some cur => close ;; ret (rows cur)
  | None => close ;; ret []
  end.

(** SELECT mastery_level, COUNT(word_id) FROM word_statistics
    GROUP BY mastery_level ORDER BY mastery_level ASC *)
Definition sql_mastery_distribution : Sql (Z * Z) :=
  SELECT (fun t => group_count (map StatsRow.mastery_level (word_statistics t))).

Definition get_mastery_distribution : M (list (Z * Z)) :=
  connect ;;
  rows <- fetchall sql_mastery_distribution ;;
  let distribution := int_dict_of rows in
  let full_distribution :=
    map (fun level => (level, int_dict_get level distribution 0))
        (range (MAX_MASTERY_LEVEL + 1)) in
  close ;;
  ret full_distribution.

(** word_statistics ws JOIN words w ON ws.word_id = w.word_id
    WHERE w.is_deleted = 0: the level of each joined pair. *)
Definition active_levels (t : Tables) : list Z :=
  flat_map (fun ws =>
    map (fun _ => StatsRow.mastery_level ws)
        (filter (fun w => (StatsRow.word_id ws =? WordRow.word_id w)
                          && (WordRow.is_deleted w =? 0))
                (words t)))
    (word_statistics t).

(** ... GROUP BY ws.mastery_level ORDER BY ws.mastery_level *)
Definition sql_proficiency_distribution : Sql (Z * Z) :=
  SELECT (fun t => group_count (active_levels t)).

Definition get_proficiency_distribution : M (list (Z * Z)) :=
  connect ;;
  results <- fetchall sql_proficiency_distribution ;;
  close ;;
  ret (int_dict_of results).

End StatisticsModel.

(* ================================================================== *)
(** * models/learning_model.py *)
(* ================================================================== *)

Module LearningHistoryModel.
Import BaseModel.

#[global] Instance model : Model HistoryRow.t := {
  TABLE_NAME := "learning_history";
  PRIMARY_KEY := "history_id";
  FIELDS := ["history_id"; "session_id"; "word_id"; "is_correct";
             "response_time"; "learning_date"];
  table := learning_history;
  set_table := set_learning_history;
  pk := HistoryRow.history_id;
  set_pk := HistoryRow.set_history_id;
  unique_ok := fun _ _ => true
}.
End LearningHistoryModel.

Module LearningModel.
Import BaseModel.

Definition add_history (session_id word_id : Z) (is_correct : bool)
           (response_time : float) : M (option Z) :=
  learning_date <- now_str ;;
  let data :=
    HistoryRow.mk 0 session_id word_id (if is_correct then 1 else 0)
                  response_time learning_date in
  insert data.

End LearningModel.

(* ================================================================== *)
(** * models/exam_model.py *)
(* ================================================================== *)

Module ExamHistoryModel.
Import BaseModel.

#[global] Instance model : Model ExamHistoryRow.t := {
  TABLE_NAME := "exam_history";
  PRIMARY_KEY := "exam_id";
  FIELDS := ["exam_id"; "exam_date"; "exam_type"; "total_questions";
             "score"; "duration_sec"; "is_deleted"];
  table := exam_history;
  set_table := set_exam_history;
  pk := ExamHistoryRow.exam_id;
  set_pk := ExamHistoryRow.set_exam_id;
  unique_ok := fun _ _ => true
}.
End ExamHistoryModel.

Module ExamQuestionModel.
Definition TABLE_NAME : string := "exam_questions".
Definition PRIMARY_KEY : string := "question_id".
Definition FIELDS : list string :=
  ["question_id"; "exam_id"; "word_id"; "question_text";
   "correct_answer"; "user_answer"; "is_correct"].

#[global] Instance model : BaseModel.Model ExamQuestionRow.t := {|
  BaseModel.TABLE_NAME := TABLE_NAME;
  BaseModel.PRIMARY_KEY := PRIMARY_KEY;
  BaseModel.FIELDS := FIELDS;
  BaseModel.table := exam_questions;
  BaseModel.set_table := set_exam_questions;
  BaseModel.pk := ExamQuestionRow.question_id;
  BaseModel.set_pk := fun i r =>
    ExamQuestionRow.mk i (ExamQuestionRow.exam_id r) (ExamQuestionRow.word_id r)
      (ExamQuestionRow.question_text r) (ExamQuestionRow.correct_answer r)
      (ExamQuestionRow.user_answer r) (ExamQuestionRow.is_correct r);
  BaseModel.unique_ok := fun _ _ => true
|}.
End ExamQuestionModel.

Module WrongNoteModel.
Import BaseModel.

#[global] Instance model : Model WrongNoteRow.t := {
  TABLE_NAME := "wrong_note";
  PRIMARY_KEY := "note_id";
  FIELDS := ["note_id"; "word_id"; "latest_exam_id"; "wrong_count";
             "last_wrong_date"];
  table := wrong_note;
  set_table := set_wrong_note;
  pk := WrongNoteRow.note_id;
  set_pk := WrongNoteRow.set_note_id;
  unique_ok := fun _ _ => true
}.
End WrongNoteModel.

(** One element of questions_detail: a dictionary that carries word_id and
    is_correct, and under [extra] whatever other keys the caller put in. *)
Record Question : Type := mkQuestion {
  q_word_id : Z;
  q_is_correct : Z;
  extra : dict
}.

Module ExamModel.
Import DBConnection BaseModel.

Definition or_null (v : option Value) : Value :=
  match v with Some x => x | None => VNull end.

(** INSERT INTO exam_questions (keys of q) VALUES (...), after
    q['exam_id'] = exam_id.  A key that is not a column of the table makes
    the statement fail; so does a question_id that is taken or is a text
    (SQLite would first convert a text that reads as a number; the views
    pass no question_id at all). *)
Definition sql_insert_question (q : Question) (exam_id : Z)
  : Sql ExamQuestionRow.t :=
  DML (fun t =>
    if forallb (fun k => mem_string k ExamQuestionModel.FIELDS) (keys (extra q))
    then
      let ids := map ExamQuestionRow.question_id (exam_questions t) in
      let row := fun id =>
        ExamQuestionRow.mk id exam_id (q_word_id q)
          (or_null (dict_get "question_text" (extra q)))
          (or_null (dict_get "correct_answer" (extra q)))
          (or_null (dict_get "user_answer" (extra q)))
          (q_is_correct q) in
      let add := fun id =>
        Some (set_exam_questions (exam_questions t ++ [row id]) t, id, 1) in
      match dict_get "question_id" (extra q) with
      | Some (VInt k) => if existsb (Z.eqb k) ids then None else add k
      | Some (VText _) => None
      | Some VNull | None => add (next_rowid ids)
      end
    else None).

(** SELECT note_id, wrong_count FROM wrong_note WHERE word_id = ? *)
Definition sql_select_note (word_id : Z) : Sql (Z * Z) :=
  SELECT (fun t =>
    map (fun n => (WrongNoteRow.note_id n, WrongNoteRow.wrong_count n))
        (filter (fun n => WrongNoteRow.word_id n =? word_id) (wrong_note t))).

(** UPDATE wrong_note SET wrong_count = wrong_count + 1,
    latest_exam_id = ?, last_wrong_date = ? WHERE note_id = ? *)
Definition sql_bump_note (latest_exam_id : Z) (now : string) (note_id : Z)
  : Sql WrongNoteRow.t :=
  sql_update note_id (fun n =>
    WrongNoteRow.mk (WrongNoteRow.note_id n) (WrongNoteRow.word_id n)
                    latest_exam_id (WrongNoteRow.wrong_count n + 1) now).

Definition _update_wrong_note (word_id latest_exam_id : Z) : M bool :=
  now <- now_str ;;
  row <- fetchone (sql_select_note word_id) ;;
  match row with
  | Some (note_id, _) =>
      _ <- execute (sql_bump_note latest_exam_id now note_id) ;;
      ret true
  | None =>
      let insert_data := WrongNoteRow.mk 0 word_id latest_exam_id 1 now in
      _ <- execute (sql_insert insert_data) ;;
      ret true
  end.

(** The body of the loop over questions_detail. *)
Definition record_question (exam_id : Z) (q : Question) : M unit :=
  _ <- execute (sql_insert_question q exam_id) ;;
  if q_is_correct q =? 0 then
    _ <- _update_wrong_note (q_word_id q) exam_id ;; ret tt
  else ret tt.

Fixpoint record_questions (exam_id : Z) (qs : list Question) : M unit :=
  match qs with
  | [] => ret tt
  | q :: qs' => record_question exam_id q ;; record_questions exam_id qs'
  end.

(** The except branch: ROLLBACK, then None; the finally branch closes. *)
Definition on_exception : M (option Z) :=
  _ <- execute (@ROLLBACK unit) ;;
  close ;;
  ret None.

Definition record_exam_result (exam_type : string) (total_questions : Z)
           (score : float) (duration_sec : Z)
           (questions_detail : list Question) : M (option Z) :=
  connect ;;
  set_isolation_level_None ;;
  _ <- execute (@BEGIN unit) ;;
  exam_date <- now_str ;;
  let history_data :=
    ExamHistoryRow.mk 0 exam_date exam_type total_questions score duration_sec 0 in
  cursor <- execute (sql_insert history_data) ;;
  match cursor with
  | None => on_exception          (* cursor.lastrowid on None *)
  | Some cur =>
      let exam_id := lastrowid cur in
      if exam_id =? 0 then on_exception
      else
        record_questions exam_id questions_detail ;;
        commit ;;
        close ;;
        ret (Some exam_id)
  end.

(** A row of the wrong-note query: W.word_id, W.word_text, W.meaning_ko,
    N.wrong_count, N.last_wrong_date. *)
Record WrongWord : Type := mkWrongWord {
  word_id : Z; word_text : string; meaning_ko : string;
  wrong_count : Z; last_wrong_date : string
}.

(** words W INNER JOIN wrong_note N ON W.word_id = N.word_id
    WHERE W.is_deleted = 0 *)
Definition wrong_rows (t : Tables) : list WrongWord :=
  flat_map (fun W =>
    map (fun N => mkWrongWord (WordRow.word_id W) (WordRow.word_text W)
                    (WordRow.meaning_ko W) (WrongNoteRow.wrong_count N)
                    (WrongNoteRow.last_wrong_date N))
        (filter (fun N => (WordRow.word_id W =? WrongNoteRow.word_id N)
                          && (WordRow.is_deleted W =? 0))
                (wrong_note t)))
    (words t).

(** ORDER BY N.wrong_count DESC, N.last_wrong_date ASC *)
Definition review_le (a b : WrongWord) : bool :=
  (wrong_count b <? wrong_count a)
  || ((wrong_count a =? wrong_count b)
      && text_le (last_wrong_date a) (last_wrong_date b)).

Definition wrong_query (limit : option Z) : Sql WrongWord :=
  SELECT (fun t =>
    let sorted := order_by review_le (wrong_rows t) in
    match limit with
    | Some n => sql_limit n sorted
    | None => sorted
    end).

Definition select_wrong_words_for_review (limit : option Z)
  : M (list WrongWord) :=
  connect ;;
  cursor <- execute (wrong_query limit) ;;
  match cursor with
  | Some cur => close ;; ret (rows cur)
  | None => close ;; ret []
  end.

End ExamModel.

(* ================================================================== *)
(** * controllers/exam_controller.py *)
(* ================================================================== *)

Module ExamController.

(** The word dictionaries an exam is made of come from two queries with
    different columns. *)
Inductive ExamWord : Type :=
| FromWrongNote (r : ExamModel.WrongWord)
| FromWords (r : WordRow.t).

(** Truth value of an Optional[str]: None and the empty string are false. *)
Definition truthy (s : option string) : bool :=
  match s with
  | Some x => negb (String.eqb x "")
  | None => false
  end.

Definition _get_candidate_words (category : option string)
  : M (list WordRow.t) :=
  match category with
  | Some c =>
      if truthy (Some c) then WordModel.select_by_category c
      else WordModel.select_active_words
  | None => WordModel.select_active_words
  end.

(** l[:n]: a negative n counts from the end. *)
Definition slice_to {A : Type} (n : Z) (l : list A) : list A :=
  if n <? 0 then firstn (Z.to_nat (Z.of_nat (List.length l) + n)) l
  else firstn (Z.to_nat n) l.

Definition generate_exam_words (question_count : Z) (mode : string)
           (category : option string) : M (list ExamWord) :=
  if String.eqb mode "wrong_note" then
    candidate_words <- ExamModel.select_wrong_words_for_review (Some question_count) ;;
    ret (map FromWrongNote candidate_words)
  else
    all_words <- _get_candidate_words category ;;
    let question_count :=
      if Z.of_nat (List.length all_words) <? question_count
      then Z.of_nat (List.length all_words) else question_count in
    all_words <- shuffle all_words ;;
    ret (map FromWords (slice_to question_count all_words)).

Record Summary : Type := mkSummary {
  exam_id : Z; score : float; correct_count : Z; wrong_count : Z;
  total_questions : Z
}.

(** The grading loop: one counter goes up per question. *)
Definition grade (questions_data : list Question) : Z * Z :=
  fold_left (fun '(correct_count, wrong_count) q =>
               if q_is_correct q =? 1 then (correct_count + 1, wrong_count)
               else (correct_count, wrong_count + 1))
            questions_data (0, 0).

Definition compute_score (correct_count total_questions : Z) : float :=
  let score :=
    if 0 <? total_questions then
      PrimFloat.mul
        (PrimFloat.div (PyFloat.of_int correct_count) (PyFloat.of_int total_questions))
        (PyFloat.of_int 100)
    else 0%float in
  PyFloat.round1 score.

Definition submit_and_record_exam (exam_type : string) (duration_sec : Z)
           (questions_data : list Question) : M (option Summary) :=
  match questions_data with
  | [] => ret None
  | _ =>
      let '(correct_count, wrong_count) := grade questions_data in
      let total_questions := Z.of_nat (List.length questions_data) in
      let score := compute_score correct_count total_questions in
      exam_id <- ExamModel.record_exam_result exam_type total_questions score
                   duration_sec questions_data ;;
      match exam_id with
      | Some id =>
          ret (Some (mkSummary id score correct_count wrong_count total_questions))
      | None => ret None
      end
  end.

Definition get_wrong_note_words : M (list ExamModel.WrongWord) :=
  ExamModel.select_wrong_words_for_review None.

(** is_deleted = 0 ORDER BY exam_date DESC *)
Definition get_exam_history : M (list ExamHistoryRow.t) :=
  BaseModel.select_all (fun l =>
    order_by (fun a b => text_le (ExamHistoryRow.exam_date b) (ExamHistoryRow.exam_date a))
             (filter (fun r => ExamHistoryRow.is_deleted r =? 0) l)).


End ExamController.

(* ================================================================== *)
(** * controllers/learning_controller.py *)
(* ================================================================== *)

Module LearningController.

(** [None] is an exception of update_statistics passing through. *)
Definition record_word_result (session_id word_id : Z) (is_correct : bool)
           (response_time : float) : M (option bool) :=
  let success := true in
  h <- LearningModel.add_history session_id word_id is_correct response_time ;;
  let history_success := match h with Some _ => true | None => false end in
  let success := if negb history_success then false else success in
  s <- StatisticsModel.update_statistics word_id is_correct ;;
  match s with
  | None => ret None
  | Some stats_success =>
      let success := if negb stats_success then false else success in
      ret (Some success)
  end.

(** The word dictionaries of a session come from three queries. *)
Inductive SessionWord : Type :=
| FromReview (r : StatisticsModel.ReviewWord)
| FromWrongNote (r : ExamModel.WrongWord)
| FromWords (r : WordRow.t).

Definition get_words_for_session (mode : string) (word_count : Z)
           (category : option string) : M (list SessionWord) :=
  all_words <-
    (if String.eqb mode "review_srs" then
       l <- StatisticsModel.select_review_words word_count ;;
       ret (map FromReview l)
     else if String.eqb mode "wrong_note" then
       l <- ExamModel.select_wrong_words_for_review (Some word_count) ;;
       ret (map FromWrongNote l)
     else
       l <- ExamController._get_candidate_words category ;;
       l <- (if String.eqb mode "random" then shuffle l else ret l) ;;
       ret (map FromWords l)) ;;
  let final_list :=
    if word_count <? Z.of_nat (List.length all_words)
    then ExamController.slice_to word_count all_words else all_words in
  ret final_list.

End LearningController.

(* ================================================================== *)
(** * controllers/word_controller.py *)
(* ================================================================== *)

Module WordController.

Section Strip.
(** str.strip, as given. *)
Variable strip : string -> string.

(** memo if memo else "" *)
Definition memo_or_empty (memo : option string) : string :=
  match memo with Some m => m | None => "" end.

Definition update_word (word_id : Z) (word_text meaning_ko category : string)
           (memo : option string) : M bool :=
  let word_text := strip word_text in
  let meaning_ko := strip meaning_ko in
  exists_ <- WordModel.is_word_exist word_text (Some word_id) ;;
  if exists_ then ret false
  else
    BaseModel.update_dated word_id (fun r =>
      WordRow.mk (WordRow.word_id r) word_text meaning_ko category
                 (memo_or_empty memo) (WordRow.is_favorite r)
                 (WordRow.created_date r) (WordRow.modified_date r)
                 (WordRow.is_deleted r)).
End Strip.

Definition delete_word (word_id : Z) : M bool :=
  BaseModel.delete word_id true.

Definition get_all_active_words : M (list WordRow.t) :=
  WordModel.select_active_words.

Definition get_word_by_id (word_id : Z) : M (option WordRow.t) :=
  BaseModel.select_by_id word_id.

Definition toggle_word_favorite (word_id : Z) (is_favorite : bool) : M bool :=
  WordModel.toggle_favorite word_id is_favorite.

(** SELECT DISTINCT category FROM words WHERE is_deleted = 0
    ORDER BY category ASC *)
Definition get_all_categories : M (list string) :=
  DBConnection.connect ;;
  rows <- DBConnection.fetchall
            (DBConnection.SELECT (fun t =>
               distinct_sorted
                 (map WordRow.category
                      (filter (fun r => WordRow.is_deleted r =? 0) (words t))))) ;;
  DBConnection.close ;;
  ret rows.

End WordController.

(* ================================================================== *)
(** * Vocabulary of the specification *)
(* ================================================================== *)

(** The interval table of the specification, in days. *)
Definition interval_days (level : Z) : Z :=
  match level with
  | 0 => 1
  | 1 => 3
  | 2 => 7
  | 3 => 14
  | 4 => 30
  | 5 => 365
  | _ => 1
  end.

(** The level transition of the specification. *)
Definition next_level (prior : Z) (is_correct : bool) : Z :=
  if is_correct then Z.min (prior + 1) 5 else 0.

(** The next review as the specification words it: now plus the interval,
    the time of day of now carried along. *)
Definition claimed_next_review (current_level : Z) (is_correct : bool)
           (now : datetime.t) : option (Z * string) :=
  let new_level := next_level current_level is_correct in
  option_map (fun due => (new_level, datetime.strftime_full due))
             (datetime.add_days now (interval_days new_level)).

(** The storage layer accepts the next [n] statements. *)
Definition fault_free (n : nat) (fs : list bool) : Prop :=
  forallb negb (firstn n fs) = true.

(** No connection is open: the state between two operations. *)
Definition idle (w : World) : Prop := _conn w = None.

(** The world after [k] readings of the clock and [j] statements. *)
Definition after (k j : nat) (w : World) : World :=
  mkWorld (db w) (_conn w) (skipn j (faults w)) (clock w) (k + ticks w) (rng w).

(** The level recordOutcome starts from: that of the word's record, 0 when
    there is none. *)
Definition prior_level (word_id : Z) (t : Tables) : Z :=
  match filter (fun s => StatsRow.word_id s =? word_id) (word_statistics t) with
  | s :: _ => StatsRow.mastery_level s
  | [] => 0
  end.

Definition stats_of (word_id : Z) (t : Tables) : list StatsRow.t :=
  filter (fun s => StatsRow.word_id s =? word_id) (word_statistics t).

(** Counts of the correctness flags of a submission. *)
Definition count_correct (qs : list Question) : Z :=
  Z.of_nat (List.length (filter (fun q => q_is_correct q =? 1) qs)).

Definition count_wrong (qs : list Question) : Z :=
  Z.of_nat (List.length (filter (fun q => negb (q_is_correct q =? 1)) qs)).

(** round(correctCount / totalQuestions * 100, 1) *)
Definition spec_score (correct total : Z) : float :=
  PyFloat.round1
    (PrimFloat.mul (PrimFloat.div (PyFloat.of_int correct) (PyFloat.of_int total))
                   (PyFloat.of_int 100)).

(** wrongCount descending, then lastWrongDate ascending. *)
Definition review_order (a b : ExamModel.WrongWord) : Prop :=
  ExamModel.wrong_count b < ExamModel.wrong_count a
  \/ (ExamModel.wrong_count a = ExamModel.wrong_count b
      /\ text_le (ExamModel.last_wrong_date a) (ExamModel.last_wrong_date b) = true).

(** nextReview ascending. *)
Definition due_order (a b : StatisticsModel.ReviewWord) : Prop :=
  text_le (StatisticsModel.next_review a) (StatisticsModel.next_review b) = true.

(** ** Sample data *)

Definition afternoon : datetime.t := datetime.mk 2025 10 20 14 30 5 0.

Definition apple : WordRow.t :=
  WordRow.mk 1 "apple" "sagwa" "fruit" "" 0
             "2025-10-01 09:00:00" "2025-10-01 09:00:00" 0.

Definition pear : WordRow.t :=
  WordRow.mk 2 "pear" "bae" "fruit" "" 0
             "2025-10-02 09:00:00" "2025-10-02 09:00:00" 0.

Definition one_word : Tables := mkTables [apple] [] [] [] [] [].

(** apple, mastered: a record at level 5. *)
Definition apple_mastered : Tables :=
  mkTables [apple]
           [StatsRow.mk 1 1 9 8 "2025-09-01 10:00:00" "2025-10-01 00:00:00" 5]
           [] [] [] [].

(** Three words with a mastery record each: apple due today, pear overdue
    since the 18th, and fig, due like pear but soft-deleted; plum is due
    tomorrow. *)
Definition fig : WordRow.t :=
  WordRow.mk 3 "fig" "muhwagwa" "fruit" "" 0
             "2025-10-03 09:00:00" "2025-10-03 09:00:00" 1.

Definition plum : WordRow.t :=
  WordRow.mk 4 "plum" "jadu" "fruit" "" 0
             "2025-10-04 09:00:00" "2025-10-04 09:00:00" 0.

Definition review_queue : Tables :=
  mkTables [apple; pear; fig; plum]
           [StatsRow.mk 1 1 3 2 "2025-10-17 10:00:00" "2025-10-20 00:00:00" 1;
            StatsRow.mk 2 2 1 0 "2025-10-17 10:05:00" "2025-10-18 00:00:00" 0;
            StatsRow.mk 3 3 1 0 "2025-10-17 10:06:00" "2025-10-18 00:00:00" 0;
            StatsRow.mk 4 4 2 2 "2025-10-14 10:06:00" "2025-10-21 00:00:00" 2]
           [] [] [] [].

(** Wrong-note entries: apple missed twice, last on the 12th; pear missed
    five times; fig (soft-deleted) missed nine times; plum missed twice, last
    on the 10th. *)
Definition wrong_notes : Tables :=
  mkTables [apple; pear; fig; plum] [] [] [] []
           [WrongNoteRow.mk 1 1 4 2 "2025-10-12 10:00:00";
            WrongNoteRow.mk 2 2 5 5 "2025-10-15 10:00:00";
            WrongNoteRow.mk 3 3 5 9 "2025-10-15 10:00:00";
            WrongNoteRow.mk 4 4 3 2 "2025-10-10 10:00:00"].

Definition world_at (t : Tables) (fs : list bool) : World :=
  mkWorld t None fs (fun _ => afternoon) 0 [].

(** The same, inside the transaction record_exam_result opens. *)
Definition in_transaction (t : Tables) (fs : list bool) : World :=
  mkWorld t (Some (mkConnection (Some t) false)) fs (fun _ => afternoon) 0 [].

(** The dictionary the exam view appends for an answered question: word_id,
    word_text, correct_answer, user_answer, question_type, is_correct. *)
Definition view_question (word : WordRow.t) (answer : string) (flag : Z)
  : Question :=
  mkQuestion (WordRow.word_id word) flag
    [("word_text", VText (WordRow.word_text word));
     ("correct_answer", VText (WordRow.meaning_ko word));
     ("user_answer", VText answer);
     ("question_type", VText "short_answer")].

(** A question dictionary that names columns of exam_questions only. *)
Definition plain_question (word : WordRow.t) (answer : string) (flag : Z)
  : Question :=
  mkQuestion (WordRow.word_id word) flag
    [("correct_answer", VText (WordRow.meaning_ko word));
     ("user_answer", VText answer)].

(** Ten answers, seven of them correct. *)
Definition ten_answers : list Question :=
  [plain_question apple "sagwa" 1; plain_question pear "bae" 1;
   plain_question apple "sagwa" 1; plain_question pear "gam" 0;
   plain_question apple "sagwa" 1; plain_question pear "bae" 1;
   plain_question apple "bae" 0; plain_question pear "bae" 1;
   plain_question apple "sagwa" 1; plain_question pear "" 0].

Definition two_words : Tables := mkTables [apple; pear] [] [] [] [] [].

Definition desk : WordRow.t :=
  WordRow.mk 5 "desk" "chaeksang" "office" "" 0
             "2025-10-05 09:00:00" "2025-10-05 09:00:00" 0.

(** Words of two categories; apple and desk have wrong-note entries. *)
Definition mixed_words : Tables :=
  mkTables [apple; pear; desk] [] [] [] []
           [WrongNoteRow.mk 1 1 4 2 "2025-10-12 10:00:00";
            WrongNoteRow.mk 2 5 4 3 "2025-10-12 10:00:00"].

(** ** Vocabulary of the further properties *)

(** The storage layer rejects no statement. *)
Definition accepting (fs : list bool) : Prop := Forall (fun b => b = false) fs.

(** The words an exam or a session may draw from: not soft-deleted, and of
    the category when a non-empty one is given. *)
Definition in_pool (category : option string) (r : WordRow.t) : bool :=
  (WordRow.is_deleted r =? 0)
  && match category with
     | Some c => if String.eqb c "" then true else String.eqb (WordRow.category r) c
     | None => true
     end.

Definition exam_word_id (e : ExamController.ExamWord) : Z :=
  match e with
  | ExamController.FromWrongNote r => ExamModel.word_id r
  | ExamController.FromWords r => WordRow.word_id r
  end.

Definition session_word_id (e : LearningController.SessionWord) : Z :=
  match e with
  | LearningController.FromReview r => StatisticsModel.word_id r
  | LearningController.FromWrongNote r => ExamModel.word_id r
  | LearningController.FromWords r => WordRow.word_id r
  end.

(** UPDATE words SET is_deleted = 1, modified_date = now WHERE word_id = ?,
    row by row. *)
Definition mark_deleted (now : string) (word_id : Z) (r : WordRow.t) : WordRow.t :=
  if WordRow.word_id r =? word_id
  then WordRow.mk (WordRow.word_id r) (WordRow.word_text r) (WordRow.meaning_ko r)
                  (WordRow.category r) (WordRow.memo r) (WordRow.is_favorite r)
                  (WordRow.created_date r) now 1
  else r.

(** The word_statistics table after recordOutcome went through: a first
    record is appended, an existing one is rewritten in place. *)
Definition stats_after (word_id : Z) (is_correct : bool) (now next : string)
           (rows : list StatsRow.t) : list StatsRow.t :=
  let hit := if is_correct then 1 else 0 in
  match filter (fun s => StatsRow.word_id s =? word_id) rows with
  | [] =>
      rows ++ [StatsRow.mk (next_rowid (map StatsRow.stats_id rows)) word_id 1 hit
                           now next (next_level 0 is_correct)]
  | s0 :: _ =>
      map (fun s =>
             if StatsRow.stats_id s =? StatsRow.stats_id s0
             then StatsRow.mk (StatsRow.stats_id s) (StatsRow.word_id s)
                              (StatsRow.total_attempts s0 + 1)
                              (StatsRow.correct_count s0 + hit)
                              now next
                              (next_level (StatsRow.mastery_level s0) is_correct)
             else s) rows
  end.

(** Attempts and correct answers on record for a word, 0 when it has no
    record. *)
Definition attempts_of (word_id : Z) (t : Tables) : Z :=
  match stats_of word_id t with
  | s :: _ => StatsRow.total_attempts s
  | [] => 0
  end.

Definition correct_of (word_id : Z) (t : Tables) : Z :=
  match stats_of word_id t with
  | s :: _ => StatsRow.correct_count s
  | [] => 0
  end.

(** recordOutcome once per answer, as a session does card after card; True
    when every call succeeded. *)
Fixpoint record_outcomes (word_id : Z) (answers : list bool) : M bool :=
  match answers with
  | [] => ret true
  | a :: rest =>
      r <- StatisticsModel.update_statistics word_id a ;;
      ok <- record_outcomes word_id rest ;;
      ret (match r with Some true => ok | _ => false end)
  end.

(** The clock never reads a date so late that a review interval leaves the
    calendar. *)
Definition clock_in_range (w : World) : Prop :=
  forall k level, datetime.add_days (clock w k) (interval_days level) <> None.


(** The number of statistics records at a level. *)
Definition records_at (level : Z) (t : Tables) : Z :=
  Z.of_nat (List.length
              (filter (fun s => StatsRow.mastery_level s =? level) (word_statistics t))).

(** The record belongs to a word that is not soft-deleted. *)
Definition has_active_word (t : Tables) (s : StatsRow.t) : bool :=
  existsb (fun w => (StatsRow.word_id s =? WordRow.word_id w)
                    && (WordRow.is_deleted w =? 0)) (words t).

(** The number of statistics records at a level, of words that are not
    soft-deleted. *)
Definition active_records_at (level : Z) (t : Tables) : Z :=
  Z.of_nat (List.length
              (filter (fun s => (StatsRow.mastery_level s =? level)
                                && has_active_word t s) (word_statistics t))).

(** The texts of the words that are not soft-deleted. *)
Definition active_texts (t : Tables) : list string :=
  map WordRow.word_text (filter (fun r => WordRow.is_deleted r =? 0) (words t)).

(** Another word that is not soft-deleted carries the text. *)
Definition text_taken (word_text : string) (word_id : Z) (t : Tables) : Prop :=
  exists r, In r (words t) /\ WordRow.word_text r = word_text
            /\ WordRow.is_deleted r = 0 /\ WordRow.word_id r <> word_id.

(** UPDATE words SET word_text = ?, meaning_ko = ?, category = ?, memo = ?,
    modified_date = ? WHERE word_id = ?, row by row. *)
Definition edited (word_id : Z) (word_text meaning_ko category memo now : string)
           (r : WordRow.t) : WordRow.t :=
  if WordRow.word_id r =? word_id
  then WordRow.mk (WordRow.word_id r) word_text meaning_ko category memo
                  (WordRow.is_favorite r) (WordRow.created_date r) now
                  (WordRow.is_deleted r)
  else r.

(** A question dictionary the table accepts as it is: every key besides
    word_id and is_correct is a column, and none sets question_id. *)
Definition plain (q : Question) : Prop :=
  forallb (fun k => mem_string k ExamQuestionModel.FIELDS) (keys (extra q)) = true
  /\ dict_get "question_id" (extra q) = None.

(** The row of exam_questions holds the question, under the exam. *)
Definition recorded_as (exam_id : Z) (q : Question) (r : ExamQuestionRow.t) : Prop :=
  ExamQuestionRow.exam_id r = exam_id
  /\ ExamQuestionRow.word_id r = q_word_id q
  /\ ExamQuestionRow.is_correct r = q_is_correct q
  /\ ExamQuestionRow.question_text r
     = ExamModel.or_null (dict_get "question_text" (extra q))
  /\ ExamQuestionRow.correct_answer r
     = ExamModel.or_null (dict_get "correct_answer" (extra q))
  /\ ExamQuestionRow.user_answer r
     = ExamModel.or_null (dict_get "user_answer" (extra q)).

(** The sum of wrong_count over the wrong-note table. *)
Definition total_wrong_count (t : Tables) : Z :=
  fold_right Z.add 0 (map WrongNoteRow.wrong_count (wrong_note t)).

(** The questions record_exam_result sends to the wrong note: is_correct
    is 0. *)
Definition misses (qs : list Question) : Z :=
  Z.of_nat (List.length (filter (fun q => q_is_correct q =? 0) qs)).

(** A transaction opened by BEGIN on a connection in autocommit mode. *)
Definition in_explicit_transaction (w : World) : Prop :=
  exists t0, _conn w = Some (mkConnection (Some t0) false).

(** The state the loop of record_exam_result runs in and keeps: an explicit
    transaction, a storage layer that accepts. *)
Definition recording (w : World) : Prop :=
  in_explicit_transaction w /\ accepting (faults w).

(** What no statement of the loop touches. *)
Definition same_elsewhere (w w' : World) : Prop :=
  _conn w' = _conn w
  /\ words (db w') = words (db w)
  /\ word_statistics (db w') = word_statistics (db w)
  /\ learning_history (db w') = learning_history (db w)
  /\ exam_history (db w') = exam_history (db w).

(** The exam ids are positive, as AUTOINCREMENT hands them out. *)
Definition exam_ids_positive (t : Tables) : Prop :=
  Forall (fun h => 0 < ExamHistoryRow.exam_id h) (exam_history t).


(** The note ids of the wrong-note table are distinct. *)
Definition note_ids_distinct (t : Tables) : Prop :=
  NoDup (map WrongNoteRow.note_id (wrong_note t)).

(** UPDATE words SET is_favorite = ?, modified_date = ? WHERE word_id = ?,
    row by row. *)
Definition with_favorite (word_id flag : Z) (now : string) (r : WordRow.t) : WordRow.t :=
  if WordRow.word_id r =? word_id
  then WordRow.mk (WordRow.word_id r) (WordRow.word_text r) (WordRow.meaning_ko r)
                  (WordRow.category r) (WordRow.memo r) flag
                  (WordRow.created_date r) now (WordRow.is_deleted r)
  else r.

(** is_deleted = 0 AND is_favorite = 1 *)
Definition is_active_favorite (r : WordRow.t) : bool :=
  (WordRow.is_deleted r =? 0) && (WordRow.is_favorite r =? 1).

(** Oldest first, by created_date. *)
Definition created_order (a b : WordRow.t) : Prop :=
  text_le (WordRow.created_date a) (WordRow.created_date b) = true.

(** Newest first, by exam_date. *)
Definition newest_first (a b : ExamHistoryRow.t) : Prop :=
  text_le (ExamHistoryRow.exam_date b) (ExamHistoryRow.exam_date a) = true.

(** Three exams: the second is the newest, the third is soft-deleted. *)
Definition exam_log : Tables :=
  mkTables [apple; pear] [] []
           [ExamHistoryRow.mk 1 "2025-10-10 10:00:00" "short_answer" 10
                              (PyFloat.of_int 70) 300 0;
            ExamHistoryRow.mk 2 "2025-10-12 10:00:00" "short_answer" 10
                              (PyFloat.of_int 90) 280 0;
            ExamHistoryRow.mk 3 "2025-10-11 10:00:00" "short_answer" 10
                              (PyFloat.of_int 50) 310 1]
           [] [].

(* ================================================================== *)
(** * Facts about the order of TEXT values *)
(* ================================================================== *)

Lemma ascii_compare_refl (a : ascii) : Ascii.compare a a = Eq.
Proof. unfold Ascii.compare. apply N.compare_refl. Qed.

Lemma ascii_compare_lt_trans (a b c : ascii) :
  Ascii.compare a b = Lt -> Ascii.compare b c = Lt -> Ascii.compare a c = Lt.
Proof.
  unfold Ascii.compare. rewrite !N.compare_lt_iff. apply N.lt_trans.
Qed.

Lemma string_compare_lt_trans (a b c : string) :
  String.compare a b = Lt -> String.compare b c = Lt -> String.compare a c = Lt.
Proof.
  revert b c. induction a as [|x a IH]; intros [|y b] [|z c]; simpl;
    try discriminate; auto.
  destruct (Ascii.compare x y) eqn:Hxy; try discriminate;
    destruct (Ascii.compare y z) eqn:Hyz; try discriminate; intros Hab Hbc.
  - apply Ascii.compare_eq_iff in Hxy, Hyz. subst.
    rewrite ascii_compare_refl. eauto.
  - apply Ascii.compare_eq_iff in Hxy. subst. now rewrite Hyz.
  - apply Ascii.compare_eq_iff in Hyz. subst. now rewrite Hxy.
  - now rewrite (ascii_compare_lt_trans x y z).
Qed.

Lemma text_le_refl (a : string) : text_le a a = true.
Proof.
  unfold text_le, String.leb.
  destruct (String.compare a a) eqn:E; auto.
  pose proof (String.compare_antisym a a) as H.
  rewrite E in H. discriminate.
Qed.

Lemma text_le_trans (a b c : string) :
  text_le a b = true -> text_le b c = true -> text_le a c = true.
Proof.
  unfold text_le, String.leb.
  destruct (String.compare a b) eqn:Hab; try discriminate;
    destruct (String.compare b c) eqn:Hbc; try discriminate; intros _ _.
  - apply String.compare_eq_iff in Hab, Hbc. subst. apply text_le_refl.
  - apply String.compare_eq_iff in Hab. subst. now rewrite Hbc.
  - apply String.compare_eq_iff in Hbc. subst. now rewrite Hab.
  - now rewrite (string_compare_lt_trans a b c).
Qed.

Lemma text_le_total (a b : string) : text_le a b = true \/ text_le b a = true.
Proof. apply String.leb_total. Qed.

(* ================================================================== *)
(** * Facts about ORDER BY and LIMIT *)
(* ================================================================== *)

Section OrderByFacts.
Context {A : Type} (le : A -> A -> bool).
Hypothesis le_total : forall a b, le a b = true \/ le b a = true.
Hypothesis le_trans : forall a b c, le a b = true -> le b c = true -> le a c = true.

Let R (a b : A) : Prop := le a b = true.

Lemma insert_by_perm (x : A) (l : list A) :
  Permutation (insert_by le x l) (x :: l).
Proof.
  induction l as [|y l IH]; simpl; auto.
  destruct (le x y); auto.
  rewrite IH. apply perm_swap.
Qed.

Lemma order_by_perm (l : list A) : Permutation (order_by le l) l.
Proof.
  induction l as [|x l IH]; simpl; auto.
  rewrite insert_by_perm. now constructor.
Qed.

Lemma order_by_In (l : list A) (x : A) : In x (order_by le l) <-> In x l.
Proof.
  split; apply Permutation_in;
    [apply order_by_perm | apply Permutation_sym, order_by_perm].
Qed.

Lemma order_by_length (l : list A) : List.length (order_by le l) = List.length l.
Proof. apply Permutation_length, order_by_perm. Qed.

Lemma insert_by_sorted (x : A) (l : list A) :
  StronglySorted R l -> StronglySorted R (insert_by le x l).
Proof.
  induction l as [|y l IH]; simpl; intros Hs.
  - repeat constructor.
  - destruct (le x y) eqn:Hxy.
    + constructor; auto. constructor; auto.
      apply StronglySorted_inv in Hs. destruct Hs as [_ Hy].
      eapply Forall_impl; [|exact Hy]. intros z Hz. unfold R in *. eauto.
    + apply StronglySorted_inv in Hs. destruct Hs as [Hl Hy].
      constructor; auto.
      assert (Hyx : R y x).
      { destruct (le_total x y) as [H|H]; [congruence | exact H]. }
      rewrite Forall_forall. intros z Hz.
      apply (Permutation_in _ (insert_by_perm x l)) in Hz.
      destruct Hz as [<-|Hz]; auto.
      rewrite Forall_forall in Hy. auto.
Qed.

Lemma order_by_sorted (l : list A) : StronglySorted R (order_by le l).
Proof.
  induction l as [|x l IH]; simpl.
  - constructor.
  - now apply insert_by_sorted.
Qed.
End OrderByFacts.

Lemma In_firstn {A : Type} (n : nat) (l : list A) (x : A) :
  In x (firstn n l) -> In x l.
Proof.
  revert n. induction l as [|y l IH]; intros [|n]; simpl; try tauto.
  intros [H|H]; eauto.
Qed.

Lemma firstn_strongly_sorted {A : Type} (R : A -> A -> Prop) (n : nat) (l : list A) :
  StronglySorted R l -> StronglySorted R (firstn n l).
Proof.
  revert n. induction l as [|x l IH]; intros [|n] Hs; simpl; try constructor.
  - apply IH. now apply StronglySorted_inv in Hs.
  - apply StronglySorted_inv in Hs. destruct Hs as [_ Hx].
    rewrite Forall_forall in *. intros y Hy. apply Hx.
    revert Hy. apply In_firstn.
Qed.

Lemma sql_limit_sorted {A : Type} (R : A -> A -> Prop) (n : Z) (l : list A) :
  StronglySorted R l -> StronglySorted R (sql_limit n l).
Proof.
  unfold sql_limit. destruct (n <? 0); auto using firstn_strongly_sorted.
Qed.

Lemma sql_limit_In {A : Type} (n : Z) (l : list A) (x : A) :
  In x (sql_limit n l) -> In x l.
Proof.
  unfold sql_limit. destruct (n <? 0); auto. apply In_firstn.
Qed.

Lemma sql_limit_length {A : Type} (n : Z) (l : list A) :
  0 <= n -> Z.of_nat (List.length (sql_limit n l)) <= n.
Proof.
  intros Hn. unfold sql_limit.
  destruct (n <? 0) eqn:E; [apply Z.ltb_lt in E; lia|].
  rewrite length_firstn. lia.
Qed.

(* ================================================================== *)
(** * Mastery Tracker: the level transition and the next review *)
(* ================================================================== *)

Lemma interval_table (level : Z) :
  int_dict_get level StatisticsModel.SRS_INTERVALS 1 = interval_days level.
Proof.
  unfold StatisticsModel.SRS_INTERVALS, int_dict_get.
  repeat match goal with
         | |- context [?a =? ?b] =>
             destruct (Z.eqb_spec a b); [subst; reflexivity|]
         end.
  unfold interval_days.
  destruct level as [|p|p]; try reflexivity; try lia.
  do 9 (destruct p as [p|p|]; try reflexivity; try lia).
Qed.

Lemma interval_table_rows (level : Z) :
  0 <= level <= 5 -> In (level, interval_days level) StatisticsModel.SRS_INTERVALS.
Proof.
  intros H.
  assert (level = 0 \/ level = 1 \/ level = 2 \/ level = 3 \/ level = 4 \/ level = 5)
    as Hl by lia.
  unfold StatisticsModel.SRS_INTERVALS.
  repeat destruct Hl as [-> | Hl]; subst; simpl; auto 10.
Qed.

Lemma next_level_range (prior : Z) (is_correct : bool) :
  0 <= prior <= 5 -> 0 <= next_level prior is_correct <= 5.
Proof. unfold next_level. destruct is_correct; lia. Qed.

Lemma calculate_next_review_eq (current_level : Z) (is_correct : bool) (w : World) :
  StatisticsModel._calculate_next_review current_level is_correct w =
  (option_map
     (fun due => (next_level current_level is_correct, datetime.strftime_midnight due))
     (datetime.add_days (clock w (ticks w))
        (interval_days (next_level current_level is_correct))),
   after 1 0 w).
Proof.
  unfold StatisticsModel._calculate_next_review, bind, now, ret.
  rewrite interval_table.
  change StatisticsModel.MAX_MASTERY_LEVEL with 5.
  fold (next_level current_level is_correct).
  destruct (datetime.add_days _ _); destruct w; reflexivity.
Qed.

(** Two readings of the clock on the same calendar day give the same next
    review. *)
Lemma next_review_ignores_time_of_day
      (current_level : Z) (is_correct : bool) (w1 w2 : World) :
  datetime.same_date (clock w1 (ticks w1)) (clock w2 (ticks w2)) ->
  fst (StatisticsModel._calculate_next_review current_level is_correct w1)
  = fst (StatisticsModel._calculate_next_review current_level is_correct w2).
Proof.
  intros (Hy & Hm & Hd). rewrite !calculate_next_review_eq. cbn [fst].
  unfold datetime.add_days, datetime.toordinal. rewrite Hy, Hm, Hd.
  destruct (_ && _); [|reflexivity].
  destruct (datetime._ord2ymd _) as [[y m] d]. reflexivity.
Qed.

(** C1, as the code has it: the next review is the calendar day that lies
    the table's interval for the new level after now, with the time of day
    set to 00:00:00; the time of day of now is dropped.  The interval is the
    one the table {0:1, 1:3, 2:7, 3:14, 4:30, 5:365} gives the new level.
    When the day is past year 9999 the date arithmetic fails. *)
Theorem next_review_is_start_of_due_day
        (current_level : Z) (is_correct : bool) (w : World) :
  let now := clock w (ticks w) in
  let new_level := next_level current_level is_correct in
  fst (StatisticsModel._calculate_next_review current_level is_correct w)
  = option_map
      (fun due => (new_level, datetime.strftime_full (datetime.start_of_day due)))
      (datetime.add_days now (interval_days new_level))
  /\ (0 <= current_level <= 5 ->
      In (new_level, interval_days new_level) StatisticsModel.SRS_INTERVALS).
Proof.
  intros now new_level. split.
  - rewrite calculate_next_review_eq. cbn [fst].
    destruct (datetime.add_days _ _); reflexivity.
  - intros Hrange. apply interval_table_rows. now apply next_level_range.
Qed.

(** C1, as the specification words it, fails: a first correct answer at
    14:30:05 is due at 00:00:00 three days later, not at 14:30:05. *)
Lemma next_review_drops_time_of_day :
  fst (StatisticsModel._calculate_next_review 0 true (world_at one_word []))
  = Some (1, "2025-10-23 00:00:00")
  /\ claimed_next_review 0 true afternoon = Some (1, "2025-10-23 14:30:05")
  /\ fst (StatisticsModel._calculate_next_review 0 true (world_at one_word []))
     <> claimed_next_review 0 true (clock (world_at one_word []) 0).
Proof.
  repeat split; try (vm_compute; reflexivity).
  vm_compute. discriminate.
Qed.

(* ================================================================== *)
(** * The CRUD operations on an idle connection *)
(* ================================================================== *)

Lemma fault_free_S (n : nat) (fs : list bool) :
  fault_free (S n) fs -> hd false fs = false /\ fault_free n (skipn 1 fs).
Proof.
  unfold fault_free. destruct fs as [|[|] fs]; simpl; intros H;
    try discriminate; auto.
  split; auto. now destruct n.
Qed.

Ltac crush_world :=
  repeat match goal with
         | w : World |- _ => destruct w; simpl in *
         | H : idle _ |- _ => unfold idle in H; simpl in H; subst
         | |- context [match ?fs with [] => _ | _ :: _ => _ end] =>
             is_var fs; destruct fs as [|[|] ?]; simpl
         end.

Section CRUDFacts.
Context {Row : Type} `{BaseModel.Model Row}.

(** insert on an idle connection: one clock reading, one statement; the
    row is appended and committed unless the storage layer or the UNIQUE
    constraint rejects it, and then nothing changes. *)
Lemma insert_idle (data : Row) (w : World) :
  idle w ->
  BaseModel.insert data w =
  let t := db w in
  let id := next_rowid (map BaseModel.pk (BaseModel.table t)) in
  if negb (hd false (faults w)) && BaseModel.unique_ok (BaseModel.table t) data
  then (Some id,
        after 1 1 (set_db (BaseModel.set_table
                             (BaseModel.table t ++ [BaseModel.set_pk id data]) t) w))
  else (None, after 1 1 w).
Proof.
  intros Hi. unfold BaseModel.insert, bind, ret, now, DBConnection.connect,
    DBConnection.execute, DBConnection.next_fault, BaseModel.sql_insert,
    DBConnection.commit, DBConnection.close, after.
  crush_world; try reflexivity;
    destruct (BaseModel.unique_ok _ _); reflexivity.
Qed.

(** update on an idle connection. *)
Lemma update_idle (pk_value : Z) (data : Row -> Row) (w : World) :
  idle w ->
  BaseModel.update pk_value data w =
  let t := db w in
  let hit := fun r => BaseModel.pk r =? pk_value in
  if negb (hd false (faults w))
     && (0 <? Z.of_nat (List.length (filter hit (BaseModel.table t))))
  then (true,
        after 1 1 (set_db (BaseModel.set_table
                             (map (fun r => if hit r then data r else r)
                                  (BaseModel.table t)) t) w))
  else (false, after 1 1 w).
Proof.
  intros Hi. unfold BaseModel.update, bind, ret, now, DBConnection.connect,
    DBConnection.execute, DBConnection.next_fault, BaseModel.sql_update,
    DBConnection.commit, DBConnection.close, after.
  crush_world; try reflexivity;
    destruct (0 <? _); reflexivity.
Qed.

(** select_all on an idle connection. *)
Lemma select_all_idle (where_clause : list Row -> list Row) (w : World) :
  idle w ->
  BaseModel.select_all where_clause w =
  (if hd false (faults w) then [] else where_clause (BaseModel.table (db w)),
   after 0 1 w).
Proof.
  intros Hi. unfold BaseModel.select_all, bind, ret, DBConnection.connect,
    DBConnection.fetchall, DBConnection.execute, DBConnection.next_fault,
    DBConnection.close, after.
  crush_world; reflexivity.
Qed.
End CRUDFacts.

(* ================================================================== *)
(** * Mastery Tracker: recordOutcome *)
(* ================================================================== *)

Lemma filter_map_commute {A : Type} (p : A -> bool) (f : A -> A) (l : list A) :
  (forall x, p (f x) = p x) -> filter p (map f l) = map f (filter p l).
Proof.
  intros Hp. induction l as [|x l IH]; simpl; auto.
  rewrite Hp. destruct (p x); simpl; now rewrite IH.
Qed.

Lemma filter_nil_existsb {A : Type} (p : A -> bool) (l : list A) :
  filter p l = [] -> existsb p l = false.
Proof.
  induction l as [|x l IH]; simpl; auto.
  destruct (p x); [discriminate | auto].
Qed.

Lemma filter_key_NoDup {A : Type} (key : A -> Z) (k : Z) (l : list A) (x : A)
      (rest : list A) :
  NoDup (map key l) ->
  filter (fun a => key a =? k) l = x :: rest -> rest = [].
Proof.
  induction l as [|y l IH]; simpl; intros Hnd Hf; [discriminate|].
  inversion Hnd as [|? ? Hy Hl]; subst.
  destruct (Z.eqb_spec (key y) k) as [Hk|Hk]; [|auto].
  inversion Hf; subst.
  destruct (filter (fun a => key a =? key x) l) as [|z zs] eqn:E; auto.
  exfalso. apply Hy.
  assert (Hz : In z (filter (fun a => key a =? key x) l)) by (rewrite E; now left).
  apply filter_In in Hz. destruct Hz as [Hz Hzk].
  apply Z.eqb_eq in Hzk. rewrite <- Hzk. now apply in_map.
Qed.

Lemma In_length_pos {A : Type} (x : A) (l : list A) :
  In x l -> 0 < Z.of_nat (List.length l).
Proof. destruct l; simpl; [tauto | lia]. Qed.

Lemma filter_head_holds {A : Type} (p : A -> bool) (l : list A) (x : A)
      (rest : list A) :
  filter p l = x :: rest -> In x l /\ p x = true.
Proof.
  intros Hf. apply filter_In. rewrite Hf. now left.
Qed.

(** update_statistics on an idle connection when both of its statements are
    accepted and the date arithmetic stays in range: the word's record
    carries the new level, and the counters and dates of this outcome. *)
Lemma update_statistics_ok (word_id : Z) (is_correct : bool) (w : World) :
  idle w ->
  fault_free 2 (faults w) ->
  NoDup (map StatsRow.word_id (word_statistics (db w))) ->
  forall due,
  datetime.add_days (clock w (S (ticks w)))
    (interval_days (next_level (prior_level word_id (db w)) is_correct)) = Some due ->
  exists s w',
    StatisticsModel.update_statistics word_id is_correct w = (Some true, w')
    /\ idle w'
    /\ stats_of word_id (db w') = [s]
    /\ StatsRow.mastery_level s = next_level (prior_level word_id (db w)) is_correct
    /\ StatsRow.next_review s = datetime.strftime_midnight due
    /\ StatsRow.last_review s = datetime.strftime_full (clock w (ticks w)).
Proof.
  intros Hi Hff Hnd due Hdue.
  destruct (fault_free_S _ _ Hff) as [Hf0 Hff1].
  destruct (fault_free_S _ _ Hff1) as [Hf1 _].
  unfold StatisticsModel.update_statistics, bind.
  rewrite select_all_idle by exact Hi. rewrite Hf0.
  unfold now_str, now, bind, ret.
  unfold prior_level in Hdue. cbn [BaseModel.table StatisticsModel.model].
  destruct w as [t c fs clk tk rg].
  unfold idle in Hi. unfold after, set_ticks.
  cbn [db faults clock ticks _conn rng Nat.add] in *. subst c.
  assert (Hfs : exists fs', skipn 2 fs = fs' /\ hd false fs = false
                            /\ hd false (skipn 1 fs) = false) by eauto.
  clear Hff Hff1 Hf0 Hf1.
  destruct (filter (fun s => StatsRow.word_id s =? word_id) (word_statistics t))
    as [|s0 rest] eqn:Hfil.
  - rewrite calculate_next_review_eq.
    cbn [db faults clock ticks _conn rng Nat.add].
    rewrite Hdue. cbn [option_map].
    rewrite insert_idle by reflexivity.
    unfold after. cbn [db faults clock ticks _conn rng Nat.add].
    rewrite skipn_O.
    destruct Hfs as (fs' & _ & _ & ->). cbn [negb andb].
    replace (BaseModel.unique_ok _ _) with true.
    2:{ symmetry. apply negb_true_iff. now apply filter_nil_existsb. }
    eexists. eexists. split; [reflexivity|].
    unfold stats_of, prior_level, idle. simpl.
    rewrite filter_app, Hfil. simpl. rewrite Z.eqb_refl.
    repeat split.
  - assert (rest = []) by (eapply filter_key_NoDup; eauto). subst rest.
    destruct (filter_head_holds _ _ _ _ Hfil) as [Hin Hk].
    apply Z.eqb_eq in Hk.
    rewrite calculate_next_review_eq.
    cbn [db faults clock ticks _conn rng Nat.add].
    rewrite Hdue. cbn [option_map].
    rewrite update_idle by reflexivity.
    unfold after. cbn [db faults clock ticks _conn rng Nat.add].
    rewrite skipn_O.
    destruct Hfs as (fs' & _ & _ & ->). cbn [negb andb].
    replace (0 <? _) with true.
    2:{ symmetry. apply Z.ltb_lt.
        apply (In_length_pos s0). apply filter_In.
        split; [exact Hin | apply Z.eqb_refl]. }
    eexists. eexists. split; [reflexivity|].
    unfold stats_of, prior_level, idle. simpl.
    rewrite filter_map_commute.
    2:{ intros x. destruct (StatsRow.stats_id x =? StatsRow.stats_id s0); reflexivity. }
    rewrite Hfil. simpl. rewrite Z.eqb_refl. repeat split.
Qed.

(** C2: on a word whose record, if any, holds a level in 0..5, recordOutcome
    leaves exactly one record for the word; its level is 0 after an
    incorrect answer and min(prior + 1, 5) after a correct one, so it stays
    within 0..5. *)
Theorem record_outcome_level
        (word_id : Z) (is_correct : bool) (w : World) (due : datetime.t) :
  idle w ->
  fault_free 2 (faults w) ->
  NoDup (map StatsRow.word_id (word_statistics (db w))) ->
  datetime.add_days (clock w (S (ticks w)))
    (interval_days (next_level (prior_level word_id (db w)) is_correct)) = Some due ->
  0 <= prior_level word_id (db w) <= 5 ->
  let prior := prior_level word_id (db w) in
  let out := StatisticsModel.update_statistics word_id is_correct w in
  fst out = Some true
  /\ exists s,
       stats_of word_id (db (snd out)) = [s]
       /\ StatsRow.mastery_level s = (if is_correct then Z.min (prior + 1) 5 else 0)
       /\ 0 <= StatsRow.mastery_level s <= 5.
Proof.
  intros Hi Hff Hnd Hdue Hrange prior out.
  destruct (update_statistics_ok word_id is_correct w Hi Hff Hnd due Hdue)
    as (s & w' & Hrun & _ & Hs & Hlvl & _).
  subst out. rewrite Hrun. simpl. split; [reflexivity|].
  exists s. split; [exact Hs|].
  fold prior in Hlvl. unfold next_level in Hlvl. rewrite Hlvl.
  split; [reflexivity|]. destruct is_correct; lia.
Qed.

(** A word mastered at level 5 stays at level 5 after a correct answer. *)
Lemma record_outcome_level_witness :
  exists s,
    stats_of 1 (db (snd (StatisticsModel.update_statistics 1 true
                           (world_at apple_mastered [])))) = [s]
    /\ StatsRow.mastery_level s = 5.
Proof.
  destruct (record_outcome_level 1 true (world_at apple_mastered [])
              (datetime.mk 2026 10 20 14 30 5 0)) as (_ & s & Hs & Hl & _).
  - reflexivity.
  - reflexivity.
  - repeat constructor. simpl. tauto.
  - vm_compute. reflexivity.
  - vm_compute. split; discriminate.
  - exists s. split; [exact Hs | exact Hl].
Defined.

(* ================================================================== *)
(** * Learning Session Log: recordEvent *)
(* ================================================================== *)

(** add_history on an idle connection: two clock readings, one statement. *)
Lemma add_history_idle (session_id word_id : Z) (is_correct : bool)
      (response_time : float) (w : World) :
  idle w ->
  LearningModel.add_history session_id word_id is_correct response_time w =
  let rows := learning_history (db w) in
  let id := next_rowid (map HistoryRow.history_id rows) in
  let row :=
    HistoryRow.mk id session_id word_id (if is_correct then 1 else 0)
                  response_time (datetime.strftime_full (clock w (ticks w))) in
  if negb (hd false (faults w))
  then (Some id, after 2 1 (set_db (set_learning_history (rows ++ [row]) (db w)) w))
  else (None, after 2 1 w).
Proof.
  intros Hi. unfold LearningModel.add_history, now_str, now, bind, ret.
  rewrite insert_idle by (destruct w; exact Hi).
  destruct w as [t c fs clk tk rg]. unfold after.
  cbn [db faults clock ticks _conn rng set_ticks set_db Nat.add].
  destruct (hd false fs); reflexivity.
Qed.

(** Whatever the storage layer does, update_statistics on an idle
    connection ends idle and touches no table but word_statistics. *)
Lemma update_statistics_frame (word_id : Z) (is_correct : bool) (w : World) :
  idle w ->
  let w' := snd (StatisticsModel.update_statistics word_id is_correct w) in
  idle w'
  /\ words (db w') = words (db w)
  /\ learning_history (db w') = learning_history (db w)
  /\ exam_history (db w') = exam_history (db w)
  /\ exam_questions (db w') = exam_questions (db w)
  /\ wrong_note (db w') = wrong_note (db w).
Proof.
  intros Hi. unfold StatisticsModel.update_statistics, bind.
  rewrite select_all_idle by exact Hi.
  unfold now_str, now, bind, ret.
  destruct w as [t c fs clk tk rg]. unfold idle in Hi.
  unfold after, set_ticks.
  cbn [db faults clock ticks _conn rng Nat.add] in *. subst c.
  destruct (if hd false fs then [] else _) as [|s0 rest];
    rewrite calculate_next_review_eq;
    cbn [db faults clock ticks _conn rng Nat.add];
    destruct (datetime.add_days _ _); cbn [option_map];
    try (simpl; unfold idle; simpl; tauto).
  - rewrite insert_idle by reflexivity.
    cbn [db faults clock ticks _conn rng].
    destruct (negb _ && _); simpl; unfold idle; simpl; tauto.
  - rewrite update_idle by reflexivity.
    cbn [db faults clock ticks _conn rng].
    destruct (negb _ && _); simpl; unfold idle; simpl; tauto.
Qed.

(** C9: recordEvent is the history write followed by the statistics update,
    each standing on its own.  The history write appends one row with the
    session, the word, the outcome, the response time and the clock reading
    exactly when the storage layer accepts its statement, and changes
    nothing otherwise.  The update runs on whatever the history write left,
    whether that write succeeded or not, and when its own statements are
    accepted it leaves the word's record at the next level.  The outcome is
    success exactly when both succeeded; a history row that was written
    stays when the update fails, and the update stands when the history
    write failed. *)
Theorem record_event_two_independent_writes
        (session_id word_id : Z) (is_correct : bool) (response_time : float)
        (w : World) :
  idle w ->
  let row :=
    HistoryRow.mk (next_rowid (map HistoryRow.history_id (learning_history (db w))))
                  session_id word_id (if is_correct then 1 else 0) response_time
                  (datetime.strftime_full (clock w (ticks w))) in
  let '(h, w1) :=
    LearningModel.add_history session_id word_id is_correct response_time w in
  let '(s, w2) := StatisticsModel.update_statistics word_id is_correct w1 in
  let out :=
    LearningController.record_word_result session_id word_id is_correct
                                          response_time w in
  snd out = w2
  /\ (fst out = Some true <-> h <> None /\ s = Some true)
  /\ (h <> None <-> hd false (faults w) = false)
  /\ (hd false (faults w) = false ->
        h = Some (HistoryRow.history_id row)
        /\ learning_history (db w1) = learning_history (db w) ++ [row])
  /\ (hd false (faults w) = true -> db w1 = db w)
  /\ learning_history (db w2) = learning_history (db w1)
  /\ word_statistics (db w1) = word_statistics (db w)
  /\ (fault_free 2 (faults w1) ->
      NoDup (map StatsRow.word_id (word_statistics (db w))) ->
      forall due,
        datetime.add_days (clock w1 (S (ticks w1)))
          (interval_days (next_level (prior_level word_id (db w)) is_correct))
        = Some due ->
        s = Some true
        /\ exists r,
             stats_of word_id (db w2) = [r]
             /\ StatsRow.mastery_level r
                = next_level (prior_level word_id (db w)) is_correct).
Proof.
  intros Hi. cbv zeta.
  destruct (LearningModel.add_history session_id word_id is_correct response_time w)
    as [h w1] eqn:Eh.
  destruct (StatisticsModel.update_statistics word_id is_correct w1)
    as [s w2] eqn:Es.
  set (row := HistoryRow.mk _ _ _ _ _ _).
  assert (Hw1 : idle w1
                /\ (h <> None <-> hd false (faults w) = false)
                /\ (hd false (faults w) = false ->
                      h = Some (HistoryRow.history_id row)
                      /\ learning_history (db w1) = learning_history (db w) ++ [row])
                /\ (hd false (faults w) = true -> db w1 = db w)
                /\ word_statistics (db w1) = word_statistics (db w)).
  { rewrite add_history_idle in Eh by exact Hi. cbv zeta in Eh. subst row.
    destruct w as [t c fs clk tk rg]. unfold idle in Hi. simpl in Hi. subst c.
    cbn [db faults clock ticks] in *.
    destruct (hd false fs); cbn [negb] in Eh; inversion Eh; subst; clear Eh;
      unfold idle; cbn [after db _conn set_db set_learning_history learning_history
                        word_statistics HistoryRow.history_id].
    - split; [reflexivity|]. split; [split; [congruence | discriminate]|].
      split; [discriminate|]. split; reflexivity.
    - split; [reflexivity|]. split; [split; [reflexivity | discriminate]|].
      split; [intros _; split; reflexivity|]. split; [discriminate | reflexivity]. }
  destruct Hw1 as (Hi1 & Hh & Hacc & Hrej & Hstats).
  pose proof (update_statistics_frame word_id is_correct w1 Hi1) as Hfr.
  rewrite Es in Hfr. simpl in Hfr.
  destruct Hfr as (_ & _ & Hlh & _).
  assert (Hout : LearningController.record_word_result session_id word_id is_correct
                   response_time w
                 = (match s with
                    | None => None
                    | Some st => Some (match h with
                                       | Some _ => st
                                       | None => false
                                       end)
                    end, w2)).
  { unfold LearningController.record_word_result, bind, ret.
    rewrite Eh, Es. destruct s as [[|]|], h; reflexivity. }
  rewrite Hout. cbn [fst snd].
  split; [reflexivity|].
  split.
  { split.
    - destruct s as [[|]|], h; try discriminate; intros _; split; congruence.
    - intros [Hn Hs]. subst s. destruct h; [reflexivity | congruence]. }
  split; [exact Hh|]. split; [exact Hacc|]. split; [exact Hrej|].
  split; [exact Hlh|]. split; [exact Hstats|].
  intros Hff Hnd due Hdue.
  assert (Hprior : prior_level word_id (db w1) = prior_level word_id (db w))
    by (unfold prior_level; now rewrite Hstats).
  rewrite <- Hstats in Hnd. rewrite <- Hprior in Hdue.
  destruct (update_statistics_ok word_id is_correct w1 Hi1 Hff Hnd due Hdue)
    as (r & w' & Hrun & _ & Hr & Hlvl & _).
  rewrite Hrun in Es. inversion Es; subst.
  split; [reflexivity|]. exists r. split; [exact Hr|]. now rewrite <- Hprior.
Qed.

(** Both writes accepted for a new word answered correctly: one history
    row, one record at level 1, success. *)
Lemma record_event_witness :
  idle (world_at one_word [])
  /\ (let out := LearningController.record_word_result 7 1 true 2%float
                   (world_at one_word []) in
      fst out = Some true
      /\ learning_history (db (snd out))
         = [HistoryRow.mk 1 7 1 1 2%float "2025-10-20 14:30:05"]
      /\ exists r, stats_of 1 (db (snd out)) = [r] /\ StatsRow.mastery_level r = 1).
Proof.
  split; [reflexivity|].
  pose proof (record_event_two_independent_writes 7 1 true 2%float
                (world_at one_word []) eq_refl) as H.
  cbv zeta in H.
  destruct (LearningModel.add_history 7 1 true 2%float (world_at one_word []))
    as [h w1] eqn:Eh.
  destruct (StatisticsModel.update_statistics 1 true w1) as [s w2] eqn:Es.
  destruct H as (Hsnd & Hiff & Hh & Hacc & _ & Hkeep & _ & Hupd).
  destruct (Hacc eq_refl) as [Hid Hrow].
  assert (Hw1 : w1 = after 2 1
                  (set_db (set_learning_history
                             [HistoryRow.mk 1 7 1 1 2%float "2025-10-20 14:30:05"]
                             one_word) (world_at one_word [])))
    by (vm_compute in Eh; inversion Eh; reflexivity).
  destruct (Hupd (ltac:(rewrite Hw1; reflexivity))
                 (ltac:(constructor))
                 (datetime.mk 2025 10 23 14 30 5 0)
                 (ltac:(rewrite Hw1; vm_compute; reflexivity)))
    as (Hs & r & Hr & Hlvl).
  cbv zeta. rewrite Hsnd.
  split; [apply Hiff; split; [rewrite Hid; discriminate | exact Hs]|].
  split; [rewrite Hkeep, Hrow; reflexivity|].
  exists r. split; [exact Hr | exact Hlvl].
Defined.

(** A history write that fails does not stop the statistics update: the
    outcome is failure, and the word has its record. *)
Example record_event_history_fault :
  let out := LearningController.record_word_result 7 1 true 2%float
               (world_at one_word [true]) in
  fst out = Some false
  /\ learning_history (db (snd out)) = []
  /\ map StatsRow.mastery_level (word_statistics (db (snd out))) = [1].
Proof. vm_compute. repeat split. Qed.

(** A statistics update that fails leaves the history row in place. *)
Example record_event_statistics_fault :
  let out := LearningController.record_word_result 7 1 true 2%float
               (world_at one_word [false; false; true]) in
  fst out = Some false
  /\ map HistoryRow.word_id (learning_history (db (snd out))) = [1]
  /\ word_statistics (db (snd out)) = [].
Proof. vm_compute. repeat split. Qed.

(* ================================================================== *)
(** * Mastery Tracker: selectDueWords *)
(* ================================================================== *)

(** The query either is rejected, and the list is empty, or returns the due
    rows in order, cut at the limit. *)
Lemma select_review_words_rows (limit : Z) (w : World) :
  let today := datetime.strftime_end_of_day (clock w (ticks w)) in
  fst (StatisticsModel.select_review_words limit w) =
  if hd false (faults w) then []
  else sql_limit limit
         (order_by StatisticsModel.next_review_le
                   (StatisticsModel.due_rows today (db w))).
Proof.
  unfold StatisticsModel.select_review_words, StatisticsModel.review_query,
    bind, ret, now, DBConnection.connect, DBConnection.execute,
    DBConnection.next_fault, DBConnection.close.
  destruct w as [t [[[t0|] l]|] [|[|] fs] clk tk rg]; reflexivity.
Qed.

Lemma due_rows_In (today : string) (t : Tables) (r : StatisticsModel.ReviewWord) :
  In r (StatisticsModel.due_rows today t) ->
  exists W S,
    In W (words t) /\ In S (word_statistics t)
    /\ WordRow.is_deleted W = 0
    /\ WordRow.word_id W = StatisticsModel.word_id r
    /\ StatsRow.word_id S = StatisticsModel.word_id r
    /\ StatsRow.next_review S = StatisticsModel.next_review r
    /\ text_le (StatisticsModel.next_review r) today = true.
Proof.
  unfold StatisticsModel.due_rows. rewrite in_flat_map.
  intros (W & HW & Hr). rewrite in_map_iff in Hr.
  destruct Hr as (S & <- & HS). rewrite filter_In in HS.
  destruct HS as (HS & Hc).
  rewrite !andb_true_iff, !Z.eqb_eq in Hc. destruct Hc as ((Hid & Hdel) & Hle).
  exists W, S. simpl. repeat split; auto.
Qed.

Lemma next_review_le_total (a b : StatisticsModel.ReviewWord) :
  StatisticsModel.next_review_le a b = true
  \/ StatisticsModel.next_review_le b a = true.
Proof. apply text_le_total. Qed.

Lemma next_review_le_trans (a b c : StatisticsModel.ReviewWord) :
  StatisticsModel.next_review_le a b = true ->
  StatisticsModel.next_review_le b c = true ->
  StatisticsModel.next_review_le a c = true.
Proof. apply text_le_trans. Qed.

(** C7: for a limit N >= 0, selectDueWords returns at most N rows; each is
    a word that is not soft-deleted, joined with a mastery record of that
    word whose nextReview is at or before the end of today; and the rows are
    in ascending order of nextReview. *)
Theorem select_due_words_sound (limit : Z) (w : World) :
  0 <= limit ->
  let today := datetime.strftime_end_of_day (clock w (ticks w)) in
  let rows := fst (StatisticsModel.select_review_words limit w) in
  Z.of_nat (List.length rows) <= limit
  /\ Forall (fun r =>
       exists W S,
         In W (words (db w)) /\ In S (word_statistics (db w))
         /\ WordRow.is_deleted W = 0
         /\ WordRow.word_id W = StatisticsModel.word_id r
         /\ StatsRow.word_id S = StatisticsModel.word_id r
         /\ StatsRow.next_review S = StatisticsModel.next_review r
         /\ text_le (StatisticsModel.next_review r) today = true) rows
  /\ StronglySorted due_order rows.
Proof.
  intros Hlimit today rows. subst rows.
  rewrite select_review_words_rows. fold today.
  destruct (hd false (faults w)).
  - simpl. repeat split; [lia | constructor | constructor].
  - split; [now apply sql_limit_length|]. split.
    + rewrite Forall_forall. intros r Hr.
      apply sql_limit_In in Hr. apply order_by_In in Hr.
      now apply due_rows_In.
    + apply sql_limit_sorted.
      apply (order_by_sorted StatisticsModel.next_review_le
               next_review_le_total next_review_le_trans).
Qed.

(** With a limit of 1 the longest overdue word, pear, is the one returned;
    the soft-deleted fig, due as long, is not. *)
Lemma select_due_words_witness :
  0 <= 1
  /\ map StatisticsModel.word_text
         (fst (StatisticsModel.select_review_words 1 (world_at review_queue [])))
     = ["pear"]
  /\ StronglySorted due_order
       (fst (StatisticsModel.select_review_words 1 (world_at review_queue []))).
Proof.
  split; [lia|]. split; [vm_compute; reflexivity|].
  apply (select_due_words_sound 1 (world_at review_queue [])). lia.
Defined.

(* ================================================================== *)
(** * Wrong-Note Ledger: selectForReview *)
(* ================================================================== *)

Lemma select_wrong_words_rows (limit : option Z) (w : World) :
  fst (ExamModel.select_wrong_words_for_review limit w) =
  if hd false (faults w) then []
  else
    let sorted := order_by ExamModel.review_le (ExamModel.wrong_rows (db w)) in
    match limit with
    | Some n => sql_limit n sorted
    | None => sorted
    end.
Proof.
  unfold ExamModel.select_wrong_words_for_review, ExamModel.wrong_query,
    bind, ret, DBConnection.connect, DBConnection.execute,
    DBConnection.next_fault, DBConnection.close.
  destruct w as [t [[[t0|] l]|] [|[|] fs] clk tk rg]; reflexivity.
Qed.

Lemma wrong_rows_In (t : Tables) (r : ExamModel.WrongWord) :
  In r (ExamModel.wrong_rows t) <->
  exists W N,
    In W (words t) /\ In N (wrong_note t)
    /\ WordRow.is_deleted W = 0
    /\ WordRow.word_id W = WrongNoteRow.word_id N
    /\ r = ExamModel.mkWrongWord (WordRow.word_id W) (WordRow.word_text W)
             (WordRow.meaning_ko W) (WrongNoteRow.wrong_count N)
             (WrongNoteRow.last_wrong_date N).
Proof.
  unfold ExamModel.wrong_rows. rewrite in_flat_map. split.
  - intros (W & HW & Hr). rewrite in_map_iff in Hr.
    destruct Hr as (N & <- & HN). rewrite filter_In in HN.
    destruct HN as (HN & Hc).
    rewrite andb_true_iff, !Z.eqb_eq in Hc. destruct Hc as (Hid & Hdel).
    exists W, N. auto.
  - intros (W & N & HW & HN & Hdel & Hid & ->).
    exists W. split; [exact HW|]. rewrite in_map_iff. exists N.
    split; [reflexivity|]. apply filter_In.
    split; [exact HN|]. rewrite andb_true_iff, !Z.eqb_eq. auto.
Qed.

Lemma review_le_order (a b : ExamModel.WrongWord) :
  ExamModel.review_le a b = true <-> review_order a b.
Proof.
  unfold ExamModel.review_le, review_order.
  rewrite orb_true_iff, andb_true_iff, Z.ltb_lt, Z.eqb_eq. tauto.
Qed.

Lemma review_le_total (a b : ExamModel.WrongWord) :
  ExamModel.review_le a b = true \/ ExamModel.review_le b a = true.
Proof.
  rewrite !review_le_order. unfold review_order.
  destruct (Z.lt_trichotomy (ExamModel.wrong_count a) (ExamModel.wrong_count b))
    as [Hlt | [Heq | Hgt]]; auto.
  destruct (text_le_total (ExamModel.last_wrong_date a) (ExamModel.last_wrong_date b));
    [left | right]; right; split; auto.
Qed.

Lemma review_le_trans (a b c : ExamModel.WrongWord) :
  ExamModel.review_le a b = true -> ExamModel.review_le b c = true ->
  ExamModel.review_le a c = true.
Proof.
  rewrite !review_le_order. unfold review_order.
  intros [Hab | [Hab Hdab]] [Hbc | [Hbc Hdbc]].
  - left. lia.
  - left. lia.
  - left. lia.
  - right. split; [lia|]. eapply text_le_trans; eauto.
Qed.

Lemma StronglySorted_impl {A : Type} (R S : A -> A -> Prop) (l : list A) :
  (forall a b, R a b -> S a b) -> StronglySorted R l -> StronglySorted S l.
Proof.
  intros HRS. induction 1 as [|x l Hl IH Hx]; constructor; auto.
  eapply Forall_impl; [|exact Hx]. auto.
Qed.

(** C8: the rows of selectForReview are in order of wrongCount descending
    and, for equal wrongCount, lastWrongDate ascending; each is a word that
    is not soft-deleted joined with its wrong-note entry; and without a
    limit, when the query is accepted, every such pair is returned. *)
Theorem select_for_review_order (limit : option Z) (w : World) :
  let rows := fst (ExamModel.select_wrong_words_for_review limit w) in
  StronglySorted review_order rows
  /\ Forall (fun r =>
       exists W N,
         In W (words (db w)) /\ In N (wrong_note (db w))
         /\ WordRow.is_deleted W = 0
         /\ WordRow.word_id W = WrongNoteRow.word_id N
         /\ ExamModel.word_id r = WordRow.word_id W
         /\ ExamModel.wrong_count r = WrongNoteRow.wrong_count N
         /\ ExamModel.last_wrong_date r = WrongNoteRow.last_wrong_date N) rows
  /\ (limit = None -> fault_free 1 (faults w) ->
      List.length rows = List.length (ExamModel.wrong_rows (db w))
      /\ forall W N,
           In W (words (db w)) -> In N (wrong_note (db w)) ->
           WordRow.is_deleted W = 0 ->
           WordRow.word_id W = WrongNoteRow.word_id N ->
           In (ExamModel.mkWrongWord (WordRow.word_id W) (WordRow.word_text W)
                 (WordRow.meaning_ko W) (WrongNoteRow.wrong_count N)
                 (WrongNoteRow.last_wrong_date N)) rows).
Proof.
  intros rows. subst rows. rewrite select_wrong_words_rows.
  pose proof (order_by_sorted ExamModel.review_le review_le_total review_le_trans
                (ExamModel.wrong_rows (db w))) as Hsorted.
  apply (StronglySorted_impl _ review_order) in Hsorted;
    [|intros a b; apply review_le_order].
  split; [|split].
  - destruct (hd false (faults w)); [constructor|].
    destruct limit; [now apply sql_limit_sorted | exact Hsorted].
  - rewrite Forall_forall. intros r Hr.
    assert (Hin : In r (ExamModel.wrong_rows (db w))).
    { destruct (hd false (faults w)); [destruct Hr|].
      destruct limit; [apply sql_limit_In in Hr|]; now apply order_by_In in Hr. }
    apply wrong_rows_In in Hin.
    destruct Hin as (W & N & HW & HN & Hdel & Hid & ->).
    exists W, N. simpl. auto 10.
  - intros -> Hff. apply fault_free_S in Hff. destruct Hff as [-> _].
    cbv zeta. split; [apply order_by_length|].
    intros W N HW HN Hdel Hid. apply order_by_In. apply wrong_rows_In.
    exists W, N. auto.
Qed.

(** Missed five times comes before missed twice; of two words missed twice,
    the one missed longer ago comes first; the soft-deleted fig is left
    out. *)
Example select_for_review_sample :
  map ExamModel.word_text
      (fst (ExamModel.select_wrong_words_for_review None (world_at wrong_notes [])))
  = ["pear"; "plum"; "apple"].
Proof. vm_compute. reflexivity. Qed.

(* ================================================================== *)
(** * Wrong-Note Ledger: recordMiss *)
(* ================================================================== *)

(** The ledger after _update_wrong_note, on an open connection that accepts
    both statements: the first entry of the word is found and every entry
    with its note_id is bumped, or a fresh entry is appended. *)
Lemma update_wrong_note_rows (word_id latest_exam_id : Z) (w : World)
      (c : Connection) :
  _conn w = Some c ->
  fault_free 2 (faults w) ->
  wrong_note (db (snd (ExamModel._update_wrong_note word_id latest_exam_id w))) =
  let now := datetime.strftime_full (clock w (ticks w)) in
  let rows := wrong_note (db w) in
  match filter (fun n => WrongNoteRow.word_id n =? word_id) rows with
  | n0 :: _ =>
      map (fun n =>
             if WrongNoteRow.note_id n =? WrongNoteRow.note_id n0
             then WrongNoteRow.mk (WrongNoteRow.note_id n) (WrongNoteRow.word_id n)
                                  latest_exam_id (WrongNoteRow.wrong_count n + 1) now
             else n) rows
  | [] =>
      rows ++ [WrongNoteRow.mk (next_rowid (map WrongNoteRow.note_id rows))
                               word_id latest_exam_id 1 now]
  end.
Proof.
  intros Hc Hff.
  destruct w as [t c0 fs clk tk rg]. simpl in Hc, Hff. subst c0.
  assert (Hfs : fs = [] \/ fs = [false] \/ exists fs', fs = false :: false :: fs').
  { unfold fault_free in Hff. destruct fs as [|[|] [|[|] fs']]; simpl in Hff;
      try discriminate; eauto. }
  unfold ExamModel._update_wrong_note, now_str, now,
    DBConnection.fetchone, DBConnection.execute, DBConnection.next_fault,
    ExamModel.sql_select_note, ExamModel.sql_bump_note,
    BaseModel.sql_update, BaseModel.sql_insert, bind, ret.
  cbn [db faults clock ticks _conn rng set_ticks DBConnection.rows].
  destruct Hfs as [-> | [-> | [fs' ->]]];
    cbn [db faults clock ticks _conn rng set_ticks set_faults DBConnection.rows];
    (destruct (filter (fun n => WrongNoteRow.word_id n =? word_id) (wrong_note t))
       as [|n0 rest] eqn:Hfil;
     cbn [map hd_error db faults clock ticks _conn rng set_ticks set_faults];
     reflexivity).
Qed.

Lemma NoDup_map_In_eq {A : Type} (key : A -> Z) (l : list A) (a b : A) :
  NoDup (map key l) -> In a l -> In b l -> key a = key b -> a = b.
Proof.
  induction l as [|x l IH]; simpl; intros Hnd Ha Hb Hk; [tauto|].
  inversion Hnd as [|? ? Hx Hl]; subst.
  destruct Ha as [<-|Ha], Hb as [<-|Hb]; auto.
  - exfalso. apply Hx. rewrite Hk. now apply in_map.
  - exfalso. apply Hx. rewrite <- Hk. now apply in_map.
Qed.

Lemma filter_nil_none {A : Type} (p : A -> bool) (l : list A) :
  filter p l = [] -> forall x, In x l -> p x = false.
Proof.
  intros Hf x Hx. destruct (p x) eqn:E; auto.
  assert (Hin : In x (filter p l)) by (apply filter_In; auto).
  rewrite Hf in Hin. destruct Hin.
Qed.

(** C6: on a ledger with at most one entry per word (and distinct
    note_ids), recordMiss for a word that has an entry raises its wrongCount
    by exactly 1 and overwrites latestExamId and lastWrongDate, and for a
    word that has none appends an entry with wrongCount 1; the entries of
    other words stay as they are, and the ledger still has at most one entry
    per word. *)
Theorem record_miss_upsert (word_id latest_exam_id : Z) (w : World)
        (c : Connection) :
  _conn w = Some c ->
  fault_free 2 (faults w) ->
  NoDup (map WrongNoteRow.word_id (wrong_note (db w))) ->
  NoDup (map WrongNoteRow.note_id (wrong_note (db w))) ->
  let now := datetime.strftime_full (clock w (ticks w)) in
  let before := wrong_note (db w) in
  let after :=
    wrong_note (db (snd (ExamModel._update_wrong_note word_id latest_exam_id w))) in
  NoDup (map WrongNoteRow.word_id after)
  /\ (forall e, In e before -> WrongNoteRow.word_id e = word_id ->
        In (WrongNoteRow.mk (WrongNoteRow.note_id e) word_id latest_exam_id
                            (WrongNoteRow.wrong_count e + 1) now) after
        /\ List.length after = List.length before)
  /\ ((forall e, In e before -> WrongNoteRow.word_id e <> word_id) ->
        exists note_id,
          after = before ++ [WrongNoteRow.mk note_id word_id latest_exam_id 1 now])
  /\ (forall e, WrongNoteRow.word_id e <> word_id -> (In e after <-> In e before)).
Proof.
  intros Hc Hff Hw Hn now before after. subst after.
  rewrite (update_wrong_note_rows _ _ _ c Hc Hff). cbv zeta.
  fold now. fold before.
  destruct (filter (fun n => WrongNoteRow.word_id n =? word_id) before)
    as [|n0 rest] eqn:Hfil.
  - pose proof (filter_nil_none _ _ Hfil) as Hnone.
    assert (Hfresh : ~ In word_id (map WrongNoteRow.word_id before)).
    { rewrite in_map_iff. intros (e & He & Hin).
      apply Hnone in Hin. apply Z.eqb_neq in Hin. auto. }
    split; [|split; [|split]].
    + rewrite map_app. simpl.
      apply NoDup_app_remove_l with (l := []). simpl.
      apply Permutation_NoDup with (l := word_id :: map WrongNoteRow.word_id before).
      * apply Permutation_cons_append.
      * now constructor.
    + intros e He Hk. exfalso. apply Hfresh. rewrite <- Hk. now apply in_map.
    + intros _. eexists. reflexivity.
    + intros e He. rewrite in_app_iff. simpl. split; [|auto].
      intros [H|[H|[]]]; auto. subst e. simpl in He. congruence.
  - destruct (filter_head_holds _ _ _ _ Hfil) as [Hin0 Hk0].
    apply Z.eqb_eq in Hk0.
    set (bump := fun n =>
           if WrongNoteRow.note_id n =? WrongNoteRow.note_id n0
           then WrongNoteRow.mk (WrongNoteRow.note_id n) (WrongNoteRow.word_id n)
                                latest_exam_id (WrongNoteRow.wrong_count n + 1) now
           else n).
    assert (Hkey : forall n, WrongNoteRow.word_id (bump n) = WrongNoteRow.word_id n).
    { intros n. unfold bump. destruct (_ =? _); reflexivity. }
    split; [|split; [|split]].
    + rewrite map_map. rewrite (map_ext _ WrongNoteRow.word_id) by exact Hkey.
      exact Hw.
    + intros e He Hk.
      assert (e = n0) by (apply (NoDup_map_In_eq WrongNoteRow.word_id before);
                          auto; congruence).
      subst e. split; [|apply length_map].
      apply in_map_iff. exists n0. split; [|exact Hin0].
      unfold bump. rewrite Z.eqb_refl. now rewrite Hk.
    + intros Hnone. exfalso. now apply (Hnone n0).
    + intros e He. rewrite in_map_iff. split.
      * intros (x & Hx & Hin). unfold bump in Hx.
        destruct (Z.eqb_spec (WrongNoteRow.note_id x) (WrongNoteRow.note_id n0)) as [Hid|Hid].
        -- assert (x = n0) by (apply (NoDup_map_In_eq WrongNoteRow.note_id before); auto).
           subst x e. simpl in He. congruence.
        -- now subst.
      * intros Hin. exists e. split; [|exact Hin].
        unfold bump.
        destruct (Z.eqb_spec (WrongNoteRow.note_id e) (WrongNoteRow.note_id n0)) as [Hid|Hid];
          [|reflexivity].
        assert (e = n0) by (apply (NoDup_map_In_eq WrongNoteRow.note_id before); auto).
        subst e. congruence.
Qed.

(** Inside the exam transaction, a sixth miss of pear in exam 7. *)
Lemma record_miss_witness :
  In (WrongNoteRow.mk 2 2 7 6 "2025-10-20 14:30:05")
     (wrong_note (db (snd (ExamModel._update_wrong_note 2 7
                             (in_transaction wrong_notes []))))).
Proof.
  destruct (record_miss_upsert 2 7 (in_transaction wrong_notes [])
              (mkConnection (Some wrong_notes) false)) as (_ & Hbump & _).
  - reflexivity.
  - reflexivity.
  - repeat constructor; simpl; intuition discriminate.
  - repeat constructor; simpl; intuition discriminate.
  - destruct (Hbump (WrongNoteRow.mk 2 2 5 5 "2025-10-15 10:00:00")) as [Hin _].
    + simpl. auto.
    + reflexivity.
    + exact Hin.
Defined.

(* ================================================================== *)
(** * Exam Engine: gradeAndRecord *)
(* ================================================================== *)

(** C4: an empty submission is turned away before anything is touched: the
    result is None and the world is the one it was, so no row is added to
    exam_history, exam_questions or wrong_note. *)
Theorem submit_empty_is_rejected (exam_type : string) (duration_sec : Z) (w : World) :
  let out := ExamController.submit_and_record_exam exam_type duration_sec [] w in
  fst out = None
  /\ snd out = w
  /\ exam_history (persisted (snd out)) = exam_history (persisted w)
  /\ exam_questions (persisted (snd out)) = exam_questions (persisted w)
  /\ wrong_note (persisted (snd out)) = wrong_note (persisted w).
Proof.
  unfold ExamController.submit_and_record_exam, ret. cbn [fst snd]. auto.
Qed.

Lemma grade_counts_from (qs : list Question) (c0 w0 : Z) :
  fold_left (fun '(correct_count, wrong_count) q =>
               if q_is_correct q =? 1 then (correct_count + 1, wrong_count)
               else (correct_count, wrong_count + 1))
            qs (c0, w0)
  = (c0 + count_correct qs, w0 + count_wrong qs).
Proof.
  unfold count_correct, count_wrong.
  revert c0 w0. induction qs as [|q qs IH]; intros c0 w0; simpl.
  - f_equal; lia.
  - destruct (q_is_correct q =? 1); simpl; rewrite IH; f_equal; lia.
Qed.

Lemma grade_counts (qs : list Question) :
  ExamController.grade qs = (count_correct qs, count_wrong qs).
Proof. unfold ExamController.grade. now rewrite grade_counts_from. Qed.

Lemma counts_add_up (qs : list Question) :
  count_correct qs + count_wrong qs = Z.of_nat (List.length qs).
Proof.
  unfold count_correct, count_wrong.
  induction qs as [|q qs IH]; [reflexivity|].
  cbn [filter]. destruct (q_is_correct q =? 1);
    cbn [negb List.length]; rewrite !Nat2Z.inj_succ; lia.
Qed.

Lemma count_wrong_zero_flags (qs : list Question) :
  Forall (fun q => q_is_correct q = 0 \/ q_is_correct q = 1) qs ->
  count_wrong qs = Z.of_nat (List.length (filter (fun q => q_is_correct q =? 0) qs)).
Proof.
  unfold count_wrong. intros Hflags. do 2 f_equal.
  apply filter_ext_in. intros q Hq.
  rewrite Forall_forall in Hflags.
  destruct (Hflags q Hq) as [-> | ->]; reflexivity.
Qed.

(** C5: the summary of a non-empty submission that was recorded carries the
    counts of the correctness flags (a flag of 1 is a correct answer, any
    other a wrong one; with flags 0 and 1 only, the wrong ones are the 0s),
    the number of questions, and as score
    round(correctCount / totalQuestions * 100, 1). *)
Theorem grade_and_record_summary
        (exam_type : string) (duration_sec : Z) (questions : list Question)
        (w w' : World) (summary : ExamController.Summary) :
  questions <> [] ->
  ExamController.submit_and_record_exam exam_type duration_sec questions w
  = (Some summary, w') ->
  ExamController.score summary
  = spec_score (count_correct questions) (Z.of_nat (List.length questions))
  /\ ExamController.correct_count summary = count_correct questions
  /\ ExamController.wrong_count summary = count_wrong questions
  /\ ExamController.total_questions summary = Z.of_nat (List.length questions)
  /\ ExamController.correct_count summary + ExamController.wrong_count summary
     = ExamController.total_questions summary
  /\ (Forall (fun q => q_is_correct q = 0 \/ q_is_correct q = 1) questions ->
      ExamController.wrong_count summary
      = Z.of_nat (List.length (filter (fun q => q_is_correct q =? 0) questions))).
Proof.
  intros Hne Hrun.
  destruct questions as [|q qs]; [congruence|].
  unfold ExamController.submit_and_record_exam in Hrun.
  rewrite grade_counts in Hrun. unfold bind, ret in Hrun.
  destruct (ExamModel.record_exam_result _ _ _ _ _ w) as [[id|] w1];
    inversion Hrun; subst; clear Hrun.
  cbn [ExamController.score ExamController.correct_count
       ExamController.wrong_count ExamController.total_questions].
  split; [|split; [reflexivity|split; [reflexivity|split;
    [reflexivity|split; [apply counts_add_up|apply count_wrong_zero_flags]]]]].
  unfold ExamController.compute_score, spec_score.
  replace (0 <? Z.of_nat (List.length (q :: qs))) with true; [reflexivity|].
  symmetry. apply Z.ltb_lt. simpl List.length. lia.
Qed.

(** Ten questions, seven correct: the score is exactly 70.0. *)
Lemma grade_and_record_witness :
  exists summary w',
    ExamController.submit_and_record_exam "short_answer" 95 ten_answers
                                          (world_at two_words [])
    = (Some summary, w')
    /\ ExamController.score summary = 70%float
    /\ ExamController.correct_count summary = 7
    /\ ExamController.wrong_count summary = 3
    /\ ExamController.total_questions summary = 10.
Proof.
  destruct (ExamController.submit_and_record_exam "short_answer" 95 ten_answers
              (world_at two_words [])) as [[summary|] w'] eqn:Hrun;
    [|vm_compute in Hrun; discriminate].
  exists summary, w'. split; [reflexivity|].
  destruct (grade_and_record_summary "short_answer" 95 ten_answers
              (world_at two_words []) w' summary) as (Hs & Hc & Hw & Ht & _ & _).
  - discriminate.
  - exact Hrun.
  - rewrite Hs, Hc, Hw, Ht. repeat split.
Defined.

(** Ties go to the even decimal: 1 of 16 is 6.25 and scores 6.2 (the double
    nearest 62/10); 1 of 3 scores 33.3. *)
Example score_samples :
  ExamController.compute_score 7 10 = 70%float
  /\ ExamController.compute_score 1 16
     = PrimFloat.div (PyFloat.of_int 62) (PyFloat.of_int 10)
  /\ ExamController.compute_score 1 3
     = PrimFloat.div (PyFloat.of_int 333) (PyFloat.of_int 10)
  /\ ExamController.compute_score 0 1 = 0%float
  /\ ExamController.compute_score 5 5 = 100%float.
Proof. vm_compute. repeat split. Qed.

(* ================================================================== *)
(** * Exam Engine: the recording transaction *)
(* ================================================================== *)

(** When every statement is accepted the exam, its question and the
    wrong-note entry are all there after the commit. *)
Example record_exam_result_commits :
  let out := ExamModel.record_exam_result "short_answer" 1 0%float 12
               [plain_question apple "bae" 0] (world_at one_word []) in
  fst out = Some 1
  /\ map ExamHistoryRow.exam_id (exam_history (persisted (snd out))) = [1]
  /\ map ExamQuestionRow.exam_id (exam_questions (persisted (snd out))) = [1]
  /\ map WrongNoteRow.wrong_count (wrong_note (persisted (snd out))) = [1].
Proof. vm_compute. repeat split. Qed.

(** When the exam row itself is rejected, None comes back and nothing is
    written. *)
Example record_exam_result_history_fault :
  let out := ExamModel.record_exam_result "short_answer" 1 0%float 12
               [plain_question apple "bae" 0] (world_at one_word [false; true]) in
  fst out = None /\ persisted (snd out) = one_word.
Proof. vm_compute. repeat split. Qed.

(** C3 does not hold of the code.  execute swallows the error of a rejected
    question INSERT after rolling the connection back, and the loop goes on
    outside any transaction.  With the dictionary the exam view sends (its
    keys word_text and question_type are no columns of exam_questions) the
    exam row is rolled back, the wrong-note entry is written and stays, and
    the exam id is returned as if the exam had been recorded.  The same
    happens when the storage layer rejects the second question of two. *)
Theorem record_exam_result_leaves_partial_rows :
  (let out := ExamModel.record_exam_result "short_answer" 1 0%float 12
                [view_question apple "bae" 0] (world_at one_word []) in
   fst out = Some 1
   /\ exam_history (persisted (snd out)) = []
   /\ exam_questions (persisted (snd out)) = []
   /\ wrong_note (persisted (snd out))
      = [WrongNoteRow.mk 1 1 1 1 "2025-10-20 14:30:05"])
  /\
  (let out := ExamModel.record_exam_result "short_answer" 2 0%float 12
                [plain_question apple "bae" 0; plain_question pear "gam" 0]
                (world_at two_words [false; false; false; false; false; true]) in
   fst out = Some 1
   /\ exam_history (persisted (snd out)) = []
   /\ exam_questions (persisted (snd out)) = []
   /\ map WrongNoteRow.word_id (wrong_note (persisted (snd out))) = [2]).
Proof. vm_compute. repeat split. Qed.

(** The same submission through the controller: the caller is handed a
    summary for an exam that is not in exam_history. *)
Example submit_reports_success_without_exam :
  let out := ExamController.submit_and_record_exam "short_answer" 12
               [view_question apple "bae" 0] (world_at one_word []) in
  option_map ExamController.exam_id (fst out) = Some 1
  /\ exam_history (persisted (snd out)) = [].
Proof. vm_compute. repeat split. Qed.

(* ================================================================== *)
(** * Exam Engine: selectExamWords *)
(* ================================================================== *)

(** C10: in wrong_note mode the category takes no part: the words are the
    ranked wrong-note list cut at the count, and two calls that differ in the
    category alone return the same list and leave the same world. *)
Theorem wrong_note_mode_ignores_category
        (question_count : Z) (category1 category2 : option string) (w : World) :
  ExamController.generate_exam_words question_count "wrong_note" category1 w
  = ExamController.generate_exam_words question_count "wrong_note" category2 w
  /\ fst (ExamController.generate_exam_words question_count "wrong_note" category1 w)
     = map ExamController.FromWrongNote
           (fst (ExamModel.select_wrong_words_for_review (Some question_count) w)).
Proof.
  split; [reflexivity|].
  unfold ExamController.generate_exam_words.
  rewrite String.eqb_refl. unfold bind, ret.
  destruct (ExamModel.select_wrong_words_for_review (Some question_count) w).
  reflexivity.
Qed.

(** In the other modes the category does filter: with it only the fruit
    are candidates. *)
Example random_mode_filters_by_category :
  List.length (fst (ExamController.generate_exam_words 5 "random" (Some "fruit")
                      (world_at mixed_words []))) = 2%nat
  /\ List.length (fst (ExamController.generate_exam_words 5 "random" None
                         (world_at mixed_words []))) = 3%nat
  /\ List.length (fst (ExamController.generate_exam_words 5 "wrong_note" (Some "fruit")
                         (world_at mixed_words []))) = 2%nat.
Proof. vm_compute. repeat split. Qed.

(* ================================================================== *)
(** * Further properties: queries on any connection *)
(* ================================================================== *)

(** What select_all returns, whatever the state of the connection. *)
Lemma select_all_rows {Row : Type} `{BaseModel.Model Row}
      (where_clause : list Row -> list Row) (w : World) :
  fst (BaseModel.select_all where_clause w) =
  if hd false (faults w) then [] else where_clause (BaseModel.table (db w)).
Proof.
  unfold BaseModel.select_all, DBConnection.fetchall, DBConnection.connect,
    DBConnection.execute, DBConnection.next_fault, DBConnection.close, bind, ret.
  destruct w as [t [[[t0|] l]|] [|[|] fs] clk tk rg]; reflexivity.
Qed.

(* ================================================================== *)
(** * Further properties: random.shuffle *)
(* ================================================================== *)

Lemma nth_error_cut {A : Type} (l : list A) (n : nat) (a : A) :
  nth_error l n = Some a -> l = firstn n l ++ a :: skipn (S n) l.
Proof.
  revert n. induction l as [|x l IH]; intros [|n] Hn; simpl in *;
    try discriminate.
  - now inversion Hn.
  - f_equal. now apply IH.
Qed.

Lemma nth_error_put {A : Type} (l : list A) (i j : nat) (a b : A) :
  nth_error l i = Some a ->
  nth_error (firstn i l ++ b :: skipn (S i) l) j =
  if Nat.eqb j i then Some b else nth_error l j.
Proof.
  revert i j. induction l as [|x l IH]; intros [|i] [|j] Hi; simpl in *;
    try discriminate; auto.
Qed.

Lemma put_perm {A : Type} (l : list A) (i : nat) (a b : A) :
  nth_error l i = Some a ->
  Permutation (a :: firstn i l ++ b :: skipn (S i) l) (b :: l).
Proof.
  intros Hi. rewrite (nth_error_cut l i a Hi) at 3.
  rewrite <- !Permutation_middle. apply perm_swap.
Qed.

Lemma swap_perm {A : Type} (l : list A) (i j : nat) : Permutation (swap l i j) l.
Proof.
  unfold swap.
  destruct (nth_error l i) as [a|] eqn:Hi; [|reflexivity].
  destruct (nth_error l j) as [b|] eqn:Hj; [|reflexivity].
  set (l1 := firstn i l ++ b :: skipn (S i) l).
  assert (Hj1 : nth_error l1 j = Some b).
  { unfold l1. rewrite (nth_error_put l i j a b Hi).
    destruct (Nat.eqb j i); auto. }
  apply (Permutation_cons_inv (a := b)).
  rewrite (put_perm l1 j b a Hj1).
  unfold l1. apply Permutation_sym. rewrite <- (put_perm l i a b Hi) at 1.
  reflexivity.
Qed.

Lemma shuffle_from_perm {A : Type} (i : nat) (l : list A) (w : World) :
  Permutation (fst (shuffle_from i l w)) l.
Proof.
  revert l w. induction i as [|i IH]; intros l w; simpl.
  - reflexivity.
  - unfold bind. destruct (randbelow (S (S i)) w) as [j w1].
    rewrite IH. apply swap_perm.
Qed.

(** The generator decides the order, never the contents. *)
Lemma shuffle_perm {A : Type} (l : list A) (w : World) :
  Permutation (fst (shuffle l w)) l.
Proof. apply shuffle_from_perm. Qed.

(* ================================================================== *)
(** * Further properties: selectExamWords in random mode *)
(* ================================================================== *)

Lemma candidate_words_pool (category : option string) (w : World) :
  let pool := fst (ExamController._get_candidate_words category w) in
  if hd false (faults w) then pool = []
  else Permutation pool (filter (in_pool category) (words (db w))).
Proof.
  unfold ExamController._get_candidate_words, ExamController.truthy,
    WordModel.select_by_category, WordModel.select_active_words, in_pool.
  destruct category as [c|]; [destruct (String.eqb c "") eqn:Ec|]; cbn [negb];
    rewrite select_all_rows; cbn [BaseModel.table WordModel.model];
    destruct (hd false (faults w)); try reflexivity;
    rewrite order_by_perm;
    (replace (filter (fun r => (WordRow.is_deleted r =? 0) && true) (words (db w)))
       with (filter (fun r => WordRow.is_deleted r =? 0) (words (db w)));
     [reflexivity | apply filter_ext; intros r; now rewrite andb_true_r]).
Qed.

Lemma selection_keeps_keys_distinct {Row : Type} (key : Row -> Z)
      (keep : Row -> bool) (rows : list Row) :
  NoDup (map key rows) -> NoDup (map key (filter keep rows)).
Proof.
  intros Hkeys. induction rows as [|r rows IHrows]; cbn [filter map] in *;
    [constructor|].
  inversion Hkeys as [|? ? Hr Hrows]; subst.
  destruct (keep r); cbn [map]; auto. constructor; auto.
  intros Hin. apply Hr. rewrite in_map_iff in *.
  destruct Hin as (y & Hy & Hiny). exists y. split; auto.
  now apply filter_In in Hiny.
Qed.

Lemma NoDup_firstn {A : Type} (n : nat) (l : list A) :
  NoDup l -> NoDup (firstn n l).
Proof.
  revert n. induction l as [|x l IH]; intros [|n] Hnd; simpl; try constructor.
  - inversion Hnd; subst. intros Hin. apply In_firstn in Hin. contradiction.
  - inversion Hnd; subst. auto.
Qed.

Lemma slice_to_nonneg {A : Type} (n : Z) (l : list A) :
  0 <= n -> ExamController.slice_to n l = firstn (Z.to_nat n) l.
Proof.
  intros Hn. unfold ExamController.slice_to.
  destruct (n <? 0) eqn:E; [apply Z.ltb_lt in E; lia | reflexivity].
Qed.

(** X1: In random mode (any mode but wrong_note) and for a count N >= 0, the
    exam has at most N words; each is a word that is not soft-deleted, of the
    category when one is given; no word comes twice when word ids are
    distinct; and when the lookup is accepted the exam has exactly
    min(N, size of the pool) words: a pool smaller than N is used whole. *)
Theorem exam_words_random_mode
        (question_count : Z) (mode : string) (category : option string)
        (w : World) :
  mode <> "wrong_note" ->
  0 <= question_count ->
  let out := fst (ExamController.generate_exam_words question_count mode category w) in
  let pool := filter (in_pool category) (words (db w)) in
  Z.of_nat (List.length out) <= question_count
  /\ (forall e, In e out ->
        exists r, e = ExamController.FromWords r /\ In r pool)
  /\ (NoDup (map WordRow.word_id (words (db w))) -> NoDup (map exam_word_id out))
  /\ (hd false (faults w) = false ->
      Z.of_nat (List.length out)
      = Z.min question_count (Z.of_nat (List.length pool))).
Proof.
  intros Hmode Hcount out pool. subst out.
  unfold ExamController.generate_exam_words.
  apply String.eqb_neq in Hmode. rewrite Hmode. unfold bind, ret.
  pose proof (candidate_words_pool category w) as Hpool. cbv zeta in Hpool.
  destruct (ExamController._get_candidate_words category w) as [cands w1].
  cbn [fst] in Hpool.
  pose proof (shuffle_perm cands w1) as Hsh.
  destruct (shuffle cands w1) as [sh w2]. cbn [fst] in *.
  set (n := if Z.of_nat (List.length cands) <? question_count
            then Z.of_nat (List.length cands) else question_count).
  assert (Hn : 0 <= n <= question_count
               /\ n = Z.min question_count (Z.of_nat (List.length cands))).
  { unfold n. destruct (Z.ltb_spec (Z.of_nat (List.length cands)) question_count); lia. }
  rewrite slice_to_nonneg by lia. rewrite length_map, length_firstn.
  assert (Hlen : List.length sh = List.length cands) by now apply Permutation_length.
  assert (Hin : forall r, In r (firstn (Z.to_nat n) sh) -> In r pool).
  { intros r Hr. apply In_firstn in Hr. apply (Permutation_in _ Hsh) in Hr.
    destruct (hd false (faults w)); [subst cands; destruct Hr|].
    now apply (Permutation_in _ Hpool). }
  split; [lia|]. split; [|split].
  - intros e He. apply in_map_iff in He. destruct He as (r & <- & Hr). eauto.
  - intros Hnd. rewrite map_map. cbn [exam_word_id].
    rewrite <- firstn_map. apply NoDup_firstn.
    apply (Permutation_NoDup (l := map WordRow.word_id cands));
      [apply Permutation_map, Permutation_sym, Hsh|].
    destruct (hd false (faults w)); [subst cands; constructor|].
    apply (Permutation_NoDup (l := map WordRow.word_id pool));
      [apply Permutation_map, Permutation_sym, Hpool|].
    now apply selection_keeps_keys_distinct.
  - intros Hacc. rewrite Hacc in Hpool.
    apply Permutation_length in Hpool. fold pool in Hpool. lia.
Qed.

(** Two fruit are in the pool; asked for five, the exam has both. *)
Lemma exam_words_random_mode_witness :
  Z.of_nat (List.length
              (fst (ExamController.generate_exam_words 5 "random" (Some "fruit")
                      (world_at mixed_words [])))) = 2.
Proof.
  destruct (exam_words_random_mode 5 "random" (Some "fruit")
              (world_at mixed_words [])) as (_ & _ & _ & Hlen).
  - discriminate.
  - lia.
  - rewrite Hlen; reflexivity.
Defined.

(* ================================================================== *)
(** * Further properties: the words of a flashcard session *)
(* ================================================================== *)

Lemma in_pool_active (category : option string) (r : WordRow.t) :
  in_pool category r = true -> WordRow.is_deleted r = 0.
Proof.
  unfold in_pool. rewrite andb_true_iff, Z.eqb_eq. tauto.
Qed.

(** X2: In every mode and for a count N >= 0, a session has at most N words and
    each of them is a word of the store that is not soft-deleted. *)
Theorem session_words_bounded_and_active
        (mode : string) (word_count : Z) (category : option string) (w : World) :
  0 <= word_count ->
  let out :=
    fst (LearningController.get_words_for_session mode word_count category w) in
  Z.of_nat (List.length out) <= word_count
  /\ forall e, In e out ->
       exists W, In W (words (db w)) /\ WordRow.is_deleted W = 0
                 /\ WordRow.word_id W = session_word_id e.
Proof.
  intros Hcount out. subst out.
  unfold LearningController.get_words_for_session, bind, ret.
  assert (Hcut : forall (all : list LearningController.SessionWord) (w' : World),
    (forall e, In e all ->
       exists W, In W (words (db w)) /\ WordRow.is_deleted W = 0
                 /\ WordRow.word_id W = session_word_id e) ->
    let out := fst (let final_list :=
                      if word_count <? Z.of_nat (List.length all)
                      then ExamController.slice_to word_count all else all in
                    (final_list, w')) in
    Z.of_nat (List.length out) <= word_count
    /\ forall e, In e out ->
         exists W, In W (words (db w)) /\ WordRow.is_deleted W = 0
                   /\ WordRow.word_id W = session_word_id e).
  { intros all w' Hall. cbn [fst]. rewrite slice_to_nonneg by exact Hcount.
    destruct (Z.ltb_spec word_count (Z.of_nat (List.length all))).
    - split; [rewrite length_firstn; lia|].
      intros e He. apply Hall. now apply In_firstn in He.
    - split; [lia | exact Hall]. }
  destruct (String.eqb mode "review_srs").
  - pose proof (select_review_words_rows word_count w) as Hrows. cbv zeta in Hrows.
    destruct (StatisticsModel.select_review_words word_count w) as [l w1].
    cbn [fst] in Hrows. apply Hcut.
    intros e He. apply in_map_iff in He. destruct He as (r & <- & Hr).
    rewrite Hrows in Hr. destruct (hd false (faults w)); [destruct Hr|].
    apply sql_limit_In, order_by_In, due_rows_In in Hr.
    destruct Hr as (W & S & HW & _ & Hdel & Hid & _). exists W. auto.
  - destruct (String.eqb mode "wrong_note").
    + pose proof (select_wrong_words_rows (Some word_count) w) as Hrows.
      destruct (ExamModel.select_wrong_words_for_review (Some word_count) w) as [l w1].
      cbn [fst] in Hrows. apply Hcut.
      intros e He. apply in_map_iff in He. destruct He as (r & <- & Hr).
      rewrite Hrows in Hr. destruct (hd false (faults w)); [destruct Hr|].
      apply sql_limit_In, order_by_In, wrong_rows_In in Hr.
      destruct Hr as (W & N & HW & _ & Hdel & _ & ->). exists W. auto.
    + pose proof (candidate_words_pool category w) as Hpool. cbv zeta in Hpool.
      destruct (ExamController._get_candidate_words category w) as [cands w1].
      cbn [fst] in Hpool.
      assert (Hc : forall r, In r cands ->
                 In r (words (db w)) /\ WordRow.is_deleted r = 0).
      { intros r Hr. destruct (hd false (faults w)); [subst cands; destruct Hr|].
        apply (Permutation_in _ Hpool), filter_In in Hr.
        split; [tauto | eapply in_pool_active; apply Hr]. }
      destruct (String.eqb mode "random").
      * pose proof (shuffle_perm cands w1) as Hsh.
        destruct (shuffle cands w1) as [sh w2]. cbn [fst] in Hsh. apply Hcut.
        intros e He. apply in_map_iff in He. destruct He as (r & <- & Hr).
        apply (Permutation_in _ Hsh), Hc in Hr. exists r. tauto.
      * apply Hcut.
        intros e He. apply in_map_iff in He. destruct He as (r & <- & Hr).
        apply Hc in Hr. exists r. tauto.
Qed.

(** Asked for one word due for review: pear, the longest overdue. *)
Lemma session_words_witness :
  Z.of_nat (List.length
              (fst (LearningController.get_words_for_session "review_srs" 1 None
                      (world_at review_queue [])))) <= 1.
Proof.
  destruct (session_words_bounded_and_active "review_srs" 1 None
              (world_at review_queue [])) as (Hlen & _).
  - lia.
  - exact Hlen.
Defined.

(* ================================================================== *)
(** * Further properties: soft delete *)
(* ================================================================== *)

(** delete_word on an idle connection: one clock reading, one statement. *)
Lemma delete_word_idle (word_id : Z) (w : World) :
  idle w ->
  WordController.delete_word word_id w =
  let now := datetime.strftime_full (clock w (ticks w)) in
  let hits := filter (fun r => WordRow.word_id r =? word_id) (words (db w)) in
  if negb (hd false (faults w)) && (0 <? Z.of_nat (List.length hits))
  then (true,
        after 1 1
          (set_db (BaseModel.set_table
                     (map (mark_deleted now word_id) (words (db w))) (db w)) w))
  else (false, after 1 1 w).
Proof.
  intros Hi.
  unfold WordController.delete_word, BaseModel.delete, BaseModel.run_delete,
    BaseModel.sql_logical_delete, now_str, now, DBConnection.connect,
    DBConnection.execute, DBConnection.next_fault, DBConnection.commit,
    DBConnection.close, after, bind, ret.
  destruct w as [t c fs clk tk rg]. unfold idle in Hi. simpl in Hi. subst c.
  destruct fs as [|[|] fs]; simpl; try reflexivity;
    destruct (0 <? _); reflexivity.
Qed.

(** X3: delete_word marks the word deleted and nothing else: it succeeds exactly
    when the statement is accepted and the word exists (a missing id is a
    no-op that returns False); after a success the word is returned by none
    of the active-word, due-word and wrong-note selections, while its mastery
    record and its wrong-note entry stay in place. *)
Theorem delete_word_hides_the_word (word_id : Z) (w : World) :
  idle w ->
  let '(ok, w') := WordController.delete_word word_id w in
  (ok = true <->
     hd false (faults w) = false
     /\ exists r, In r (words (db w)) /\ WordRow.word_id r = word_id)
  /\ (ok = false -> db w' = db w)
  /\ (ok = true ->
      word_statistics (db w') = word_statistics (db w)
      /\ wrong_note (db w') = wrong_note (db w)
      /\ List.length (words (db w')) = List.length (words (db w))
      /\ (forall r, WordRow.word_id r <> word_id ->
            (In r (words (db w')) <-> In r (words (db w))))
      /\ (forall r, In r (fst (WordModel.select_active_words w')) ->
            WordRow.word_id r <> word_id)
      /\ (forall n r, In r (fst (StatisticsModel.select_review_words n w')) ->
            StatisticsModel.word_id r <> word_id)
      /\ (forall l r, In r (fst (ExamModel.select_wrong_words_for_review l w')) ->
            ExamModel.word_id r <> word_id)).
Proof.
  intros Hi. rewrite delete_word_idle by exact Hi. cbv zeta.
  set (now := datetime.strftime_full (clock w (ticks w))).
  set (hits := filter (fun r => WordRow.word_id r =? word_id) (words (db w))).
  assert (Hhits : 0 < Z.of_nat (List.length hits) <->
                  exists r, In r (words (db w)) /\ WordRow.word_id r = word_id).
  { split.
    - destruct hits as [|r rest] eqn:E; [simpl; lia|]. intros _.
      destruct (filter_head_holds _ _ _ _ E) as [Hin Hk].
      apply Z.eqb_eq in Hk. eauto.
    - intros (r & Hin & Hk). apply (In_length_pos r). apply filter_In.
      split; [exact Hin | now apply Z.eqb_eq]. }
  destruct (hd false (faults w)); cbn [negb andb].
  - split; [|split]; try discriminate; [|reflexivity].
    split; [discriminate | intros [H _]; discriminate].
  - destruct (Z.ltb_spec 0 (Z.of_nat (List.length hits))) as [Hpos|Hnone].
    + split; [|split]; [split; auto; intros _; split; auto; now apply Hhits
                       | discriminate |].
      intros _.
      assert (Hdb : words (db (after 1 1 (set_db
                 (BaseModel.set_table (map (mark_deleted now word_id) (words (db w)))
                    (db w)) w)))
                    = map (mark_deleted now word_id) (words (db w)))
        by (destruct w; reflexivity).
      assert (Hgone : forall r, In r (map (mark_deleted now word_id) (words (db w))) ->
                WordRow.is_deleted r = 0 -> WordRow.word_id r <> word_id).
      { intros r Hr Hdel Hk. apply in_map_iff in Hr. destruct Hr as (x & <- & _).
        unfold mark_deleted in *.
        destruct (Z.eqb_spec (WordRow.word_id x) word_id); simpl in *; congruence. }
      split; [destruct w; reflexivity|]. split; [destruct w; reflexivity|].
      split; [rewrite Hdb; apply length_map|].
      split; [|split; [|split]].
      * intros r Hk. rewrite Hdb, in_map_iff. split.
        -- intros (x & Hx & Hin). unfold mark_deleted in Hx.
           destruct (Z.eqb_spec (WordRow.word_id x) word_id);
             [subst r; simpl in Hk; congruence | now subst].
        -- intros Hin. exists r. split; [|exact Hin]. unfold mark_deleted.
           destruct (Z.eqb_spec (WordRow.word_id r) word_id); congruence.
      * intros r Hr. unfold WordModel.select_active_words in Hr.
        rewrite select_all_rows in Hr. cbn [BaseModel.table WordModel.model] in Hr.
        destruct (hd false _); [destruct Hr|].
        apply order_by_In, filter_In in Hr. destruct Hr as [Hr Hdel].
        rewrite Hdb in Hr. apply Z.eqb_eq in Hdel. now apply Hgone.
      * intros n r Hr. rewrite select_review_words_rows in Hr.
        destruct (hd false _); [destruct Hr|].
        apply sql_limit_In, order_by_In, due_rows_In in Hr.
        destruct Hr as (W & S & HW & _ & Hdel & Hid & _).
        rewrite Hdb in HW. rewrite <- Hid. now apply Hgone.
      * intros l r Hr. rewrite select_wrong_words_rows in Hr.
        destruct (hd false _); [destruct Hr|].
        assert (Hr' : In r (ExamModel.wrong_rows (db (after 1 1 (set_db
                 (BaseModel.set_table (map (mark_deleted now word_id) (words (db w)))
                    (db w)) w))))).
        { destruct l; [apply sql_limit_In in Hr|]; now apply order_by_In in Hr. }
        apply wrong_rows_In in Hr'.
        destruct Hr' as (W & N & HW & _ & Hdel & _ & ->).
        rewrite Hdb in HW. simpl. now apply Hgone.
    + split; [|split]; try discriminate; [|reflexivity].
      split; [discriminate|]. intros [_ Hex]. apply Hhits in Hex. lia.
Qed.

(** Pear, once deleted, is no longer due for review, though its record is
    kept. *)
Lemma delete_word_witness :
  idle (world_at review_queue [])
  /\ (let '(ok, w') := WordController.delete_word 2 (world_at review_queue []) in
      ok = true
      /\ map StatisticsModel.word_text
             (fst (StatisticsModel.select_review_words 5 w')) = ["apple"]
      /\ List.length (word_statistics (db w')) = 4%nat).
Proof.
  split; [reflexivity|].
  pose proof (delete_word_hides_the_word 2 (world_at review_queue []) eq_refl) as H.
  destruct (WordController.delete_word 2 (world_at review_queue [])) as [ok w'] eqn:E.
  destruct H as (Hok & _ & Hafter).
  assert (ok = true) as -> by (apply Hok; split; [reflexivity|];
    exists pear; split; [simpl; auto | reflexivity]).
  split; [reflexivity|].
  destruct (Hafter eq_refl) as (Hstats & _).
  vm_compute in E. inversion E; subst w'. split; reflexivity.
Defined.

(* ================================================================== *)
(** * Further properties: insert and lookup by primary key *)
(* ================================================================== *)

Lemma fold_max_bounds (l : list Z) (a : Z) :
  a <= fold_left Z.max l a /\ forall x, In x l -> x <= fold_left Z.max l a.
Proof.
  revert a. induction l as [|y l IH]; intros a; simpl.
  - split; [lia | intros x []].
  - destruct (IH (Z.max a y)) as [Ha Hl]. split; [lia|].
    intros x [<-|Hx]; [lia | auto].
Qed.

(** The rowid of a new row is above every rowid in the table. *)
Lemma next_rowid_above (ids : list Z) (i : Z) : In i ids -> i < next_rowid ids.
Proof.
  unfold next_rowid. destruct ids as [|a rest]; [intros []|].
  destruct (fold_max_bounds rest a) as [Ha Hrest].
  intros [<-|Hin]; [lia | specialize (Hrest i Hin); lia].
Qed.

Section InsertLookup.
Context {Row : Type} `{BaseModel.Model Row}.
Hypothesis table_set_table :
  forall l t, BaseModel.table (BaseModel.set_table l t) = l.
Hypothesis pk_set_pk : forall i r, BaseModel.pk (BaseModel.set_pk i r) = i.

Lemma select_by_id_idle (pk_value : Z) (w : World) :
  idle w ->
  BaseModel.select_by_id pk_value w =
  (if hd false (faults w) then None
   else hd_error (filter (fun r => BaseModel.pk r =? pk_value)
                         (BaseModel.table (db w))),
   after 0 1 w).
Proof.
  intros Hi. unfold BaseModel.select_by_id, DBConnection.fetchone,
    DBConnection.connect, DBConnection.execute, DBConnection.next_fault,
    DBConnection.close, after, bind, ret.
  destruct w as [t c fs clk tk rg]. unfold idle in Hi. simpl in Hi. subst c.
  destruct fs as [|[|] fs]; reflexivity.
Qed.

(** X4: insert either fails and leaves the database as it was, or appends
    exactly one row under a key no row had, and returns that key; a lookup of
    the key that the storage layer accepts then returns the row that was
    inserted. *)
Theorem insert_then_select_by_id (data : Row) (w : World) :
  idle w ->
  let '(r, w1) := BaseModel.insert data w in
  idle w1
  /\ match r with
     | None => db w1 = db w
     | Some id =>
         ~ In id (map BaseModel.pk (BaseModel.table (db w)))
         /\ BaseModel.table (db w1)
            = BaseModel.table (db w) ++ [BaseModel.set_pk id data]
         /\ (hd false (faults w1) = false ->
             fst (BaseModel.select_by_id id w1) = Some (BaseModel.set_pk id data))
     end.
Proof.
  intros Hi. rewrite insert_idle by exact Hi. cbv zeta.
  set (id := next_rowid (map BaseModel.pk (BaseModel.table (db w)))).
  assert (Hfresh : ~ In id (map BaseModel.pk (BaseModel.table (db w)))).
  { intros Hin. apply next_rowid_above in Hin. fold id in Hin. lia. }
  destruct (negb _ && _).
  - split; [destruct w; exact Hi|]. split; [exact Hfresh|].
    assert (Htab : BaseModel.table (db (after 1 1 (set_db (BaseModel.set_table
                     (BaseModel.table (db w) ++ [BaseModel.set_pk id data]) (db w)) w)))
                   = BaseModel.table (db w) ++ [BaseModel.set_pk id data])
      by (destruct w; simpl; apply table_set_table).
    split; [exact Htab|]. intros Hacc.
    rewrite select_by_id_idle by (destruct w; exact Hi).
    cbn [fst]. rewrite Hacc, Htab, filter_app.
    replace (filter _ (BaseModel.table (db w))) with (@nil Row).
    + simpl. now rewrite pk_set_pk, Z.eqb_refl.
    + symmetry.
      destruct (filter (fun r => BaseModel.pk r =? id) (BaseModel.table (db w)))
        as [|x rest] eqn:E; [reflexivity|].
      destruct (filter_head_holds _ _ _ _ E) as [Hin Hk].
      apply Z.eqb_eq in Hk. exfalso. apply Hfresh. rewrite <- Hk.
      now apply in_map.
  - split; [destruct w; exact Hi | destruct w; reflexivity].
Qed.
End InsertLookup.

(** A first learning outcome stored for pear is found again under the key
    insert returned. *)
Lemma insert_then_select_by_id_witness :
  idle (world_at apple_mastered [])
  /\ fst (BaseModel.select_by_id 2
            (snd (BaseModel.insert
                    (StatsRow.mk 0 2 1 1 "2025-10-20 14:30:05" "2025-10-23 00:00:00" 1)
                    (world_at apple_mastered []))))
     = Some (StatsRow.mk 2 2 1 1 "2025-10-20 14:30:05" "2025-10-23 00:00:00" 1).
Proof.
  split; [reflexivity|].
  pose proof (@insert_then_select_by_id StatsRow.t StatisticsModel.model
                (fun l t => eq_refl) (fun i r => eq_refl)
                (StatsRow.mk 0 2 1 1 "2025-10-20 14:30:05" "2025-10-23 00:00:00" 1)
                (world_at apple_mastered []) eq_refl) as H.
  destruct (BaseModel.insert _ (world_at apple_mastered [])) as [r w1] eqn:E.
  vm_compute in E. inversion E; subst r w1. clear E.
  destruct H as (_ & _ & _ & Hsel). apply Hsel. reflexivity.
Defined.

(* ================================================================== *)
(** * Further properties: recordOutcome, step by step *)
(* ================================================================== *)

Lemma interval_days_values (level : Z) :
  In (interval_days level) [1; 3; 7; 14; 30; 365].
Proof.
  unfold interval_days.
  destruct level as [|p|p]; simpl; auto.
  do 9 (destruct p as [p|p|]; simpl; auto 10).
Qed.

Lemma fault_free_split (n m : nat) (fs : list bool) :
  fault_free (n + m) fs -> fault_free n fs /\ fault_free m (skipn n fs).
Proof.
  unfold fault_free. revert fs. induction n as [|n IH]; intros fs Hf.
  - split; [reflexivity | exact Hf].
  - destruct fs as [|b fs]; [split; [reflexivity | now destruct m]|].
    simpl in Hf. apply andb_true_iff in Hf. destruct Hf as [Hb Hf].
    destruct (IH fs Hf) as [H1 H2]. split; [|exact H2].
    simpl. now rewrite Hb, H1.
Qed.

(** update_statistics when both statements are accepted and the date stays
    in range: the whole world afterwards. *)
Lemma update_statistics_effect (word_id : Z) (is_correct : bool) (w : World)
      (due : datetime.t) :
  idle w ->
  fault_free 2 (faults w) ->
  datetime.add_days (clock w (S (ticks w)))
    (interval_days (next_level (prior_level word_id (db w)) is_correct)) = Some due ->
  StatisticsModel.update_statistics word_id is_correct w =
  (Some true,
   after 3 2
     (set_db (set_word_statistics
                (stats_after word_id is_correct
                   (datetime.strftime_full (clock w (ticks w)))
                   (datetime.strftime_midnight due)
                   (word_statistics (db w)))
                (db w)) w)).
Proof.
  intros Hi Hff Hdue.
  destruct (fault_free_S _ _ Hff) as [Hf0 Hff1].
  destruct (fault_free_S _ _ Hff1) as [Hf1 _].
  unfold StatisticsModel.update_statistics, bind.
  rewrite select_all_idle by exact Hi. rewrite Hf0.
  unfold now_str, now, bind, ret.
  unfold prior_level in Hdue. unfold stats_after.
  cbn [BaseModel.table StatisticsModel.model].
  destruct w as [t c fs clk tk rg].
  unfold idle in Hi. unfold after, set_ticks.
  cbn [db faults clock ticks _conn rng Nat.add] in *. subst c.
  assert (Hfs : hd false (skipn 1 fs) = false) by exact Hf1.
  assert (Hsk : skipn 1 (skipn 1 fs) = skipn 2 fs) by (destruct fs; reflexivity).
  clear Hff Hff1 Hf0 Hf1.
  destruct (filter (fun s => StatsRow.word_id s =? word_id) (word_statistics t))
    as [|s0 rest] eqn:Hfil.
  - rewrite calculate_next_review_eq.
    cbn [db faults clock ticks _conn rng Nat.add].
    rewrite Hdue. cbn [option_map].
    rewrite insert_idle by reflexivity.
    unfold after. cbn [db faults clock ticks _conn rng Nat.add].
    rewrite skipn_O, Hfs. cbn [negb andb].
    replace (BaseModel.unique_ok _ _) with true.
    2:{ symmetry. apply negb_true_iff. now apply filter_nil_existsb. }
    cbn [set_db db faults clock ticks _conn rng]. rewrite Hsk. reflexivity.
  - destruct (filter_head_holds _ _ _ _ Hfil) as [Hin Hk].
    rewrite calculate_next_review_eq.
    cbn [db faults clock ticks _conn rng Nat.add].
    rewrite Hdue. cbn [option_map].
    rewrite update_idle by reflexivity.
    unfold after. cbn [db faults clock ticks _conn rng Nat.add].
    rewrite skipn_O, Hfs. cbn [negb andb].
    replace (0 <? _) with true.
    2:{ symmetry. apply Z.ltb_lt.
        apply (In_length_pos s0). apply filter_In.
        split; [exact Hin | apply Z.eqb_refl]. }
    cbn [set_db db faults clock ticks _conn rng]. rewrite Hsk. reflexivity.
Qed.

(** What the rewritten table says of the word, on a table with at most one
    record per word. *)
Lemma stats_after_record (word_id : Z) (is_correct : bool) (now next : string)
      (t : Tables) :
  NoDup (map StatsRow.word_id (word_statistics t)) ->
  let rows := stats_after word_id is_correct now next (word_statistics t) in
  NoDup (map StatsRow.word_id rows)
  /\ exists s,
       filter (fun r => StatsRow.word_id r =? word_id) rows = [s]
       /\ StatsRow.mastery_level s = next_level (prior_level word_id t) is_correct
       /\ StatsRow.total_attempts s = attempts_of word_id t + 1
       /\ StatsRow.correct_count s
          = correct_of word_id t + (if is_correct then 1 else 0).
Proof.
  intros Hnd. unfold stats_after, prior_level, attempts_of, correct_of, stats_of.
  destruct (filter (fun s => StatsRow.word_id s =? word_id) (word_statistics t))
    as [|s0 rest] eqn:Hfil; cbv zeta.
  - split.
    + rewrite map_app. simpl.
      apply (Permutation_NoDup
               (l := word_id :: map StatsRow.word_id (word_statistics t)));
        [apply Permutation_cons_append|].
      constructor; [|exact Hnd]. rewrite in_map_iff. intros (s & Hs & Hin).
      pose proof (filter_nil_none _ _ Hfil s Hin) as Hno. simpl in Hno.
      apply Z.eqb_neq in Hno. auto.
    + eexists. rewrite filter_app, Hfil. simpl. rewrite Z.eqb_refl.
      split; [reflexivity|]. simpl. auto.
  - assert (rest = []) by (eapply filter_key_NoDup; eauto). subst rest.
    split.
    + rewrite map_map. erewrite map_ext; [exact Hnd|].
      intros s. simpl. destruct (_ =? _); reflexivity.
    + eexists. rewrite filter_map_commute.
      2:{ intros x. destruct (StatsRow.stats_id x =? StatsRow.stats_id s0); reflexivity. }
      rewrite Hfil. simpl. rewrite Z.eqb_refl.
      split; [reflexivity|]. simpl. auto.
Qed.

(** X5: However many answers are recorded for a word, one after the other: the
    level ends at the transition folded over the answers, every answer is
    counted as an attempt and every correct one as correct, and the table
    still holds at most one record per word. *)
Theorem record_outcomes_accumulate (word_id : Z) (answers : list bool) (w : World) :
  idle w ->
  fault_free (2 * List.length answers) (faults w) ->
  clock_in_range w ->
  NoDup (map StatsRow.word_id (word_statistics (db w))) ->
  let '(ok, w') := record_outcomes word_id answers w in
  ok = true
  /\ prior_level word_id (db w')
     = fold_left next_level answers (prior_level word_id (db w))
  /\ attempts_of word_id (db w')
     = attempts_of word_id (db w) + Z.of_nat (List.length answers)
  /\ correct_of word_id (db w')
     = correct_of word_id (db w)
       + Z.of_nat (List.length (filter (fun a => a) answers))
  /\ NoDup (map StatsRow.word_id (word_statistics (db w'))).
Proof.
  revert w. induction answers as [|a rest IH]; intros w Hi Hff Hclock Hnd.
  - simpl. repeat split; try lia; auto.
  - cbn [record_outcomes]. unfold bind.
    replace (2 * List.length (a :: rest))%nat
      with (2 + 2 * List.length rest)%nat in Hff by (simpl; lia).
    apply fault_free_split in Hff. destruct Hff as [Hff2 Hffrest].
    destruct (datetime.add_days (clock w (S (ticks w)))
                (interval_days (next_level (prior_level word_id (db w)) a)))
      as [due|] eqn:Hdue; [|exfalso; eapply Hclock; exact Hdue].
    rewrite (update_statistics_effect word_id a w due Hi Hff2 Hdue).
    set (w1 := after 3 2 _).
    destruct (stats_after_record word_id a
                (datetime.strftime_full (clock w (ticks w)))
                (datetime.strftime_midnight due) (db w) Hnd)
      as (Hnd1 & s & Hs & Hlvl & Htot & Hcor).
    assert (Hdb1 : word_statistics (db w1)
                   = stats_after word_id a
                       (datetime.strftime_full (clock w (ticks w)))
                       (datetime.strftime_midnight due) (word_statistics (db w)))
      by (destruct w; reflexivity).
    specialize (IH w1).
    destruct (record_outcomes word_id rest w1) as [ok w'].
    assert (Hi1 : idle w1) by (destruct w; exact Hi).
    assert (Hff1 : fault_free (2 * List.length rest) (faults w1))
      by (destruct w; exact Hffrest).
    assert (Hclock1 : clock_in_range w1)
      by (destruct w; intros k level; apply Hclock).
    rewrite <- Hdb1 in Hnd1.
    destruct (IH Hi1 Hff1 Hclock1 Hnd1) as (Hok & Hl & Ht & Hc & Hn).
    assert (Hp1 : prior_level word_id (db w1) = next_level (prior_level word_id (db w)) a
                  /\ attempts_of word_id (db w1) = attempts_of word_id (db w) + 1
                  /\ correct_of word_id (db w1)
                     = correct_of word_id (db w) + (if a then 1 else 0)).
    { unfold prior_level, attempts_of, correct_of, stats_of.
      rewrite Hdb1, Hs. auto. }
    destruct Hp1 as (Hp & Ha & Hco).
    split; [exact Hok|]. split; [rewrite Hl, Hp; reflexivity|].
    split; [rewrite Ht, Ha; cbn [List.length]; lia|].
    split; [|exact Hn].
    rewrite Hc, Hco. cbn [filter]. destruct a; cbn [List.length]; lia.
Qed.

(** A new word answered correctly, correctly, then wrongly: level 0 again,
    three attempts, two of them correct. *)
Lemma record_outcomes_witness :
  let '(ok, w') := record_outcomes 1 [true; true; false] (world_at one_word []) in
  ok = true
  /\ prior_level 1 (db w') = 0
  /\ attempts_of 1 (db w') = 3
  /\ correct_of 1 (db w') = 2.
Proof.
  pose proof (record_outcomes_accumulate 1 [true; true; false]
                (world_at one_word [])) as H.
  destruct (record_outcomes 1 [true; true; false] (world_at one_word []))
    as [ok w'].
  destruct H as (Hok & Hl & Ht & Hc & _).
  - reflexivity.
  - reflexivity.
  - intros k level. cbn [clock world_at].
    destruct (interval_days_values level) as [E|[E|[E|[E|[E|[E|[]]]]]]];
      rewrite <- E; vm_compute; discriminate.
  - constructor.
  - split; [exact Hok|]. rewrite Hl, Ht, Hc.
    split; [reflexivity|]. split; reflexivity.
Defined.

(* ================================================================== *)
(** * Further properties: what recordOutcome leaves alone *)
(* ================================================================== *)

(** X6: Whatever the storage layer rejects, update_statistics changes no record
    of another word and removes none; and unless it returns True the
    database is exactly what it was. *)
Theorem update_statistics_touches_one_word
        (word_id : Z) (is_correct : bool) (w : World) :
  idle w ->
  NoDup (map StatsRow.stats_id (word_statistics (db w))) ->
  let '(r, w') := StatisticsModel.update_statistics word_id is_correct w in
  (r <> Some true -> db w' = db w)
  /\ (forall s, StatsRow.word_id s <> word_id ->
        (In s (word_statistics (db w')) <-> In s (word_statistics (db w))))
  /\ (List.length (word_statistics (db w)) <= List.length (word_statistics (db w')))%nat.
Proof.
  intros Hi Hpk. unfold StatisticsModel.update_statistics, bind.
  rewrite select_all_idle by exact Hi.
  unfold now_str, now, bind, ret.
  cbn [BaseModel.table StatisticsModel.model].
  destruct w as [t c fs clk tk rg]. unfold idle in Hi.
  unfold after, set_ticks.
  cbn [db faults clock ticks _conn rng Nat.add] in *. subst c.
  assert (Hsame : forall (x : option bool) (w1 : World),
            db w1 = t ->
            let '(r, w') := (x, w1) in
            (r <> Some true -> db w' = t)
            /\ (forall s, StatsRow.word_id s <> word_id ->
                  (In s (word_statistics (db w')) <-> In s (word_statistics t)))
            /\ (List.length (word_statistics t)
                <= List.length (word_statistics (db w')))%nat).
  { intros x w1 ->. repeat split; auto. }
  destruct (if hd false fs then [] else _) as [|s0 rest] eqn:Hsel;
    rewrite calculate_next_review_eq;
    cbn [db faults clock ticks _conn rng Nat.add];
    destruct (datetime.add_days _ _) as [due|]; cbn [option_map];
    try (apply Hsame; reflexivity).
  - rewrite insert_idle by reflexivity.
    cbn [db faults clock ticks _conn rng].
    destruct (negb _ && _); [|apply Hsame; reflexivity].
    cbn [BaseModel.table BaseModel.set_table StatisticsModel.model after set_db db
         word_statistics set_word_statistics].
    split; [congruence|]. split.
    + intros s Hs. rewrite in_app_iff. simpl. split; [|auto].
      intros [H|[H|[]]]; [exact H|]. subst s. simpl in Hs. congruence.
    + rewrite length_app. lia.
  - rewrite update_idle by reflexivity.
    cbn [db faults clock ticks _conn rng].
    destruct (negb _ && _); [|apply Hsame; reflexivity].
    cbn [BaseModel.table BaseModel.set_table StatisticsModel.model after set_db db
         word_statistics set_word_statistics BaseModel.pk].
    assert (Hs0 : In s0 (word_statistics t) /\ StatsRow.word_id s0 = word_id).
    { destruct (hd false fs); [discriminate|].
      destruct (filter_head_holds _ _ _ _ Hsel) as [Hin Hk].
      split; [exact Hin | now apply Z.eqb_eq]. }
    destruct Hs0 as [Hin0 Hk0].
    split; [congruence|]. split; [|rewrite length_map; lia].
    intros s Hs. rewrite in_map_iff. split.
    + intros (x & Hx & Hinx).
      destruct (Z.eqb_spec (StatsRow.stats_id x) (StatsRow.stats_id s0)) as [Hid|Hid];
        [|now subst].
      assert (x = s0)
        by (apply (NoDup_map_In_eq StatsRow.stats_id (word_statistics t)); auto).
      subst x s. simpl in Hs. congruence.
    + intros Hins. exists s. split; [|exact Hins].
      destruct (Z.eqb_spec (StatsRow.stats_id s) (StatsRow.stats_id s0)) as [Hid|Hid];
        [|reflexivity].
      assert (s = s0)
        by (apply (NoDup_map_In_eq StatsRow.stats_id (word_statistics t)); auto).
      subst s. congruence.
Qed.

(** The lookup is accepted, the insert is rejected: False comes back and
    the table is as it was. *)
Lemma update_statistics_touches_one_word_witness :
  idle (world_at apple_mastered [false; true])
  /\ NoDup (map StatsRow.stats_id
                (word_statistics (db (world_at apple_mastered [false; true]))))
  /\ (let '(r, w') := StatisticsModel.update_statistics 2 true
                        (world_at apple_mastered [false; true]) in
      r = Some false /\ db w' = apple_mastered).
Proof.
  split; [reflexivity|]. split; [repeat constructor; simpl; tauto|].
  pose proof (update_statistics_touches_one_word 2 true
                (world_at apple_mastered [false; true]) eq_refl) as H.
  destruct (StatisticsModel.update_statistics 2 true
              (world_at apple_mastered [false; true])) as [r w'] eqn:E.
  destruct H as (Hfail & _).
  - repeat constructor; simpl; tauto.
  - assert (Hr : r = Some false) by (vm_compute in E; congruence).
    split; [exact Hr|]. apply Hfail. rewrite Hr. discriminate.
Defined.

(* ================================================================== *)
(** * Further properties: the distributions of the dashboard *)
(* ================================================================== *)

Lemma int_dict_set_fresh (k v : Z) (d : list (Z * Z)) :
  ~ In k (map fst d) -> int_dict_set k v d = d ++ [(k, v)].
Proof.
  induction d as [|[k' v'] d IH]; simpl; intros Hk; auto.
  destruct (Z.eqb_spec k k') as [->|Hne]; [tauto|].
  rewrite IH; tauto.
Qed.

(** A dict built from rows with distinct keys holds the rows, in order. *)
Lemma int_dict_of_distinct (rows : list (Z * Z)) :
  NoDup (map fst rows) -> int_dict_of rows = rows.
Proof.
  unfold int_dict_of.
  induction rows as [|[k v] rows IH] using rev_ind; intros Hnd; auto.
  rewrite fold_left_app. simpl.
  rewrite map_app in Hnd. simpl in Hnd.
  apply NoDup_remove in Hnd. rewrite app_nil_r in Hnd. destruct Hnd as [Hnd Hk].
  rewrite IH by exact Hnd. now apply int_dict_set_fresh.
Qed.

Lemma int_dict_get_table (c : Z -> Z) (l : list Z) (k default : Z) :
  int_dict_get k (map (fun k => (k, c k)) l) default
  = if existsb (Z.eqb k) l then c k else default.
Proof.
  induction l as [|x l IH]; simpl; auto.
  destruct (Z.eqb_spec k x) as [->|Hne]; simpl; auto.
Qed.

Lemma group_count_keys (ks : list Z) :
  map fst (group_count ks) = order_by Z.leb (nodup Z.eq_dec ks).
Proof.
  unfold group_count. rewrite map_map. simpl. apply map_id.
Qed.

Lemma group_count_NoDup (ks : list Z) : NoDup (map fst (group_count ks)).
Proof.
  rewrite group_count_keys.
  apply (Permutation_NoDup (l := nodup Z.eq_dec ks)).
  - apply Permutation_sym, order_by_perm.
  - apply NoDup_nodup.
Qed.

Lemma group_count_In (ks : list Z) (k n : Z) :
  In (k, n) (group_count ks)
  <-> n = Z.of_nat (count_occ Z.eq_dec ks k) /\ 0 < n.
Proof.
  unfold group_count. rewrite in_map_iff. split.
  - intros (x & E & Hx). inversion E; subst.
    split; [reflexivity|].
    apply order_by_In, nodup_In in Hx.
    apply (count_occ_In Z.eq_dec) in Hx. lia.
  - intros [-> Hpos]. exists k. split; [reflexivity|].
    apply order_by_In, nodup_In. apply (count_occ_In Z.eq_dec). lia.
Qed.

Lemma group_count_get (ks : list Z) (k : Z) :
  int_dict_get k (group_count ks) 0 = Z.of_nat (count_occ Z.eq_dec ks k).
Proof.
  unfold group_count. rewrite int_dict_get_table.
  destruct (existsb (Z.eqb k) _) eqn:E; [reflexivity|].
  assert (Hnot : ~ In k ks).
  { intros Hin.
    assert (Hex : existsb (Z.eqb k) (order_by Z.leb (nodup Z.eq_dec ks)) = true).
    { apply existsb_exists. exists k. split; [|apply Z.eqb_refl].
      now apply order_by_In, nodup_In. }
    congruence. }
  apply (count_occ_not_In Z.eq_dec) in Hnot. now rewrite Hnot.
Qed.

Lemma count_occ_map_key {A : Type} (f : A -> Z) (l : list A) (k : Z) :
  count_occ Z.eq_dec (map f l) k
  = List.length (filter (fun a => f a =? k) l).
Proof.
  induction l as [|x l IH]; simpl; auto.
  destruct (Z.eq_dec (f x) k) as [E|E], (Z.eqb_spec (f x) k); try tauto;
    simpl; now rewrite IH.
Qed.

Lemma count_occ_const {A : Type} (v k : Z) (l : list A) :
  count_occ Z.eq_dec (map (fun _ => v) l) k
  = if v =? k then List.length l else 0%nat.
Proof.
  induction l as [|x l IH]; simpl.
  - now destruct (v =? k).
  - destruct (Z.eq_dec v k) as [E|E], (Z.eqb_spec v k); try tauto;
      rewrite IH; destruct (Z.eqb_spec v k); tauto.
Qed.

(** On a table with distinct keys, at most one row matches a key. *)
Lemma filter_key_count {A : Type} (key : A -> Z) (p : A -> bool) (k : Z) (l : list A) :
  NoDup (map key l) ->
  List.length (filter (fun a => (k =? key a) && p a) l)
  = if existsb (fun a => (k =? key a) && p a) l then 1%nat else 0%nat.
Proof.
  induction l as [|x l IH]; simpl; intros Hnd; auto.
  inversion Hnd as [|? ? Hx Hl]; subst.
  destruct (Z.eqb_spec k (key x)) as [->|Hne]; simpl; [|auto].
  assert (Hnone : filter (fun a => (key x =? key a) && p a) l = []).
  { clear IH Hnd Hl. induction l as [|y l IHl]; simpl; auto.
    simpl in Hx.
    destruct (Z.eqb_spec (key x) (key y)) as [E|E]; [exfalso; auto|].
    simpl. apply IHl. tauto. }
  destruct (p x); simpl.
  - now rewrite Hnone.
  - rewrite (IH Hl), (filter_nil_existsb _ _ Hnone). reflexivity.
Qed.

Lemma active_levels_count (t : Tables) (level : Z) :
  NoDup (map WordRow.word_id (words t)) ->
  Z.of_nat (count_occ Z.eq_dec (StatisticsModel.active_levels t) level)
  = active_records_at level t.
Proof.
  intros Hnd. unfold StatisticsModel.active_levels, active_records_at, has_active_word.
  f_equal.
  induction (word_statistics t) as [|s l IH]; simpl; auto.
  rewrite count_occ_app, IH, count_occ_const.
  rewrite (filter_key_count WordRow.word_id
             (fun w => WordRow.is_deleted w =? 0) (StatsRow.word_id s) _ Hnd).
  destruct (StatsRow.mastery_level s =? level); simpl; auto.
  destruct (existsb _ (words t)); reflexivity.
Qed.

(** X7: get_mastery_distribution answers with exactly the levels 0..5, each with
    the number of statistics records at that level (soft-deleted words
    included, records at other levels dropped); a rejected query gives six
    zero counts, not an empty answer.  The database is not changed. *)
Theorem mastery_distribution_counts (w : World) :
  idle w ->
  let '(d, w') := StatisticsModel.get_mastery_distribution w in
  db w' = db w
  /\ idle w'
  /\ d = map (fun level =>
                (level, if hd false (faults w) then 0 else records_at level (db w)))
             [0; 1; 2; 3; 4; 5].
Proof.
  intros Hi.
  unfold StatisticsModel.get_mastery_distribution, bind, ret, DBConnection.connect,
    DBConnection.fetchall, DBConnection.execute, DBConnection.next_fault,
    DBConnection.close, StatisticsModel.sql_mastery_distribution.
  destruct w as [t c fs clk tk rg]. unfold idle in Hi. simpl in Hi. subst c.
  change (range (StatisticsModel.MAX_MASTERY_LEVEL + 1)) with [0; 1; 2; 3; 4; 5].
  destruct fs as [|[|] fs]; cbn -[group_count int_dict_of int_dict_get map];
    (split; [reflexivity|]); (split; [reflexivity|]).
  1,3: rewrite int_dict_of_distinct by apply group_count_NoDup;
       apply map_ext; intros level; f_equal;
       rewrite group_count_get, count_occ_map_key; reflexivity.
  reflexivity.
Qed.

(** Two records at level 0, one at level 1 and one at level 2. *)
Lemma mastery_distribution_witness :
  idle (world_at review_queue [])
  /\ fst (StatisticsModel.get_mastery_distribution (world_at review_queue []))
     = [(0, 2); (1, 1); (2, 1); (3, 0); (4, 0); (5, 0)].
Proof.
  split; [reflexivity|].
  pose proof (mastery_distribution_counts (world_at review_queue []) eq_refl) as H.
  destruct (StatisticsModel.get_mastery_distribution (world_at review_queue []))
    as [d w'].
  destruct H as (_ & _ & ->). reflexivity.
Defined.

(** X8: get_proficiency_distribution, on a words table with distinct ids: a
    level is a key exactly when some word that is not soft-deleted has a
    record at it, and it maps to the number of such records; no level is
    zero-filled.  A rejected query gives the empty answer. *)
Theorem proficiency_distribution_counts (w : World) :
  idle w ->
  NoDup (map WordRow.word_id (words (db w))) ->
  let '(d, w') := StatisticsModel.get_proficiency_distribution w in
  db w' = db w
  /\ NoDup (map fst d)
  /\ (hd false (faults w) = true -> d = [])
  /\ (hd false (faults w) = false ->
      forall level n,
        In (level, n) d <-> n = active_records_at level (db w) /\ 0 < n).
Proof.
  intros Hi Hnd.
  unfold StatisticsModel.get_proficiency_distribution, bind, ret, DBConnection.connect,
    DBConnection.fetchall, DBConnection.execute, DBConnection.next_fault,
    DBConnection.close, StatisticsModel.sql_proficiency_distribution.
  destruct w as [t c fs clk tk rg]. unfold idle in Hi. simpl in Hi, Hnd. subst c.
  assert (Hok : NoDup (map fst (int_dict_of (group_count (StatisticsModel.active_levels t))))
                /\ forall level n,
                     In (level, n) (int_dict_of (group_count (StatisticsModel.active_levels t)))
                     <-> n = active_records_at level t /\ 0 < n).
  { rewrite int_dict_of_distinct by apply group_count_NoDup.
    split; [apply group_count_NoDup|].
    intros level n. rewrite group_count_In, active_levels_count by exact Hnd.
    reflexivity. }
  destruct Hok as [Hk Hin].
  destruct fs as [|[|] fs]; cbn -[group_count int_dict_of];
    (split; [reflexivity|]).
  - split; [exact Hk|]. split; [discriminate | intros _; exact Hin].
  - split; [constructor|]. split; [reflexivity | discriminate].
  - split; [exact Hk|]. split; [discriminate | intros _; exact Hin].
Qed.

(** fig is soft-deleted: its record at level 0 is not counted, and level 0
    maps to 1 where get_mastery_distribution says 2. *)
Lemma proficiency_distribution_witness :
  idle (world_at review_queue [])
  /\ NoDup (map WordRow.word_id (words (db (world_at review_queue []))))
  /\ In (0, 1) (fst (StatisticsModel.get_proficiency_distribution
                       (world_at review_queue [])))
  /\ ~ In (0, 2) (fst (StatisticsModel.get_proficiency_distribution
                         (world_at review_queue []))).
Proof.
  assert (Hnd : NoDup (map WordRow.word_id (words (db (world_at review_queue [])))))
    by (repeat constructor; simpl; intuition discriminate).
  split; [reflexivity|]. split; [exact Hnd|].
  pose proof (proficiency_distribution_counts (world_at review_queue [])
                eq_refl Hnd) as H.
  destruct (StatisticsModel.get_proficiency_distribution (world_at review_queue []))
    as [d w'].
  destruct H as (_ & _ & _ & H). specialize (H eq_refl). simpl fst. split.
  - apply H. split; [reflexivity | reflexivity].
  - intros Hin. apply H in Hin. destruct Hin as [Hn _]. discriminate Hn.
Defined.

(* ================================================================== *)
(** * Further properties: the category list *)
(* ================================================================== *)

(** X9: get_all_categories lists each category of the words that are not
    soft-deleted exactly once, in ascending order, and nothing else; a
    rejected query gives the empty list.  The database is not changed. *)
Theorem all_categories_distinct_sorted (w : World) :
  idle w ->
  let '(cs, w') := WordController.get_all_categories w in
  db w' = db w
  /\ NoDup cs
  /\ StronglySorted (fun a b => text_le a b = true) cs
  /\ (forall c, In c cs ->
        exists r, In r (words (db w)) /\ WordRow.is_deleted r = 0
                  /\ WordRow.category r = c)
  /\ (hd false (faults w) = false ->
        forall r, In r (words (db w)) -> WordRow.is_deleted r = 0 ->
                  In (WordRow.category r) cs)
  /\ (hd false (faults w) = true -> cs = []).
Proof.
  intros Hi.
  unfold WordController.get_all_categories, bind, ret, DBConnection.connect,
    DBConnection.fetchall, DBConnection.execute, DBConnection.next_fault,
    DBConnection.close.
  destruct w as [t c fs clk tk rg]. unfold idle in Hi. simpl in Hi. subst c.
  set (active := filter (fun r => WordRow.is_deleted r =? 0) (words t)).
  assert (Hq : NoDup (distinct_sorted (map WordRow.category active))
               /\ StronglySorted (fun a b => text_le a b = true)
                    (distinct_sorted (map WordRow.category active))
               /\ (forall c, In c (distinct_sorted (map WordRow.category active)) <->
                     exists r, In r (words t) /\ WordRow.is_deleted r = 0
                               /\ WordRow.category r = c)).
  { unfold distinct_sorted. split; [|split].
    - apply (Permutation_NoDup (l := nodup string_dec (map WordRow.category active))).
      + apply Permutation_sym, order_by_perm.
      + apply NoDup_nodup.
    - apply (order_by_sorted text_le text_le_total text_le_trans).
    - intros c. rewrite order_by_In, nodup_In, in_map_iff. unfold active.
      split.
      + intros (r & Hc & Hr). apply filter_In in Hr. destruct Hr as [Hin Hd].
        apply Z.eqb_eq in Hd. eauto.
      + intros (r & Hin & Hd & Hc). exists r. split; [exact Hc|].
        apply filter_In. split; [exact Hin | now apply Z.eqb_eq]. }
  destruct Hq as (Hnd & Hs & Hin).
  assert (Hnil : NoDup (@nil string)
                 /\ StronglySorted (fun a b => text_le a b = true) []
                 /\ (forall c, In c (@nil string) ->
                       exists r, In r (words t) /\ WordRow.is_deleted r = 0
                                 /\ WordRow.category r = c))
    by (repeat split; try constructor; intros c []).
  destruct fs as [|[|] fs]; cbn -[distinct_sorted]; fold active;
    (split; [reflexivity|]).
  - split; [exact Hnd|]. split; [exact Hs|]. split; [intros c Hc; now apply Hin|].
    split; [|discriminate]. intros _ r Hr Hd. apply Hin. eauto.
  - destruct Hnil as (H1 & H2 & H3). split; [exact H1|]. split; [exact H2|].
    split; [exact H3|]. split; [discriminate | reflexivity].
  - split; [exact Hnd|]. split; [exact Hs|]. split; [intros c Hc; now apply Hin|].
    split; [|discriminate]. intros _ r Hr Hd. apply Hin. eauto.
Qed.

(** apple and pear are fruit, desk is office: two categories. *)
Lemma all_categories_witness :
  idle (world_at mixed_words [])
  /\ fst (WordController.get_all_categories (world_at mixed_words []))
     = ["fruit"; "office"]
  /\ NoDup (fst (WordController.get_all_categories (world_at mixed_words []))).
Proof.
  split; [reflexivity|]. split; [reflexivity|].
  pose proof (all_categories_distinct_sorted (world_at mixed_words []) eq_refl) as H.
  destruct (WordController.get_all_categories (world_at mixed_words [])) as [cs w'].
  destruct H as (_ & Hnd & _). exact Hnd.
Defined.

(* ================================================================== *)
(** * Further properties: editing a word *)
(* ================================================================== *)

Lemma NoDup_map_edit {A : Type} (key : A -> Z) (f : A -> string) (l : list A)
      (id : Z) (v : string) :
  NoDup (map key l) -> NoDup (map f l) ->
  (forall r, In r l -> key r <> id -> f r <> v) ->
  NoDup (map (fun r => if key r =? id then v else f r) l).
Proof.
  induction l as [|x l IH]; simpl; intros Hk Hf Hv; [constructor|].
  inversion Hk as [|? ? Hkx Hkl]; subst. inversion Hf as [|? ? Hfx Hfl]; subst.
  constructor; [|apply IH; auto].
  rewrite in_map_iff. intros (y & Hy & Hin).
  destruct (Z.eqb_spec (key x) id) as [Ex|Ex], (Z.eqb_spec (key y) id) as [Ey|Ey].
  - apply Hkx. rewrite Ex, <- Ey. now apply in_map.
  - apply (Hv y); auto.
  - apply (Hv x); auto.
  - apply Hfx. rewrite <- Hy. now apply in_map.
Qed.

(** is_word_exist on an idle connection: one statement. *)
Lemma is_word_exist_idle (word_text : string) (exclude_id : option Z) (w : World) :
  idle w ->
  WordModel.is_word_exist word_text exclude_id w =
  (if hd false (faults w) then false
   else match filter (fun r =>
                  String.eqb (WordRow.word_text r) word_text
                  && (WordRow.is_deleted r =? 0)
                  && match exclude_id with
                     | Some id => negb (WordRow.word_id r =? id)
                     | None => true
                     end) (words (db w)) with
        | [] => false
        | _ :: _ => true
        end,
   after 0 1 w).
Proof.
  intros Hi.
  unfold WordModel.is_word_exist, WordModel.sql_word_exist, DBConnection.connect,
    DBConnection.fetchone, DBConnection.execute, DBConnection.next_fault,
    DBConnection.close, after, bind, ret.
  destruct w as [t c fs clk tk rg]. unfold idle in Hi. simpl in Hi. subst c.
  destruct fs as [|[|] fs]; simpl; try reflexivity;
    destruct (filter _ (words t)); reflexivity.
Qed.

(** update on a model with modified_date, on an idle connection: one clock
    reading, one statement. *)
Lemma update_dated_idle {Row : Type} `{BaseModel.Model Row} `{BaseModel.Dated Row}
      (pk_value : Z) (data : Row -> Row) (w : World) :
  idle w ->
  BaseModel.update_dated pk_value data w =
  let t := db w in
  let now := datetime.strftime_full (clock w (ticks w)) in
  let hit := fun r => BaseModel.pk r =? pk_value in
  if negb (hd false (faults w))
     && (0 <? Z.of_nat (List.length (filter hit (BaseModel.table t))))
  then (true,
        after 1 1 (set_db (BaseModel.set_table
                             (map (fun r => if hit r
                                            then BaseModel.set_modified_date now (data r)
                                            else r)
                                  (BaseModel.table t)) t) w))
  else (false, after 1 1 w).
Proof.
  intros Hi.
  unfold BaseModel.update_dated, BaseModel.sql_update, now_str, now,
    DBConnection.connect, DBConnection.execute, DBConnection.next_fault,
    DBConnection.commit, DBConnection.close, after, bind, ret.
  destruct w as [t c fs clk tk rg]. unfold idle in Hi. simpl in Hi. subst c.
  destruct fs as [|[|] fs]; simpl; try reflexivity;
    destruct (0 <? _); reflexivity.
Qed.

(** X10: update_word when the duplicate lookup is accepted, on a table with
    distinct word ids and distinct texts among the words that are not
    soft-deleted: the texts stay distinct; a text another such word carries
    is refused; False leaves the database as it was; True means the word
    exists and exactly its row was rewritten, with the stripped text and
    meaning, the memo or the empty string, and the clock reading as
    modified_date. *)
Theorem update_word_keeps_texts_distinct
        (strip : string -> string) (word_id : Z)
        (word_text meaning_ko category : string) (memo : option string) (w : World) :
  idle w ->
  hd false (faults w) = false ->
  NoDup (map WordRow.word_id (words (db w))) ->
  NoDup (active_texts (db w)) ->
  let '(ok, w') :=
    WordController.update_word strip word_id word_text meaning_ko category memo w in
  NoDup (active_texts (db w'))
  /\ (text_taken (strip word_text) word_id (db w) -> ok = false)
  /\ (ok = false -> db w' = db w)
  /\ (ok = true ->
      In word_id (map WordRow.word_id (words (db w)))
      /\ db w' = BaseModel.set_table
                   (map (edited word_id (strip word_text) (strip meaning_ko) category
                                (WordController.memo_or_empty memo)
                                (datetime.strftime_full (clock w (ticks w))))
                        (words (db w)))
                   (db w)).
Proof.
  intros Hi Hf0 Hids Htexts.
  unfold WordController.update_word, bind.
  rewrite is_word_exist_idle by exact Hi. rewrite Hf0.
  set (dup := fun r : WordRow.t =>
                String.eqb (WordRow.word_text r) (strip word_text)
                && (WordRow.is_deleted r =? 0)
                && negb (WordRow.word_id r =? word_id)).
  assert (Hsame : forall (w1 : World), db w1 = db w ->
            NoDup (active_texts (db w1))
            /\ (text_taken (strip word_text) word_id (db w) -> false = false)
            /\ (false = false -> db w1 = db w)
            /\ (false = true ->
                In word_id (map WordRow.word_id (words (db w)))
                /\ db w1 = BaseModel.set_table
                     (map (edited word_id (strip word_text) (strip meaning_ko) category
                                  (WordController.memo_or_empty memo)
                                  (datetime.strftime_full (clock w (ticks w))))
                          (words (db w))) (db w))).
  { intros w1 ->. repeat split; auto; discriminate. }
  destruct (filter dup (words (db w))) as [|r0 rest] eqn:Hdup.
  2:{ unfold ret. apply Hsame. destruct w; reflexivity. }
  assert (Hfree : forall r, In r (words (db w)) -> WordRow.is_deleted r = 0 ->
                    WordRow.word_id r <> word_id ->
                    WordRow.word_text r <> strip word_text).
  { intros r Hin Hd Hne Ht.
    pose proof (filter_nil_none _ _ Hdup r Hin) as Hr. unfold dup in Hr.
    rewrite Ht, String.eqb_refl, Hd in Hr. simpl in Hr.
    apply negb_false_iff, Z.eqb_eq in Hr. contradiction. }
  rewrite update_dated_idle by (destruct w; exact Hi). cbv zeta.
  assert (Hw0 : db (after 0 1 w) = db w
                /\ clock (after 0 1 w) (ticks (after 0 1 w)) = clock w (ticks w)
                /\ faults (after 0 1 w) = skipn 1 (faults w))
    by (destruct w; repeat split).
  destruct Hw0 as (-> & -> & ->).
  cbn [BaseModel.table BaseModel.set_table BaseModel.pk WordModel.model].
  destruct (negb (hd false (skipn 1 (faults w)))
            && (0 <? Z.of_nat (List.length
                  (filter (fun r => WordRow.word_id r =? word_id) (words (db w))))))
    eqn:Hrun.
  2:{ apply Hsame. destruct w; reflexivity. }
  apply andb_true_iff in Hrun. destruct Hrun as [_ Hrows].
  apply Z.ltb_lt in Hrows.
  set (now := datetime.strftime_full (clock w (ticks w))).
  set (e := edited word_id (strip word_text) (strip meaning_ko) category
              (WordController.memo_or_empty memo) now).
  assert (Hdb : db (after 1 1
                  (set_db
                     (mkTables
                        (map (fun r => if WordRow.word_id r =? word_id
                                       then BaseModel.set_modified_date now
                                              (WordRow.mk (WordRow.word_id r)
                                                 (strip word_text) (strip meaning_ko)
                                                 category
                                                 (WordController.memo_or_empty memo)
                                                 (WordRow.is_favorite r)
                                                 (WordRow.created_date r)
                                                 (WordRow.modified_date r)
                                                 (WordRow.is_deleted r))
                                       else r) (words (db w)))
                        (word_statistics (db w)) (learning_history (db w))
                        (exam_history (db w)) (exam_questions (db w))
                        (wrong_note (db w)))
                     (after 0 1 w)))
                = BaseModel.set_table (map e (words (db w))) (db w)).
  { destruct w; reflexivity. }
  rewrite Hdb. clear Hdb.
  cbn [BaseModel.set_table WordModel.model].
  split; [|split; [|split]].
  - unfold active_texts. cbn [words].
    rewrite filter_map_commute.
    2:{ intros x. unfold e, edited. destruct (WordRow.word_id x =? word_id); reflexivity. }
    rewrite map_map.
    erewrite map_ext.
    + apply (NoDup_map_edit WordRow.word_id WordRow.word_text _ word_id
               (strip word_text)).
      * apply selection_keeps_keys_distinct. exact Hids.
      * exact Htexts.
      * intros r Hr Hne. apply filter_In in Hr. destruct Hr as [Hin Hd].
        apply Z.eqb_eq in Hd. now apply Hfree.
    + intros x. unfold e, edited. simpl.
      destruct (WordRow.word_id x =? word_id); reflexivity.
  - intros (r & Hin & Ht & Hd & Hne). exfalso. exact (Hfree r Hin Hd Hne Ht).
  - discriminate.
  - intros _. split; [|reflexivity].
    destruct (filter (fun r => WordRow.word_id r =? word_id) (words (db w)))
      as [|x xs] eqn:Hx; [simpl in Hrows; lia|].
    destruct (filter_head_holds _ _ _ _ Hx) as [Hin Hk]. apply Z.eqb_eq in Hk.
    rewrite <- Hk. now apply in_map.
Qed.

(** pear renamed to plum goes through; renamed to apple it is refused. *)
Lemma update_word_witness :
  idle (world_at two_words [])
  /\ hd false (faults (world_at two_words [])) = false
  /\ NoDup (map WordRow.word_id (words (db (world_at two_words []))))
  /\ NoDup (active_texts (db (world_at two_words [])))
  /\ NoDup (active_texts
              (db (snd (WordController.update_word (fun s => s) 2 "plum" "jadu" "fruit"
                          None (world_at two_words [])))))
  /\ fst (WordController.update_word (fun s => s) 2 "apple" "sagwa" "fruit" None
            (world_at two_words [])) = false.
Proof.
  assert (Hids : NoDup (map WordRow.word_id (words (db (world_at two_words [])))))
    by (repeat constructor; simpl; intuition discriminate).
  assert (Htexts : NoDup (active_texts (db (world_at two_words []))))
    by (repeat constructor; simpl; intuition discriminate).
  split; [reflexivity|]. split; [reflexivity|]. split; [exact Hids|].
  split; [exact Htexts|]. split.
  - pose proof (update_word_keeps_texts_distinct (fun s => s) 2 "plum" "jadu" "fruit"
                  None (world_at two_words []) eq_refl eq_refl Hids Htexts) as H.
    destruct (WordController.update_word (fun s => s) 2 "plum" "jadu" "fruit" None
                (world_at two_words [])) as [ok w'].
    exact (proj1 H).
  - reflexivity.
Defined.

(* ================================================================== *)
(** * Further properties: an exam, recorded and read back *)
(* ================================================================== *)

Lemma accepting_tl (fs : list bool) : accepting fs -> accepting (tl fs).
Proof. unfold accepting. destruct 1; simpl; auto. Qed.


Lemma next_fault_accepting (w : World) :
  accepting (faults w) ->
  DBConnection.next_fault w = (false, set_faults (tl (faults w)) w).
Proof.
  unfold DBConnection.next_fault. destruct w as [t c fs clk tk rg]; simpl.
  intros Hf. destruct Hf as [|b fs Hb Hfs]; [reflexivity|]. now subst b.
Qed.

(** A statement inside an explicit transaction, accepted. *)
Lemma execute_DML_open {R : Type} (f : Tables -> option (Tables * Z * Z))
      (w : World) (t0 t' : Tables) (id n : Z) :
  _conn w = Some (mkConnection (Some t0) false) ->
  accepting (faults w) ->
  f (db w) = Some (t', id, n) ->
  DBConnection.execute (@DBConnection.DML R f) w =
  (Some (DBConnection.mkCursor id n []),
   mkWorld t' (_conn w) (tl (faults w)) (clock w) (ticks w) (rng w)).
Proof.
  intros Hc Hf Hr. unfold DBConnection.execute.
  rewrite Hc, next_fault_accepting by exact Hf.
  destruct w as [t c fs clk tk rg]; simpl in *. subst c. rewrite Hr. reflexivity.
Qed.

Lemma execute_SELECT_open {R : Type} (q : Tables -> list R) (w : World) (c : Connection) :
  _conn w = Some c ->
  accepting (faults w) ->
  DBConnection.execute (DBConnection.SELECT q) w =
  (Some (DBConnection.mkCursor 0 0 (q (db w))), set_faults (tl (faults w)) w).
Proof.
  intros Hc Hf. unfold DBConnection.execute.
  rewrite Hc, next_fault_accepting by exact Hf.
  destruct w as [t c0 fs clk tk rg]; reflexivity.
Qed.

Lemma sum_bump_one (rows : list WrongNoteRow.t) (n0 : WrongNoteRow.t)
      (f : WrongNoteRow.t -> WrongNoteRow.t) :
  NoDup (map WrongNoteRow.note_id rows) -> In n0 rows ->
  (forall n, WrongNoteRow.wrong_count (f n) = WrongNoteRow.wrong_count n + 1) ->
  fold_right Z.add 0
    (map WrongNoteRow.wrong_count
       (map (fun n => if WrongNoteRow.note_id n =? WrongNoteRow.note_id n0
                      then f n else n) rows))
  = fold_right Z.add 0 (map WrongNoteRow.wrong_count rows) + 1.
Proof.
  intros Hnd Hin Hf.
  induction rows as [|x rows IH]; [destruct Hin|].
  simpl in Hnd. inversion Hnd as [|? ? Hx Hrows]; subst.
  cbn [map fold_right].
  destruct Hin as [->|Hin].
  - rewrite Z.eqb_refl, Hf.
    rewrite (map_ext_in _ (fun n => n)), map_id; [lia|].
    intros y Hy. destruct (Z.eqb_spec (WrongNoteRow.note_id y) (WrongNoteRow.note_id n0))
      as [E|E]; [|reflexivity].
    exfalso. apply Hx. rewrite <- E. now apply in_map.
  - destruct (Z.eqb_spec (WrongNoteRow.note_id x) (WrongNoteRow.note_id n0)) as [E|E].
    + exfalso. apply Hx. rewrite E. now apply in_map.
    + rewrite IH by auto. lia.
Qed.

Lemma sum_append_one (rows : list WrongNoteRow.t) (n : WrongNoteRow.t) :
  fold_right Z.add 0 (map WrongNoteRow.wrong_count (rows ++ [n]))
  = fold_right Z.add 0 (map WrongNoteRow.wrong_count rows) + WrongNoteRow.wrong_count n.
Proof.
  induction rows as [|x rows IH]; simpl; [lia|]. rewrite IH. lia.
Qed.

Lemma NoDup_append_fresh (ids : list Z) : NoDup ids -> NoDup (ids ++ [next_rowid ids]).
Proof.
  intros Hnd.
  apply (Permutation_NoDup (l := next_rowid ids :: ids));
    [apply Permutation_cons_append|].
  constructor; [|exact Hnd].
  intros Hin. apply next_rowid_above in Hin. lia.
Qed.

Lemma update_wrong_note_open (word_id latest_exam_id : Z) (w : World) :
  recording w ->
  let w' := snd (ExamModel._update_wrong_note word_id latest_exam_id w) in
  recording w'
  /\ same_elsewhere w w'
  /\ exam_questions (db w') = exam_questions (db w)
  /\ (note_ids_distinct (db w) ->
      note_ids_distinct (db w')
      /\ total_wrong_count (db w') = total_wrong_count (db w) + 1).
Proof.
  intros ([t0 Hc] & Hf). cbv zeta.
  pose proof (accepting_tl _ Hf) as Hf1.
  pose proof (accepting_tl _ Hf1) as Hf2.
  unfold ExamModel._update_wrong_note, ExamModel.sql_select_note, now_str, now,
    DBConnection.fetchone, bind, ret.
  cbv beta iota.
  set (w1 := set_ticks (S (ticks w)) w).
  assert (Hc1 : _conn w1 = Some (mkConnection (Some t0) false))
    by (destruct w; exact Hc).
  assert (Hfw1 : faults w1 = faults w) by (destruct w; reflexivity).
  assert (Hdb1 : db w1 = db w) by (destruct w; reflexivity).
  rewrite (execute_SELECT_open _ w1 _ Hc1) by (rewrite Hfw1; exact Hf).
  cbn [DBConnection.rows]. rewrite Hdb1, Hfw1.
  set (w2 := set_faults (tl (faults w)) w1).
  assert (Hc2 : _conn w2 = Some (mkConnection (Some t0) false))
    by (destruct w; exact Hc).
  assert (Hfw2 : faults w2 = tl (faults w)) by (destruct w; reflexivity).
  assert (Hdb2 : db w2 = db w) by (destruct w; reflexivity).
  destruct (filter (fun n => WrongNoteRow.word_id n =? word_id) (wrong_note (db w)))
    as [|n0 rest] eqn:Hfil; cbn [map hd_error].
  - unfold BaseModel.sql_insert.
    erewrite (execute_DML_open _ w2 t0); [|exact Hc2|rewrite Hfw2; exact Hf1|reflexivity].
    cbn [snd]. rewrite Hc2, Hfw2, Hdb2.
    unfold recording, in_explicit_transaction, same_elsewhere, total_wrong_count,
      note_ids_distinct.
    cbn [BaseModel.table BaseModel.set_table BaseModel.pk BaseModel.set_pk
         WrongNoteModel.model db faults _conn set_wrong_note wrong_note
         words word_statistics learning_history exam_history exam_questions].
    split; [|split; [|split]].
    + split; [exists t0; reflexivity | exact Hf2].
    + rewrite Hc. repeat split.
    + reflexivity.
    + intros Hnd. split; [|rewrite sum_append_one; reflexivity].
      rewrite map_app. cbn [map WrongNoteRow.set_note_id WrongNoteRow.note_id].
      now apply NoDup_append_fresh.
  - unfold ExamModel.sql_bump_note, BaseModel.sql_update.
    erewrite (execute_DML_open _ w2 t0); [|exact Hc2|rewrite Hfw2; exact Hf1|reflexivity].
    cbn [snd]. rewrite Hc2, Hfw2, Hdb2.
    unfold recording, in_explicit_transaction, same_elsewhere, total_wrong_count,
      note_ids_distinct.
    cbn [BaseModel.table BaseModel.set_table BaseModel.pk BaseModel.set_pk
         WrongNoteModel.model db faults _conn set_wrong_note wrong_note
         words word_statistics learning_history exam_history exam_questions].
    destruct (filter_head_holds _ _ _ _ Hfil) as [Hin _].
    split; [|split; [|split]].
    + split; [exists t0; reflexivity | exact Hf2].
    + rewrite Hc. repeat split.
    + reflexivity.
    + intros Hnd. split.
      { rewrite map_map. erewrite map_ext; [exact Hnd|].
        intros n. simpl. destruct (_ =? _); reflexivity. }
      apply (sum_bump_one (wrong_note (db w)) n0
               (fun n => WrongNoteRow.mk (WrongNoteRow.note_id n) (WrongNoteRow.word_id n)
                           latest_exam_id (WrongNoteRow.wrong_count n + 1)
                           (datetime.strftime_full (clock w (ticks w)))));
        auto.
Qed.

Lemma same_elsewhere_trans (w1 w2 w3 : World) :
  same_elsewhere w1 w2 -> same_elsewhere w2 w3 -> same_elsewhere w1 w3.
Proof.
  unfold same_elsewhere. intros (A1 & A2 & A3 & A4 & A5) (B1 & B2 & B3 & B4 & B5).
  repeat split; congruence.
Qed.

Lemma record_question_open (exam_id : Z) (q : Question) (w : World) :
  recording w ->
  plain q ->
  let w' := snd (ExamModel.record_question exam_id q w) in
  recording w'
  /\ same_elsewhere w w'
  /\ (exists r, exam_questions (db w') = exam_questions (db w) ++ [r]
                /\ recorded_as exam_id q r)
  /\ (note_ids_distinct (db w) ->
      note_ids_distinct (db w')
      /\ total_wrong_count (db w')
         = total_wrong_count (db w) + (if q_is_correct q =? 0 then 1 else 0)).
Proof.
  intros Hrec [Hkeys Hqid]. cbv zeta.
  pose proof Hrec as ([t0 Hc] & Hf).
  unfold ExamModel.record_question, ExamModel.sql_insert_question, bind, ret.
  erewrite (execute_DML_open _ w t0);
    [|exact Hc|exact Hf|cbv beta; rewrite Hkeys, Hqid; reflexivity].
  set (r := ExamQuestionRow.mk _ _ _ _ _ _ _).
  set (w1 := mkWorld _ _ _ _ _ _).
  assert (Hrec1 : recording w1).
  { split; [exists t0; exact Hc | apply accepting_tl; exact Hf]. }
  assert (Hsame1 : same_elsewhere w w1) by (repeat split).
  assert (Hq1 : exam_questions (db w1) = exam_questions (db w) ++ [r]) by reflexivity.
  assert (Hr : recorded_as exam_id q r) by (repeat split).
  assert (Hsum1 : total_wrong_count (db w1) = total_wrong_count (db w)) by reflexivity.
  assert (Hnd1 : note_ids_distinct (db w) -> note_ids_distinct (db w1)) by (intros H; exact H).
  clearbody w1 r.
  destruct (q_is_correct q =? 0).
  - destruct (update_wrong_note_open (q_word_id q) exam_id w1 Hrec1)
      as (Hrec2 & Hsame2 & Hq2 & Hsum2).
    destruct (ExamModel._update_wrong_note (q_word_id q) exam_id w1) as [b w2].
    cbn [snd] in *.
    split; [exact Hrec2|]. split; [eapply same_elsewhere_trans; eauto|].
    split; [exists r; split; [congruence | exact Hr]|].
    intros Hnd. destruct (Hsum2 (Hnd1 Hnd)) as [Hnd2 Hs2]. split; [exact Hnd2 | lia].
  - cbn [snd].
    split; [exact Hrec1|]. split; [exact Hsame1|].
    split; [exists r; split; [exact Hq1 | exact Hr]|].
    intros Hnd. split; [exact (Hnd1 Hnd) | lia].
Qed.

Lemma record_questions_open (exam_id : Z) (qs : list Question) (w : World) :
  recording w ->
  Forall plain qs ->
  let w' := snd (ExamModel.record_questions exam_id qs w) in
  recording w'
  /\ same_elsewhere w w'
  /\ (exists rows, exam_questions (db w') = exam_questions (db w) ++ rows
                   /\ Forall2 (recorded_as exam_id) qs rows)
  /\ (note_ids_distinct (db w) ->
      note_ids_distinct (db w')
      /\ total_wrong_count (db w') = total_wrong_count (db w) + misses qs).
Proof.
  revert w. induction qs as [|q qs IH]; intros w Hrec Hplain; cbv zeta.
  - cbn [ExamModel.record_questions ret snd].
    split; [exact Hrec|]. split; [repeat split|].
    split; [exists []; split; [now rewrite app_nil_r | constructor]|].
    intros Hnd. split; [exact Hnd|]. unfold misses. simpl. lia.
  - inversion Hplain as [|? ? Hq Hqs]; subst.
    cbn [ExamModel.record_questions]. unfold bind.
    destruct (record_question_open exam_id q w Hrec Hq)
      as (Hrec1 & Hsame1 & (r & Hq1 & Hr) & Hsum1).
    destruct (ExamModel.record_question exam_id q w) as [u w1]. cbn [snd] in *.
    destruct (IH w1 Hrec1 Hqs) as (Hrec2 & Hsame2 & (rows & Hq2 & Hrows) & Hsum2).
    split; [exact Hrec2|]. split; [eapply same_elsewhere_trans; eauto|].
    split.
    + exists (r :: rows). split; [|constructor; assumption].
      rewrite Hq2, Hq1, <- app_assoc. reflexivity.
    + intros Hnd. destruct (Hsum1 Hnd) as [Hnd1 Hs1].
      destruct (Hsum2 Hnd1) as [Hnd2 Hs2]. split; [exact Hnd2|].
      rewrite Hs2, Hs1. unfold misses. cbn [filter].
      destruct (q_is_correct q =? 0); cbn [List.length]; lia.
Qed.

Lemma next_rowid_positive (ids : list Z) :
  Forall (fun i => 0 < i) ids -> 0 < next_rowid ids.
Proof.
  unfold next_rowid. destruct ids as [|a rest]; [lia|].
  intros Hpos. inversion Hpos; subst.
  destruct (fold_max_bounds rest a) as [Ha _]. lia.
Qed.

(** record_exam_result from an idle connection when every statement is
    accepted and the questions are plain: where the world ends up. *)
Lemma record_exam_result_accepted
      (exam_type : string) (total_questions : Z) (score : float) (duration_sec : Z)
      (qs : list Question) (w : World) :
  idle w ->
  accepting (faults w) ->
  Forall plain qs ->
  exam_ids_positive (db w) ->
  let id := next_rowid (map ExamHistoryRow.exam_id (exam_history (db w))) in
  let h := ExamHistoryRow.mk id (datetime.strftime_full (clock w (ticks w)))
             exam_type total_questions score duration_sec 0 in
  let '(r, w') :=
    ExamModel.record_exam_result exam_type total_questions score duration_sec qs w in
  r = Some id
  /\ idle w'
  /\ accepting (faults w')
  /\ exam_history (db w') = exam_history (db w) ++ [h]
  /\ (exists rows, exam_questions (db w') = exam_questions (db w) ++ rows
                   /\ Forall2 (recorded_as id) qs rows)
  /\ (note_ids_distinct (db w) ->
      note_ids_distinct (db w')
      /\ total_wrong_count (db w') = total_wrong_count (db w) + misses qs)
  /\ words (db w') = words (db w)
  /\ word_statistics (db w') = word_statistics (db w)
  /\ learning_history (db w') = learning_history (db w).
Proof.
  intros Hi Hf Hplain Hpos. cbv zeta.
  assert (Hid : (next_rowid (map ExamHistoryRow.exam_id (exam_history (db w))) =? 0) = false).
  { apply Z.eqb_neq.
    assert (0 < next_rowid (map ExamHistoryRow.exam_id (exam_history (db w)))); [|lia].
    apply next_rowid_positive. rewrite Forall_map. exact Hpos. }
  pose proof (accepting_tl _ (accepting_tl _ Hf)) as Hf2.
  destruct w as [t c fs clk tk rg]. unfold idle in Hi.
  cbn [db faults clock ticks _conn] in *. subst c.
  set (id := next_rowid (map ExamHistoryRow.exam_id (exam_history t))) in *.
  set (h := ExamHistoryRow.mk id (datetime.strftime_full (clk tk))
              exam_type total_questions score duration_sec 0).
  set (w2 := mkWorld (set_exam_history (exam_history t ++ [h]) t)
                     (Some (mkConnection (Some t) false)) (tl (tl fs)) clk (S tk) rg).
  assert (Hrun :
    ExamModel.record_exam_result exam_type total_questions score duration_sec qs
      (mkWorld t None fs clk tk rg)
    = (let (_, w3) := ExamModel.record_questions id qs w2 in
       (DBConnection.commit ;; DBConnection.close ;; ret (Some id)) w3)).
  { unfold ExamModel.record_exam_result, DBConnection.connect,
      DBConnection.set_isolation_level_None, DBConnection.execute,
      DBConnection.next_fault, BaseModel.sql_insert, now_str, now, bind, ret.
    destruct Hf as [|b0 fs0 Hb0 Hf0]; [|destruct Hf0 as [|b1 fs1 Hb1 Hf1]]; subst;
      cbn [db faults clock ticks _conn rng set_conn set_faults set_ticks set_db
           DBConnection.conn_commit snapshot legacy
           DBConnection.lastrowid BaseModel.table BaseModel.set_table BaseModel.pk
           BaseModel.set_pk BaseModel.unique_ok ExamHistoryModel.model
           ExamHistoryRow.set_exam_id ExamHistoryRow.exam_date ExamHistoryRow.exam_type
           ExamHistoryRow.total_questions ExamHistoryRow.score
           ExamHistoryRow.duration_sec ExamHistoryRow.is_deleted tl];
      fold id; rewrite Hid; reflexivity. }
  rewrite Hrun. clear Hrun.
  assert (Hrec : recording w2).
  { split; [exists t; reflexivity | exact Hf2]. }
  destruct (record_questions_open id qs w2 Hrec Hplain)
    as (Hrec3 & Hsame & (rows & Hrows & Hall) & Hsum).
  destruct (ExamModel.record_questions id qs w2) as [u w3]. cbn [snd] in *.
  destruct Hrec3 as ([t0 Hc3] & Hf3).
  destruct Hsame as (_ & Hw & Hs & Hl & Hh).
  destruct w3 as [t3 c3 fs3 clk3 tk3 rg3]. cbn [db faults _conn] in *. subst c3.
  unfold DBConnection.commit, DBConnection.close, DBConnection.conn_commit,
    DBConnection.conn_rollback, bind, ret.
  cbn [db faults clock ticks _conn rng set_conn set_db].
  split; [reflexivity|]. split; [reflexivity|]. split; [exact Hf3|].
  split; [exact Hh|]. split; [exists rows; split; [exact Hrows | exact Hall]|].
  split; [exact Hsum|]. auto.
Qed.

Lemma filter_none {A : Type} (p : A -> bool) (l : list A) :
  (forall x, In x l -> p x = false) -> filter p l = [].
Proof.
  induction l as [|x l IH]; simpl; intros H; auto.
  rewrite (H x) by auto. apply IH. auto.
Qed.





(** X12: In the same situation, on a wrong-note table with distinct note ids:
    the wrong counts go up by one per question whose is_correct is 0, in
    total; the words, their statistics and the learning history are as they
    were. *)
Theorem exam_misses_reach_the_wrong_note
        (exam_type : string) (total_questions : Z) (score : float) (duration_sec : Z)
        (qs : list Question) (w : World) :
  idle w ->
  accepting (faults w) ->
  Forall plain qs ->
  exam_ids_positive (db w) ->
  note_ids_distinct (db w) ->
  let '(_, w1) :=
    ExamModel.record_exam_result exam_type total_questions score duration_sec qs w in
  total_wrong_count (db w1) = total_wrong_count (db w) + misses qs
  /\ note_ids_distinct (db w1)
  /\ words (db w1) = words (db w)
  /\ word_statistics (db w1) = word_statistics (db w)
  /\ learning_history (db w1) = learning_history (db w).
Proof.
  intros Hi Hf Hplain Hpos Hnd.
  pose proof (record_exam_result_accepted exam_type total_questions score duration_sec
                qs w Hi Hf Hplain Hpos) as H.
  cbv zeta in H.
  destruct (ExamModel.record_exam_result _ _ _ _ _ w) as [r w1].
  destruct H as (_ & _ & _ & _ & _ & Hsum & Hw & Hs & Hl).
  destruct (Hsum Hnd) as [Hnd1 Hs1]. auto.
Qed.

(** Ten answers, three of them wrong, on the sample wrong-note table. *)
Lemma exam_misses_witness :
  idle (world_at mixed_words [])
  /\ accepting (faults (world_at mixed_words []))
  /\ Forall plain ten_answers
  /\ exam_ids_positive (db (world_at mixed_words []))
  /\ note_ids_distinct (db (world_at mixed_words []))
  /\ total_wrong_count
       (db (snd (ExamModel.record_exam_result "short_answer" 10 (PyFloat.of_int 70) 30
                   ten_answers (world_at mixed_words []))))
     = total_wrong_count mixed_words + 3.
Proof.
  assert (Hplain : Forall plain ten_answers) by (repeat constructor).
  assert (Hpos : exam_ids_positive (db (world_at mixed_words []))) by constructor.
  assert (Hnd : note_ids_distinct (db (world_at mixed_words [])))
    by (repeat constructor; simpl; intuition discriminate).
  split; [reflexivity|]. split; [constructor|]. split; [exact Hplain|].
  split; [exact Hpos|]. split; [exact Hnd|].
  pose proof (exam_misses_reach_the_wrong_note "short_answer" 10 (PyFloat.of_int 70) 30
                ten_answers (world_at mixed_words []) eq_refl (Forall_nil _)
                Hplain Hpos Hnd) as H.
  destruct (ExamModel.record_exam_result "short_answer" 10 (PyFloat.of_int 70) 30
              ten_answers (world_at mixed_words [])) as [r w1].
  destruct H as (Hsum & _). exact Hsum.
Defined.

(* ================================================================== *)
(** * Further properties: when recording an exam fails *)
(* ================================================================== *)

Lemma commit_close_idle {A : Type} (a : A) (w : World) :
  let '(r, w') := (DBConnection.commit ;; DBConnection.close ;; ret a) w in
  r = a /\ idle w'.
Proof.
  unfold DBConnection.commit, DBConnection.close, DBConnection.conn_commit,
    DBConnection.conn_rollback, bind, ret, idle.
  destruct w as [t [[[t0|] l]|] fs clk tk rg]; simpl; auto.
Qed.

(** X13: record_exam_result returns None exactly when the INSERT into
    exam_history (its second statement) is rejected, and then the database
    is as it was.  In every other case it returns the new exam id: a
    rejected BEGIN and rejected statements of the question loop do not make
    it fail. *)
Theorem record_exam_result_fails_only_on_header
        (exam_type : string) (total_questions : Z) (score : float) (duration_sec : Z)
        (qs : list Question) (w : World) :
  idle w ->
  exam_ids_positive (db w) ->
  let '(r, w') :=
    ExamModel.record_exam_result exam_type total_questions score duration_sec qs w in
  idle w'
  /\ (nth 1 (faults w) false = true -> r = None /\ db w' = db w)
  /\ (nth 1 (faults w) false = false ->
      r = Some (next_rowid (map ExamHistoryRow.exam_id (exam_history (db w))))).
Proof.
  intros Hi Hpos.
  assert (Hid : (next_rowid (map ExamHistoryRow.exam_id (exam_history (db w))) =? 0)
                = false).
  { apply Z.eqb_neq.
    assert (0 < next_rowid (map ExamHistoryRow.exam_id (exam_history (db w)))); [|lia].
    apply next_rowid_positive. rewrite Forall_map. exact Hpos. }
  destruct w as [t c fs clk tk rg]. unfold idle in Hi.
  cbn [db faults clock ticks _conn] in *. subst c.
  set (id := next_rowid (map ExamHistoryRow.exam_id (exam_history t))) in *.
  unfold ExamModel.record_exam_result, ExamModel.on_exception, DBConnection.connect,
    DBConnection.set_isolation_level_None, DBConnection.execute,
    DBConnection.next_fault, BaseModel.sql_insert, now_str, now, bind, ret.
  destruct fs as [|b0 [|b1 fs]]; [| |destruct b1]; try destruct b0;
    cbn [db faults clock ticks _conn rng set_conn set_faults set_ticks set_db
         DBConnection.conn_commit DBConnection.conn_rollback snapshot legacy
         DBConnection.lastrowid BaseModel.table BaseModel.set_table BaseModel.pk
         BaseModel.set_pk BaseModel.unique_ok ExamHistoryModel.model nth];
    fold id; try rewrite Hid;
    try (match goal with
         | |- context [ExamModel.record_questions ?i ?q ?w0] =>
             destruct (ExamModel.record_questions i q w0) as [u w3];
             pose proof (commit_close_idle (Some id) w3) as Hcc;
             unfold bind, ret in Hcc;
             match type of Hcc with
             | let '(_, _) := ?e in _ => destruct e as [r w']
             end;
             destruct Hcc as [-> Hi']
         end;
         split; [exact Hi'|]; split; [discriminate | reflexivity]).
  all: destruct fs as [|[|] fs];
    cbn [db faults clock ticks _conn rng set_conn set_faults set_ticks set_db
         DBConnection.close DBConnection.conn_rollback snapshot legacy];
    (split; [reflexivity|]); (split; [auto | discriminate]).
Qed.

(** BEGIN accepted, the INSERT into exam_history rejected. *)
Lemma record_exam_result_fails_witness :
  idle (world_at two_words [false; true])
  /\ exam_ids_positive (db (world_at two_words [false; true]))
  /\ (let '(r, w') :=
        ExamModel.record_exam_result "short_answer" 10 (PyFloat.of_int 70) 30
          ten_answers (world_at two_words [false; true]) in
      r = None /\ db w' = two_words).
Proof.
  split; [reflexivity|]. split; [constructor|].
  pose proof (record_exam_result_fails_only_on_header "short_answer" 10
                (PyFloat.of_int 70) 30 ten_answers (world_at two_words [false; true])
                eq_refl (Forall_nil _)) as H.
  destruct (ExamModel.record_exam_result "short_answer" 10 (PyFloat.of_int 70) 30
              ten_answers (world_at two_words [false; true])) as [r w'].
  destruct H as (_ & H & _). exact (H eq_refl).
Defined.

(* ================================================================== *)
(** * Further properties: listings, favorites, physical delete *)
(* ================================================================== *)

(** X14: get_all_active_words returns the words that are not soft-deleted, each
    as often as the table holds it, oldest created_date first; a rejected
    query gives the empty list.  The database is not changed. *)
Theorem active_words_oldest_first (w : World) :
  idle w ->
  let '(l, w') := WordController.get_all_active_words w in
  db w' = db w
  /\ StronglySorted created_order l
  /\ (hd false (faults w) = false ->
      Permutation l (filter (fun r => WordRow.is_deleted r =? 0) (words (db w))))
  /\ (hd false (faults w) = true -> l = []).
Proof.
  intros Hi.
  unfold WordController.get_all_active_words, WordModel.select_active_words.
  rewrite select_all_idle by exact Hi.
  cbn [BaseModel.table WordModel.model].
  split; [destruct w; reflexivity|].
  destruct (hd false (faults w)).
  - split; [constructor|]. split; [discriminate | reflexivity].
  - split; [|split; [intros _; apply order_by_perm | discriminate]].
    apply (order_by_sorted
             (fun a b => text_le (WordRow.created_date a) (WordRow.created_date b))).
    + intros a b. apply text_le_total.
    + intros a b c. apply text_le_trans.
Qed.

Lemma active_words_oldest_first_witness :
  idle (world_at mixed_words [])
  /\ fst (WordController.get_all_active_words (world_at mixed_words []))
     = [apple; pear; desk]
  /\ StronglySorted created_order
       (fst (WordController.get_all_active_words (world_at mixed_words []))).
Proof.
  split; [reflexivity|]. split; [reflexivity|].
  pose proof (active_words_oldest_first (world_at mixed_words []) eq_refl) as H.
  destruct (WordController.get_all_active_words (world_at mixed_words [])) as [l w'].
  exact (proj1 (proj2 H)).
Defined.

(** X15: get_exam_history returns the exams that are not soft-deleted, newest
    exam_date first; a rejected query gives the empty list.  The database is
    not changed. *)
Theorem exam_history_newest_first (w : World) :
  idle w ->
  let '(l, w') := ExamController.get_exam_history w in
  db w' = db w
  /\ StronglySorted newest_first l
  /\ (hd false (faults w) = false ->
      Permutation l (filter (fun r => ExamHistoryRow.is_deleted r =? 0)
                            (exam_history (db w))))
  /\ (hd false (faults w) = true -> l = []).
Proof.
  intros Hi.
  unfold ExamController.get_exam_history.
  rewrite select_all_idle by exact Hi.
  cbn [BaseModel.table ExamHistoryModel.model].
  split; [destruct w; reflexivity|].
  destruct (hd false (faults w)).
  - split; [constructor|]. split; [discriminate | reflexivity].
  - split; [|split; [intros _; apply order_by_perm | discriminate]].
    apply (order_by_sorted
             (fun a b => text_le (ExamHistoryRow.exam_date b) (ExamHistoryRow.exam_date a))).
    + intros a b. apply text_le_total.
    + intros a b c Hab Hbc. eapply text_le_trans; eauto.
Qed.

(** Of three exams the soft-deleted one is left out and the newest comes
    first. *)
Lemma exam_history_newest_first_witness :
  idle (world_at exam_log [])
  /\ map ExamHistoryRow.exam_id
       (fst (ExamController.get_exam_history (world_at exam_log []))) = [2; 1]
  /\ StronglySorted newest_first
       (fst (ExamController.get_exam_history (world_at exam_log []))).
Proof.
  split; [reflexivity|]. split; [reflexivity|].
  pose proof (exam_history_newest_first (world_at exam_log []) eq_refl) as H.
  destruct (ExamController.get_exam_history (world_at exam_log [])) as [l w'].
  exact (proj1 (proj2 H)).
Defined.

(** X16: toggle_word_favorite succeeds exactly when the statement is accepted and
    the word exists, and False leaves the database as it was.  After a
    success the word is listed by select_favorites exactly when the flag was
    switched on and the word is not soft-deleted, and the listing of every
    other word is what it was. *)
Theorem toggle_favorite_shows_in_favorites (word_id : Z) (is_favorite : bool) (w : World) :
  idle w ->
  let '(ok, w') := WordController.toggle_word_favorite word_id is_favorite w in
  (ok = true <->
     hd false (faults w) = false /\ In word_id (map WordRow.word_id (words (db w))))
  /\ (ok = false -> db w' = db w)
  /\ (ok = true -> hd false (faults w') = false ->
      let favorites := fst (WordModel.select_favorites w') in
      ((exists r, In r favorites /\ WordRow.word_id r = word_id) <->
         is_favorite = true
         /\ exists r, In r (words (db w)) /\ WordRow.word_id r = word_id
                      /\ WordRow.is_deleted r = 0)
      /\ (forall r, WordRow.word_id r <> word_id ->
            (In r favorites <-> In r (filter is_active_favorite (words (db w)))))).
Proof.
  intros Hi.
  unfold WordController.toggle_word_favorite, WordModel.toggle_favorite.
  rewrite update_dated_idle by exact Hi. cbv zeta.
  cbn [BaseModel.table BaseModel.set_table BaseModel.pk WordModel.model
       BaseModel.set_modified_date WordModel.dated
       WordRow.word_id WordRow.word_text WordRow.meaning_ko WordRow.category
       WordRow.memo WordRow.is_favorite WordRow.created_date WordRow.modified_date
       WordRow.is_deleted].
  set (now := datetime.strftime_full (clock w (ticks w))).
  set (flag := if is_favorite then 1 else 0).
  set (hits := filter (fun r => WordRow.word_id r =? word_id) (words (db w))).
  assert (Hhits : 0 < Z.of_nat (List.length hits) <->
                  In word_id (map WordRow.word_id (words (db w)))).
  { rewrite in_map_iff. split.
    - destruct hits as [|r rest] eqn:E; [simpl; lia|]. intros _.
      destruct (filter_head_holds _ _ _ _ E) as [Hin Hk].
      apply Z.eqb_eq in Hk. eauto.
    - intros (r & Hk & Hin). apply (In_length_pos r). apply filter_In.
      split; [exact Hin | now apply Z.eqb_eq]. }
  destruct (hd false (faults w)); cbn [negb andb].
  { split; [|split]; [|destruct w; reflexivity|discriminate].
    split; [discriminate | intros [H _]; discriminate]. }
  destruct (Z.ltb_spec 0 (Z.of_nat (List.length hits))) as [Hpos|Hnone].
  2:{ split; [|split]; [|destruct w; reflexivity|discriminate].
      split; [discriminate|]. intros [_ H]. apply Hhits in H. lia. }
  split; [split; auto; intros _; split; auto; now apply Hhits|].
  split; [discriminate|]. intros _ Hacc. cbv zeta.
  set (w' := after 1 1 _) in *.
  assert (Hw' : words (db w') = map (with_favorite word_id flag now) (words (db w)))
    by (destruct w; reflexivity).
  unfold WordModel.select_favorites. rewrite select_all_rows, Hacc.
  cbn [BaseModel.table WordModel.model]. rewrite Hw'.
  fold is_active_favorite.
  assert (Hin' : forall r, In r (filter is_active_favorite
                                   (map (with_favorite word_id flag now) (words (db w))))
                   <-> exists r0, In r0 (words (db w))
                                  /\ r = with_favorite word_id flag now r0
                                  /\ is_active_favorite r = true).
  { intros r. rewrite filter_In, in_map_iff. split.
    - intros [(r0 & E & Hin) Hf]. eauto.
    - intros (r0 & Hin & E & Hf). eauto. }
  split.
  - split.
    + intros (r & Hr & Hk). apply Hin' in Hr. destruct Hr as (r0 & Hin0 & -> & Hf).
      unfold with_favorite in Hk, Hf.
      destruct (Z.eqb_spec (WordRow.word_id r0) word_id) as [E|E]; [|contradiction].
      unfold is_active_favorite in Hf. cbn in Hf.
      apply andb_true_iff in Hf. destruct Hf as [Hd Hfl].
      apply Z.eqb_eq in Hd, Hfl.
      split; [destruct is_favorite; [reflexivity | discriminate]|]. eauto.
    + intros (-> & r0 & Hin0 & Hk & Hd).
      exists (with_favorite word_id flag now r0). split.
      * apply Hin'. exists r0. split; [exact Hin0|]. split; [reflexivity|].
        unfold with_favorite, is_active_favorite. rewrite Hk, Z.eqb_refl. cbn.
        rewrite Hd. reflexivity.
      * unfold with_favorite. rewrite Hk, Z.eqb_refl. reflexivity.
  - intros r Hne. rewrite Hin', filter_In. split.
    + intros (r0 & Hin0 & -> & Hf). unfold with_favorite in *.
      destruct (Z.eqb_spec (WordRow.word_id r0) word_id) as [E|E];
        [cbn in Hne; contradiction | auto].
    + intros [Hin0 Hf]. exists r. split; [exact Hin0|]. split; [|exact Hf].
      unfold with_favorite.
      destruct (Z.eqb_spec (WordRow.word_id r) word_id) as [E|E];
        [contradiction | reflexivity].
Qed.

(** pear switched on: the favorites are pear alone. *)
Lemma toggle_favorite_witness :
  idle (world_at two_words [])
  /\ map WordRow.word_id
       (fst (WordModel.select_favorites
               (snd (WordController.toggle_word_favorite 2 true
                       (world_at two_words []))))) = [2]
  /\ fst (WordController.toggle_word_favorite 2 true (world_at two_words [])) = true.
Proof.
  split; [reflexivity|]. split; [reflexivity|].
  pose proof (toggle_favorite_shows_in_favorites 2 true (world_at two_words [])
                eq_refl) as H.
  destruct (WordController.toggle_word_favorite 2 true (world_at two_words []))
    as [ok w'].
  destruct H as (H & _). apply H. split; [reflexivity|]. simpl. auto.
Defined.

(** hard_delete on an idle connection: one statement. *)
Lemma hard_delete_idle (word_id : Z) (w : World) :
  idle w ->
  WordModel.hard_delete word_id w =
  let hits := filter (fun r => WordRow.word_id r =? word_id) (words (db w)) in
  if negb (hd false (faults w)) && (0 <? Z.of_nat (List.length hits))
  then (true,
        after 0 1
          (set_db (BaseModel.set_table
                     (filter (fun r => negb (WordRow.word_id r =? word_id))
                             (words (db w))) (db w)) w))
  else (false, after 0 1 w).
Proof.
  intros Hi.
  unfold WordModel.hard_delete, BaseModel.delete, BaseModel.run_delete,
    BaseModel.sql_delete, DBConnection.connect,
    DBConnection.execute, DBConnection.next_fault, DBConnection.commit,
    DBConnection.close, after, bind, ret.
  destruct w as [t c fs clk tk rg]. unfold idle in Hi. simpl in Hi. subst c.
  destruct fs as [|[|] fs]; simpl; try reflexivity;
    destruct (0 <? _); reflexivity.
Qed.

(** X17: hard_delete removes the rows of the word from the words table and
    nothing else: it succeeds exactly when the statement is accepted and the
    word exists; False leaves the database as it was; after a success a
    lookup of the id finds nothing, the other words are as they were, and
    the statistics and wrong-note entries of the word stay behind. *)
Theorem hard_delete_removes_the_row (word_id : Z) (w : World) :
  idle w ->
  let '(ok, w') := WordModel.hard_delete word_id w in
  (ok = true <->
     hd false (faults w) = false /\ In word_id (map WordRow.word_id (words (db w))))
  /\ (ok = false -> db w' = db w)
  /\ (ok = true ->
      fst (WordController.get_word_by_id word_id w') = None
      /\ (forall r, In r (words (db w')) <->
                    In r (words (db w)) /\ WordRow.word_id r <> word_id)
      /\ word_statistics (db w') = word_statistics (db w)
      /\ wrong_note (db w') = wrong_note (db w)).
Proof.
  intros Hi. rewrite hard_delete_idle by exact Hi. cbv zeta.
  set (hits := filter (fun r => WordRow.word_id r =? word_id) (words (db w))).
  assert (Hhits : 0 < Z.of_nat (List.length hits) <->
                  In word_id (map WordRow.word_id (words (db w)))).
  { rewrite in_map_iff. split.
    - destruct hits as [|r rest] eqn:E; [simpl; lia|]. intros _.
      destruct (filter_head_holds _ _ _ _ E) as [Hin Hk].
      apply Z.eqb_eq in Hk. eauto.
    - intros (r & Hk & Hin). apply (In_length_pos r). apply filter_In.
      split; [exact Hin | now apply Z.eqb_eq]. }
  destruct (hd false (faults w)); cbn [negb andb].
  { split; [|split]; [|destruct w; reflexivity|discriminate].
    split; [discriminate | intros [H _]; discriminate]. }
  destruct (Z.ltb_spec 0 (Z.of_nat (List.length hits))) as [Hpos|Hnone].
  2:{ split; [|split]; [|destruct w; reflexivity|discriminate].
      split; [discriminate|]. intros [_ H]. apply Hhits in H. lia. }
  split; [split; auto; intros _; split; auto; now apply Hhits|].
  split; [discriminate|]. intros _.
  set (w' := after 0 1 _).
  assert (Hw' : words (db w')
                = filter (fun r => negb (WordRow.word_id r =? word_id)) (words (db w)))
    by (destruct w; reflexivity).
  assert (Hi' : idle w') by (destruct w; exact Hi).
  split; [|split; [|split; destruct w; reflexivity]].
  - unfold WordController.get_word_by_id.
    rewrite select_by_id_idle by exact Hi'. cbn [fst].
    destruct (hd false (faults w')); [reflexivity|].
    cbn [BaseModel.table BaseModel.pk WordModel.model]. rewrite Hw'.
    rewrite filter_none; [reflexivity|].
    intros x Hx. apply filter_In in Hx. destruct Hx as [_ Hx].
    now apply negb_true_iff in Hx.
  - intros r. rewrite Hw', filter_In, negb_true_iff, Z.eqb_neq. reflexivity.
Qed.

(** apple removed for good from a table where it has statistics. *)
Lemma hard_delete_witness :
  idle (world_at apple_mastered [])
  /\ (let '(ok, w') := WordModel.hard_delete 1 (world_at apple_mastered []) in
      ok = true
      /\ fst (WordController.get_word_by_id 1 w') = None
      /\ word_statistics (db w') = word_statistics apple_mastered).
Proof.
  split; [reflexivity|].
  pose proof (hard_delete_removes_the_row 1 (world_at apple_mastered []) eq_refl) as H.
  destruct (WordModel.hard_delete 1 (world_at apple_mastered [])) as [ok w'] eqn:E.
  destruct H as (Hok & _ & Hs).
  assert (Ht : ok = true) by (apply Hok; split; [reflexivity | simpl; auto]).
  destruct (Hs Ht) as (Hg & _ & Hst & _).
  split; [exact Ht|]. split; [exact Hg | exact Hst].
Defined.
